(** * ConcordiaSync: schedule normalisation and calendar materialisation

    A shallow embedding of [backend/services/courseService.js] and
    [backend/services/scheduleService.js].

    Conventions of the embedding.
    - A JavaScript string is a [string]: one [ascii] per UTF-16 code unit,
      so the strings covered are those whose code units are below 256.
    - A JavaScript number that the code uses as an integer is a [Z].
    - [null] results are [None]. *)

From Stdlib Require Import ZArith List Bool Ascii String Lia Sorted.
Import ListNotations.

Open Scope list_scope.
Open Scope string_scope.
Open Scope Z_scope.

(** ** JavaScript values and the string built-ins the services call *)

Module Js.

(** The scalar values a decoded JSON field can hold ([Num] carries the
    integers, printed in plain decimal). *)
Inductive value : Type :=
| Undefined
| Null
| Bool (b : bool)
| Num (n : Z)
| Str (s : string).

(** ToBoolean. *)
Definition truthy (v : value) : bool :=
  match v with
  | Undefined | Null => false
  | Bool b => b
  | Num n => negb (n =? 0)
  | Str s => negb (s =? "")%string
  end.

(** [a || b]. *)
Definition or (a b : value) : value := if truthy a then a else b.

Definition code (c : ascii) : Z := Z.of_nat (nat_of_ascii c).

(** [\d]. *)
Definition isDigit (c : ascii) : bool := (48 <=? code c) && (code c <=? 57).

(** [\s], and what [trim] strips: WhiteSpace and LineTerminator code units
    below 256. *)
Definition isWhiteSpace (c : ascii) : bool :=
  let n := code c in
  ((9 <=? n) && (n <=? 13)) || (n =? 32) || (n =? 160).

(** [[\u0000-\u001F\u007F-\u009F]]. *)
Definition isControl (c : ascii) : bool :=
  let n := code c in
  (n <=? 31) || ((127 <=? n) && (n <=? 159)).

(** Upper-casing of one code unit, as regular-expression case folding and
    the table look-ups see it: only [a]-[z] reach an ASCII letter. *)
Definition upperChar (c : ascii) : ascii :=
  let n := code c in
  if (97 <=? n) && (n <=? 122) then ascii_of_nat (Z.to_nat (n - 32)) else c.

Fixpoint toUpperCase (s : string) : string :=
  match s with
  | EmptyString => EmptyString
  | String c r => String (upperChar c) (toUpperCase r)
  end.

Fixpoint trimStart (s : string) : string :=
  match s with
  | EmptyString => EmptyString
  | String c r => if isWhiteSpace c then trimStart r else s
  end.

Fixpoint trimEnd (s : string) : string :=
  match s with
  | EmptyString => EmptyString
  | String c r =>
      match trimEnd r with
      | EmptyString => if isWhiteSpace c then EmptyString else String c EmptyString
      | r' => String c r'
      end
  end.

Definition trim (s : string) : string := trimEnd (trimStart s).

(** [s.substring(0, n)]. *)
Definition prefix (n : nat) (s : string) : string := substring 0 n s.

Fixpoint filterChars (keep : ascii -> bool) (s : string) : string :=
  match s with
  | EmptyString => EmptyString
  | String c r => if keep c then String c (filterChars keep r) else filterChars keep r
  end.

Fixpoint allChars (p : ascii -> bool) (s : string) : bool :=
  match s with
  | EmptyString => true
  | String c r => p c && allChars p r
  end.

Definition digitChar (d : Z) : ascii := ascii_of_nat (Z.to_nat (48 + d)).

Fixpoint decimalDigits (fuel : nat) (n : Z) (acc : string) : string :=
  match fuel with
  | O => acc
  | S fuel' =>
      let acc' := String (digitChar (n mod 10)) acc in
      if n <? 10 then acc' else decimalDigits fuel' (n / 10) acc'
  end.

(** Number.prototype.toString on an integer. *)
Definition numberToString (n : Z) : string :=
  let digits m := decimalDigits (S (Z.to_nat (Z.log2 m))) m "" in
  if n <? 0 then String "-" (digits (- n)) else digits n.

(** ToString, as template literals and [+] on a string apply it. *)
Definition toString (v : value) : string :=
  match v with
  | Undefined => "undefined"
  | Null => "null"
  | Bool true => "true"
  | Bool false => "false"
  | Num n => numberToString n
  | Str s => s
  end.

Fixpoint repeatChar (n : nat) (c : ascii) : string :=
  match n with
  | O => EmptyString
  | S k => String c (repeatChar k c)
  end.

(** [s.padStart(n, c)] for a one-character filler. *)
Definition padStart (n : nat) (c : ascii) (s : string) : string :=
  repeatChar (n - length s) c ++ s.

Definition digitValue (radix : Z) (c : ascii) : option Z :=
  let n := code c in
  let v := if (48 <=? n) && (n <=? 57) then n - 48
           else if (97 <=? n) && (n <=? 122) then n - 87
           else if (65 <=? n) && (n <=? 90) then n - 55
           else radix in
  if v <? radix then Some v else None.

(** The longest prefix of digits of the radix, read as a number; [None]
    when there is no digit. *)
Fixpoint readDigits (radix : Z) (s : string) (acc : option Z) : option Z :=
  match s with
  | EmptyString => acc
  | String c r =>
      match digitValue radix c with
      | Some d => readDigits radix r (Some (match acc with Some a => a * radix + d | None => d end))
      | None => acc
      end
  end.

(** [parseInt(s)] and [parseInt(s, 10)]: [None] is NaN.  With no radix a
    [0x] prefix selects base 16. *)
Definition parseInt (s : string) (radix : option Z) : option Z :=
  let s1 := trimStart s in
  let '(sign, s2) :=
    match s1 with
    | String "-"%char r => (-1, r)
    | String "+"%char r => (1, r)
    | _ => (1, s1)
    end in
  let '(r, s3) :=
    match radix, s2 with
    | None, String "0"%char (String x rest) =>
        if (x =? "x")%char || (x =? "X")%char then (16, rest) else (10, s2)
    | None, _ => (10, s2)
    | Some r, _ => (r, s2)
    end in
  option_map (Z.mul sign) (readDigits r s3 None).

(** [parseInt(v)] on a value: the argument is converted by ToString. *)
Definition parseIntValue (v : value) : option Z := parseInt (toString v) None.

Fixpoint join (sep : string) (l : list string) : string :=
  match l with
  | [] => ""
  | [x] => x
  | x :: rest => x ++ sep ++ join sep rest
  end.

End Js.

(** ** courseService.js *)

Module CourseService.

Import Js.

(** [sanitizeString(str)]. *)
Definition sanitizeString (str : value) : string :=
  match str with
  | Str s =>
      if (s =? "")%string then ""
      else prefix 500 (filterChars (fun c => negb (isControl c)) (trim s))
  | _ => ""
  end.

Inductive ClassType := Lecture | Laboratory | Tutorial | Seminar | Workshop.

Definition typeMap : list (string * ClassType) :=
  [ ("LEC", Lecture); ("LECTURE", Lecture);
    ("LAB", Laboratory); ("LABORATORY", Laboratory);
    ("TUT", Tutorial); ("TUTORIAL", Tutorial);
    ("SEM", Seminar); ("SEMINAR", Seminar);
    ("WOR", Workshop); ("WORKSHOP", Workshop) ].

Fixpoint lookup {A : Type} (k : string) (m : list (string * A)) : option A :=
  match m with
  | [] => None
  | (k', v) :: rest => if (k =? k')%string then Some v else lookup k rest
  end.

(** [normalizeClassType(type)]. *)
Definition normalizeClassType (type : value) : ClassType :=
  match type with
  | Str s =>
      match lookup (toUpperCase s) typeMap with
      | Some t => t
      | None => Lecture
      end
  | _ => Lecture
  end.

Definition classTypeName (t : ClassType) : string :=
  match t with
  | Lecture => "Lecture"
  | Laboratory => "Laboratory"
  | Tutorial => "Tutorial"
  | Seminar => "Seminar"
  | Workshop => "Workshop"
  end.

(** *** The time pattern

    [/^(\d{1,2}):(\d{2})(?::(\d{2}))?(?:\s*(AM|PM))?$/i], matched from the
    left with the engine's greedy choices and its backtracking. *)

Record TimeMatch := {
  tmHour : string;
  tmMinute : string;
  tmSecond : option string;
  tmPeriod : option string
}.

(** [(\d{1,2}):] : two digits are tried first, then one. *)
Definition matchHour (s : string) : option (string * string) :=
  match s with
  | String a r1 =>
      if isDigit a then
        match r1 with
        | String b r2 =>
            let one := if (b =? ":")%char then Some (String a "", r2) else None in
            if isDigit b then
              match r2 with
              | String c r3 => if (c =? ":")%char then Some (String a (String b ""), r3) else one
              | EmptyString => one
              end
            else one
        | EmptyString => None
        end
      else None
  | EmptyString => None
  end.

(** [(\d{2})]. *)
Definition matchTwoDigits (s : string) : option (string * string) :=
  match s with
  | String a (String b r) =>
      if isDigit a && isDigit b then Some (String a (String b ""), r) else None
  | _ => None
  end.

(** [(?:\s*(AM|PM))?$] : the group is tried first, then skipped. *)
Definition matchPeriodEnd (s : string) : option (option string) :=
  let t := trimStart s in
  let u := toUpperCase t in
  if ((u =? "AM") || (u =? "PM"))%string then Some (Some t)
  else if (s =? "")%string then Some None
  else None.

(** [(?::(\d{2}))?] followed by the rest of the pattern. *)
Definition matchSecondsPeriodEnd (s : string) : option (option string * option string) :=
  let skipped := option_map (fun p => (None, p)) (matchPeriodEnd s) in
  match s with
  | String c r =>
      if (c =? ":")%char then
        match matchTwoDigits r with
        | Some (sec, r') =>
            match matchPeriodEnd r' with
            | Some p => Some (Some sec, p)
            | None => skipped
            end
        | None => skipped
        end
      else skipped
  | EmptyString => skipped
  end.

Definition timePattern (s : string) : option TimeMatch :=
  match matchHour s with
  | Some (h, r1) =>
      match matchTwoDigits r1 with
      | Some (m, r2) =>
          match matchSecondsPeriodEnd r2 with
          | Some (sec, p) =>
              Some {| tmHour := h; tmMinute := m; tmSecond := sec; tmPeriod := p |}
          | None => None
          end
      | None => None
      end
  | None => None
  end.

(** The 12-hour adjustment of [sanitizeTime]. *)
Definition adjustHour (period : option string) (hour : Z) : Z :=
  match period with
  | Some p =>
      let hour1 := if (toUpperCase p =? "PM")%string && negb (hour =? 12)
                   then hour + 12 else hour in
      if (toUpperCase p =? "AM")%string && (hour1 =? 12) then 0 else hour1
  | None => hour
  end.

Definition formatHHMM (hour minute : Z) : string :=
  padStart 2 "0" (numberToString hour) ++ ":" ++ padStart 2 "0" (numberToString minute).

(** [sanitizeTime(timeStr)]. *)
Definition sanitizeTime (timeStr : value) : option string :=
  match timeStr with
  | Str s =>
      if (s =? "")%string then None
      else
        match timePattern (trim s) with
        | None => None
        | Some m =>
            (* the captures are digits, so both [parseInt] calls give numbers *)
            match parseInt (tmHour m) (Some 10), parseInt (tmMinute m) (Some 10) with
            | Some hour, Some minute =>
                Some (formatHHMM (adjustHour (tmPeriod m) hour) minute)
            | _, _ => None
            end
        end
  | _ => None
  end.

(** [convertTimeFormat(timeStr)]. *)
Definition convertTimeFormat (timeStr : value) : option string :=
  match timeStr with
  | Str s =>
      if (s =? "")%string then None
      else if (length s =? 4)%nat && allChars isDigit s then
        Some (substring 0 2 s ++ ":" ++ substring 2 2 s)
      else sanitizeTime timeStr
  | _ => None
  end.

(** *** Day parsing *)

Definition dayMap : list (string * Z) :=
  [ ("M", 0); ("Mo", 0); ("Monday", 0);
    ("T", 1); ("Tu", 1); ("Tuesday", 1);
    ("W", 2); ("We", 2); ("Wednesday", 2);
    ("R", 3); ("Th", 3); ("Thursday", 3);
    ("F", 4); ("Fr", 4); ("Friday", 4);
    ("S", 5); ("Sa", 5); ("Saturday", 5);
    ("U", 6); ("Su", 6); ("Sunday", 6) ].

(** The alternatives of [dayPattern], in the order the engine tries them. *)
Definition dayAlternatives : list string :=
  [ "Mo"; "Tu"; "We"; "Th"; "Fr"; "Sa"; "Su";
    "M"; "T"; "W"; "R"; "F"; "S"; "U";
    "Monday"; "Tuesday"; "Wednesday"; "Thursday"; "Friday"; "Saturday"; "Sunday" ].

(** One alternative against the start of [s], ignoring case; the result is
    the matched text of [s] itself. *)
Fixpoint matchIgnoreCase (pat s : string) : option string :=
  match pat with
  | EmptyString => Some EmptyString
  | String p pat' =>
      match s with
      | String c r =>
          if (upperChar p =? upperChar c)%char
          then option_map (String c) (matchIgnoreCase pat' r)
          else None
      | EmptyString => None
      end
  end.

Fixpoint firstMatch (alts : list string) (s : string) : option string :=
  match alts with
  | [] => None
  | a :: rest =>
      match matchIgnoreCase a s with
      | Some tok => Some tok
      | None => firstMatch rest s
      end
  end.

(** [days.includes(dayNum)]. *)
Definition includes (d : Z) (days : list Z) : bool := existsb (Z.eqb d) days.

(** The body of the [while ((match = dayPattern.exec(dayString)) !== null)]
    loop on one match. *)
Definition recordDay (tok : string) (days : list Z) : list Z :=
  match lookup tok dayMap with
  | Some dayNum => if includes dayNum days then days else (days ++ [dayNum])%list
  | None => days
  end.

(** The global-flag scan: [skip] counts the code units of the last match
    that are still to be passed over. *)
Fixpoint scanDays (s : string) (skip : nat) (days : list Z) : list Z :=
  match s with
  | EmptyString => days
  | String _ r =>
      match skip with
      | S k => scanDays r k days
      | O =>
          match firstMatch dayAlternatives s with
          | Some tok => scanDays r (length tok - 1) (recordDay tok days)
          | None => scanDays r 0 days
          end
      end
  end.

(** [Array.prototype.sort()] with no comparator: elements are ordered by
    their string forms, and the sort is stable. *)
Definition sortBefore (x y : Z) : bool := String.ltb (toString (Num x)) (toString (Num y)).

Fixpoint insertSorted (x : Z) (l : list Z) : list Z :=
  match l with
  | [] => [x]
  | y :: r => if sortBefore x y then x :: l else y :: insertSorted x r
  end.

Definition sort (l : list Z) : list Z :=
  fold_left (fun acc x => insertSorted x acc) l [].

(** [parseDays(dayString)]. *)
Definition parseDays (dayString : value) : list Z :=
  match dayString with
  | Str s => if (s =? "")%string then [] else sort (scanDays s 0 [])
  | _ => []
  end.

(** *** The schedule feed *)

Record Instructor := {
  firstName : value;
  lastName : value
}.

(** One row of the schedule feed. *)
Record ScheduleItem := {
  section : value;
  componentCode : value;
  instructors : list Instructor;
  locationCode : value;
  classCapacity : value;
  enrollmentTotal : value;
  waitlistTotal : value;
  modays : value;
  tuesdays : value;
  wednesdays : value;
  thursdays : value;
  fridays : value;
  saturdays : value;
  sundays : value;
  classStartTime : value;
  classEndTime : value
}.

Record Meeting := {
  days : list Z;
  startTime : string;
  endTime : string;
  mLocation : string;
  mType : ClassType
}.

Record Section := {
  sSection : string;
  sType : ClassType;
  instructor : string;
  sLocation : string;
  schedule : list Meeting;
  capacity : option Z;
  enrolled : option Z;
  waitlist : option Z
}.

(** [v === 'Y']. *)
Definition isY (v : value) : bool :=
  match v with
  | Str s => (s =? "Y")%string
  | _ => false
  end.

(** [extractDaysFromSchedule(item)]. *)
Definition extractDaysFromSchedule (item : ScheduleItem) : list Z :=
  let push (flag : value) (d : Z) (days : list Z) :=
    if isY flag then (days ++ [d])%list else days in
  push (sundays item) 6
    (push (saturdays item) 5
      (push (fridays item) 4
        (push (thursdays item) 3
          (push (wednesdays item) 2
            (push (tuesdays item) 1
              (push (modays item) 0 [])))))).

Definition sectionKey (item : ScheduleItem) : string :=
  toString (section item) ++ "-" ++ toString (componentCode item).

(** [item.instructors?.[0]?.firstName + ' ' + item.instructors?.[0]?.lastName || ''] *)
Definition instructorName (item : ScheduleItem) : value :=
  let first := match instructors item with
               | i :: _ => (firstName i, lastName i)
               | [] => (Undefined, Undefined)
               end in
  or (Str (toString (fst first) ++ " " ++ toString (snd first))) (Str "").

(** The object stored under a key that is not yet in [sectionsMap]. *)
Definition newSection (item : ScheduleItem) : Section :=
  {| sSection := sanitizeString (section item);
     sType := normalizeClassType (componentCode item);
     instructor := sanitizeString (instructorName item);
     sLocation := sanitizeString (or (locationCode item) (Str ""));
     schedule := [];
     capacity := parseIntValue (or (classCapacity item) (Num 0));
     enrolled := parseIntValue (or (enrollmentTotal item) (Num 0));
     waitlist := parseIntValue (or (waitlistTotal item) (Num 0)) |}.

Definition anyDayFlag (item : ScheduleItem) : bool :=
  truthy (modays item) || truthy (tuesdays item) || truthy (wednesdays item)
  || truthy (thursdays item) || truthy (fridays item) || truthy (saturdays item)
  || truthy (sundays item).

(** The meeting a row builds, when it passes
    [meeting.days.length > 0 && meeting.startTime && meeting.endTime]. *)
Definition meetingOf (item : ScheduleItem) : option Meeting :=
  if anyDayFlag item then
    match convertTimeFormat (classStartTime item), convertTimeFormat (classEndTime item) with
    | Some st, Some en =>
        if (0 <? List.length (extractDaysFromSchedule item))%nat
           && truthy (Str st) && truthy (Str en)
        then Some {| days := extractDaysFromSchedule item;
                     startTime := st;
                     endTime := en;
                     mLocation := sanitizeString (or (locationCode item) (Str ""));
                     mType := normalizeClassType (componentCode item) |}
        else None
    | _, _ => None
    end
  else None.

(** [sectionsMap] is a [Map]: keys in insertion order, one entry per key. *)
Definition SectionsMap := list (string * Section).

Definition has (k : string) (m : SectionsMap) : bool :=
  existsb (fun e => (fst e =? k)%string) m.

Definition pushMeeting (mt : Meeting) (s : Section) : Section :=
  {| sSection := sSection s; sType := sType s; instructor := instructor s;
     sLocation := sLocation s; schedule := (schedule s ++ [mt])%list;
     capacity := capacity s; enrolled := enrolled s; waitlist := waitlist s |}.

(** [sectionsMap.get(k).schedule.push(mt)]: the stored object is updated in
    place. *)
Fixpoint pushAt (k : string) (mt : Meeting) (m : SectionsMap) : SectionsMap :=
  match m with
  | [] => []
  | (k', s) :: rest =>
      if (k' =? k)%string then (k', pushMeeting mt s) :: rest
      else (k', s) :: pushAt k mt rest
  end.

(** The body of [scheduleData.forEach]. *)
Definition processItem (m : SectionsMap) (item : ScheduleItem) : SectionsMap :=
  let k := sectionKey item in
  let m1 := if has k m then m else (m ++ [(k, newSection item)])%list in
  match meetingOf item with
  | Some mt => pushAt k mt m1
  | None => m1
  end.

Definition buildSectionsMap (scheduleData : list ScheduleItem) : SectionsMap :=
  fold_left processItem scheduleData [].

(** [processScheduleResponse(scheduleData)]. *)
Definition processScheduleResponse (scheduleData : list ScheduleItem) : list Section :=
  filter (fun s => (0 <? List.length (schedule s))%nat) (map snd (buildSectionsMap scheduleData)).

(** *** The catalog shape *)

Record RawMeeting := {
  rmDays : value;
  rmDay : value;
  rmStartTime : value;
  rmStart : value;
  rmEndTime : value;
  rmEnd : value;
  rmLocation : value;
  rmRoom : value;
  rmType : value
}.

(** One element of [processScheduleData]'s [map], kept by its [filter]. *)
Definition processMeeting (meeting : RawMeeting) : option Meeting :=
  let ds := parseDays (or (or (rmDays meeting) (rmDay meeting)) (Str "")) in
  match sanitizeTime (or (rmStartTime meeting) (rmStart meeting)),
        sanitizeTime (or (rmEndTime meeting) (rmEnd meeting)) with
  | Some st, Some en =>
      if (0 <? List.length ds)%nat && truthy (Str st) && truthy (Str en)
      then Some {| days := ds; startTime := st; endTime := en;
                   mLocation := sanitizeString (or (or (rmLocation meeting) (rmRoom meeting)) (Str ""));
                   mType := normalizeClassType (or (rmType meeting) (Str "LEC")) |}
      else None
  | _, _ => None
  end.

(** [processScheduleData(scheduleData)] on an array of raw meetings. *)
Definition processScheduleData (scheduleData : list RawMeeting) : list Meeting :=
  flat_map (fun m => match processMeeting m with Some x => [x] | None => [] end) scheduleData.

End CourseService.

(** ** The [Date] object

    A [Date] is its time value: milliseconds since the epoch.  Local time
    is taken to be UTC, so a day is always 86400000 ms long.  The calendar
    functions are those of ECMA-262 (Day, WeekDay, MakeDay, MakeDate), with
    the year, month and day of month computed in closed form on the
    proleptic Gregorian calendar. *)

Module JsDate.

Definition msPerDay : Z := 86400000.

Definition Day (t : Z) : Z := t / msPerDay.

Definition TimeWithinDay (t : Z) : Z := t mod msPerDay.

(** 0 is Sunday: 1 January 1970 was a Thursday. *)
Definition WeekDay (t : Z) : Z := (Day t + 4) mod 7.

(** Day number of the civil date [y]-[m]-[d], [m] counted from 1. *)
Definition daysFromCivil (y m d : Z) : Z :=
  let y' := if m <=? 2 then y - 1 else y in
  let era := y' / 400 in
  let yoe := y' - era * 400 in
  let mp := if 2 <? m then m - 3 else m + 9 in
  let doy := (153 * mp + 2) / 5 + d - 1 in
  let doe := yoe * 365 + yoe / 4 - yoe / 100 + doy in
  era * 146097 + doe - 719468.

(** Civil date (year, month from 1, day of month) of a day number. *)
Definition civilFromDays (z : Z) : Z * Z * Z :=
  let z' := z + 719468 in
  let era := z' / 146097 in
  let doe := z' - era * 146097 in
  let yoe := (doe - doe / 1460 + doe / 36524 - doe / 146096) / 365 in
  let doy := doe - (365 * yoe + yoe / 4 - yoe / 100) in
  let mp := (5 * doy + 2) / 153 in
  let d := doy - (153 * mp + 2) / 5 + 1 in
  let m := if mp <? 10 then mp + 3 else mp - 9 in
  let y := yoe + era * 400 + (if m <=? 2 then 1 else 0) in
  (y, m, d).

Definition getFullYear (t : Z) : Z := fst (fst (civilFromDays (Day t))).

(** 0 is January. *)
Definition getMonth (t : Z) : Z := snd (fst (civilFromDays (Day t))) - 1.

Definition getDate (t : Z) : Z := snd (civilFromDays (Day t)).

Definition getDay (t : Z) : Z := WeekDay t.

Definition MakeDay (year month date : Z) : Z :=
  daysFromCivil (year + month / 12) (month mod 12 + 1) 1 + date - 1.

Definition MakeDate (day time : Z) : Z := day * msPerDay + time.

(** [date.setDate(dt)]: the new time value. *)
Definition setDate (t dt : Z) : Z :=
  MakeDate (MakeDay (getFullYear t) (getMonth t) dt) (TimeWithinDay t).

(** [new Date(year, monthIndex, day)]; years 0 to 99 mean 1900 to 1999. *)
Definition fromComponents (year month date : Z) : Z :=
  let yr := if (0 <=? year) && (year <=? 99) then 1900 + year else year in
  MakeDate (MakeDay yr month date) 0.

End JsDate.

(** ** scheduleService.js *)

Module ScheduleService.

Import Js JsDate.

Definition dquote : ascii := ascii_of_nat 34.

(** The record [getCourseDetails] resolves to.  [cCredits] is a
    floating-point number that is only copied and printed; it is carried by
    its printed form. *)
Record CourseDetails := {
  cCode : string;
  cTitle : string;
  cCredits : string;
  cSections : list CourseService.Section;
  cDescription : string;
  cPrerequisites : string;
  cDepartment : string
}.

Record ScheduleEvent := {
  subject : string;
  day : Z;
  startTime : string;
  endTime : string;
  location : string;
  description : string;
  type : CourseService.ClassType;
  instructor : string;
  section : string;
  credits : string;
  department : string
}.

(** [a || b] on strings. *)
Definition orElse (a b : string) : string := if (a =? "")%string then b else a.

(** [convertToScheduleEvents(courseDetails, section)]. *)
Definition convertToScheduleEvents (courseDetails : CourseDetails)
    (sec : CourseService.Section) : list ScheduleEvent :=
  flat_map (fun meeting =>
    map (fun dayNum =>
      {| subject := cCode courseDetails ++ " - " ++ cTitle courseDetails;
         day := dayNum;
         startTime := CourseService.startTime meeting;
         endTime := CourseService.endTime meeting;
         location := orElse (CourseService.mLocation meeting)
                       (orElse (CourseService.sLocation sec) "TBD");
         description :=
           cCode courseDetails ++ " | " ++ CourseService.classTypeName (CourseService.sType sec)
           ++ " | " ++ cCredits courseDetails ++ " Credits | Instructor: "
           ++ orElse (CourseService.instructor sec) "TBD";
         type := CourseService.sType sec;
         instructor := orElse (CourseService.instructor sec) "TBD";
         section := CourseService.sSection sec;
         credits := cCredits courseDetails;
         department := cDepartment courseDetails |})
      (CourseService.days meeting))
    (CourseService.schedule sec).

(** [getCurrentTerm()], with the clock's reading passed in. *)
Definition getCurrentTerm (now : Z) : string :=
  let year := numberToString (getFullYear now) in
  let month := getMonth now in
  if 8 <=? month then year ++ "2"
  else if 4 <=? month then year ++ "4"
  else year ++ "1".

(** *** Batch processing: [generateSchedule] *)

(** What a call that can throw produces. *)
Inductive result (A : Type) : Type :=
| Ok (a : A)
| Throw (message : string).
Arguments Ok {A} a.
Arguments Throw {A} message.

Definition bind {A B : Type} (r : result A) (k : A -> result B) : result B :=
  match r with
  | Ok a => k a
  | Throw e => Throw e
  end.

(** [try { body } catch (error) { handler }]. *)
Definition tryCatch {A : Type} (body : result A) (handler : string -> result A) : result A :=
  match body with
  | Ok a => Ok a
  | Throw e => handler e
  end.

(** One element of [courseData]. [ciSection] is empty when the field is
    absent; [ciTerm] is [None] when the field is absent. *)
Record CourseInfo := {
  ciCode : string;
  ciSection : string;
  ciTerm : option string
}.

Section Batch.

(** The catalog client: everything behind [courseService.getCourseDetails]
    (the cache, the network) is a state [World] that a call may read and
    change; the call resolves to course details or [null], or rejects. *)
Variable World : Type.
Variable getCourseDetails :
  string -> string -> World -> World * result (option CourseDetails).
Variable clock : World -> Z.

(** [getCourseScheduleData(courseInfo)]. *)
Definition getCourseScheduleData (courseInfo : CourseInfo) (w : World)
    : World * result (list ScheduleEvent) :=
  let code := ciCode courseInfo in
  let term := match ciTerm courseInfo with
              | Some t => t
              | None => getCurrentTerm (clock w)
              end in
  let '(w', fetched) := getCourseDetails code term w in
  let body :=
    bind fetched (fun courseDetails =>
      match courseDetails with
      | None => Throw ("Course " ++ code ++ " not found for term " ++ term)
      | Some cd =>
          let targetSection :=
            if negb (ciSection courseInfo =? "")%string
            then find (fun s => (CourseService.sSection s =? ciSection courseInfo)%string)
                      (cSections cd)
            else hd_error (cSections cd) in
          match targetSection with
          | None =>
              Throw ("Section " ++ orElse (ciSection courseInfo) "default"
                     ++ " not found for course " ++ code)
          | Some ts => Ok (convertToScheduleEvents cd ts)
          end
      end) in
  (w', tryCatch body (fun _ => Ok [])).

(** The body of the [for ... of] loop of [generateSchedule]. *)
Definition scheduleStep (st : World * list ScheduleEvent) (courseInfo : CourseInfo)
    : World * list ScheduleEvent :=
  let '(w, scheduleEvents) := st in
  let '(w', r) := getCourseScheduleData courseInfo w in
  match r with
  | Ok courseDetails =>
      if (0 <? List.length courseDetails)%nat
      then (w', (scheduleEvents ++ courseDetails)%list)
      else (w', scheduleEvents)
  | Throw _ => (w', scheduleEvents)
  end.

(** [generateSchedule(courseData)]. *)
Definition generateSchedule (courseData : list CourseInfo) (w : World)
    : World * list ScheduleEvent :=
  fold_left scheduleStep courseData (w, []).

End Batch.

(** *** CSV generation *)

(** A break range [{ start, end }]: each bound is the time value that
    [date >= breakPeriod.start] and [date <= breakPeriod.end] compare the
    date with (a [Date], as in [defaultBreaks], or a number of
    milliseconds).  Unlike [startDate] and [endDate] the bounds are not
    passed through [new Date(...)], so a bound given as a date string is
    not covered. *)
Record BreakPeriod := {
  bStart : Z;
  bEnd : Z
}.

(** [semesterInfo]: a date field holds the time value [new Date(...)] gives
    it; [None] is an absent field. *)
Record SemesterInfo := {
  siStartDate : option Z;
  siEndDate : option Z;
  siTerm : option string;
  siBreaks : option (list BreakPeriod)
}.

(** [s.substring(n)]. *)
Definition dropChars (n : nat) (s : string) : string := substring n (length s - n) s.

Definition termOf (semesterInfo : SemesterInfo) (now : Z) : string :=
  match siTerm semesterInfo with
  | Some t => orElse t (getCurrentTerm now)
  | None => getCurrentTerm now
  end.

(** [getSemesterDates(semesterInfo)]: the pair (startDate, endDate). *)
Definition getSemesterDates (semesterInfo : SemesterInfo) (now : Z) : Z * Z :=
  let currentYear := getFullYear now in
  match siStartDate semesterInfo, siEndDate semesterInfo with
  | Some s, Some e => (s, e)
  | _, _ =>
      let term := termOf semesterInfo now in
      let year := match parseInt (prefix 4 term) None with
                  | Some y => if y =? 0 then currentYear else y
                  | None => currentYear
                  end in
      let semester := orElse (dropChars 4 term) "2" in
      if (semester =? "1")%string then (fromComponents year 8 1, fromComponents year 11 31)
      else if (semester =? "2")%string then (fromComponents year 0 1, fromComponents year 3 30)
      else if (semester =? "4")%string then (fromComponents year 4 1, fromComponents year 7 31)
      else (fromComponents year 0 1, fromComponents year 11 31)
  end.

(** [getFirstWeekdayOccurrence(startDate, targetDay)]; [%] is the
    remainder that takes the sign of the dividend. *)
Definition getFirstWeekdayOccurrence (startDate targetDay : Z) : Z :=
  let date := startDate in
  let daysAhead := Z.rem (targetDay - getDay date + 7) 7 in
  setDate date (getDate date + daysAhead).

Definition defaultBreaks : list BreakPeriod :=
  [ {| bStart := fromComponents 2024 10 25; bEnd := fromComponents 2024 10 29 |};
    {| bStart := fromComponents 2024 11 23; bEnd := fromComponents 2024 11 31 |};
    {| bStart := fromComponents 2025 2 1; bEnd := fromComponents 2025 2 7 |};
    {| bStart := fromComponents 2025 9 14; bEnd := fromComponents 2025 9 18 |} ].

(** [isBreakWeek(date, customBreaks = [])]. *)
Definition isBreakWeek (date : Z) (customBreaks : option (list BreakPeriod)) : bool :=
  let custom := match customBreaks with Some l => l | None => [] end in
  let allBreaks := (defaultBreaks ++ custom)%list in
  existsb (fun breakPeriod => (bStart breakPeriod <=? date) && (date <=? bEnd breakPeriod))
          allBreaks.

(** [formatDate(date)]. *)
Definition formatDate (date : Z) : string :=
  let month := padStart 2 "0" (numberToString (getMonth date + 1)) in
  let day := padStart 2 "0" (numberToString (getDate date)) in
  let year := numberToString (getFullYear date) in
  month ++ "/" ++ day ++ "/" ++ year.

(** [.replace(/[\r\n\t]/g, ' ')]. *)
Fixpoint replaceLineBreaks (s : string) : string :=
  match s with
  | EmptyString => EmptyString
  | String c r =>
      let n := code c in
      String (if (n =? 13) || (n =? 10) || (n =? 9) then " "%char else c) (replaceLineBreaks r)
  end.

(** [.replace(/\s+/g, ' ')]; [inRun] tells that the previous code unit was
    white space. *)
Fixpoint collapseSpaces (inRun : bool) (s : string) : string :=
  match s with
  | EmptyString => EmptyString
  | String c r =>
      if isWhiteSpace c
      then if inRun then collapseSpaces true r else String " " (collapseSpaces true r)
      else String c (collapseSpaces false r)
  end.

(** [sanitizeCsvField(text)]. *)
Definition sanitizeCsvField (text : string) : string :=
  if (text =? "")%string then ""
  else prefix 255 (collapseSpaces false (replaceLineBreaks (trim text))).

Definition headers : list string :=
  [ "Subject"; "Start Date"; "Start Time"; "End Date"; "End Time";
    "All Day Event"; "Description"; "Location"; "Private" ].

(** A row object: its properties, in the order of the object literal. *)
Definition CsvRow := list (string * string).

(** The object pushed onto [events] for [course] on [currentDate]. *)
Definition makeRow (course : ScheduleEvent) (currentDate : Z) : CsvRow :=
  [ ("Subject", sanitizeCsvField (subject course));
    ("Start Date", formatDate currentDate);
    ("Start Time", startTime course);
    ("End Date", formatDate currentDate);
    ("End Time", endTime course);
    ("All Day Event", "False");
    ("Description", sanitizeCsvField (description course));
    ("Location", sanitizeCsvField (location course));
    ("Private", "False") ].

(** The [while (currentDate <= endDate)] loop; [None] when [fuel]
    iterations do not reach the exit. *)
Fixpoint weeklyLoop (fuel : nat) (course : ScheduleEvent) (endDate : Z)
    (breaks : option (list BreakPeriod)) (currentDate : Z) (events : list CsvRow)
    : option (list CsvRow) :=
  match fuel with
  | O => None
  | S fuel' =>
      if currentDate <=? endDate then
        let events' :=
          if negb (isBreakWeek currentDate breaks)
          then (events ++ [makeRow course currentDate])%list
          else events in
        weeklyLoop fuel' course endDate breaks
                   (setDate currentDate (getDate currentDate + 7)) events'
      else Some events
  end.

(** Iterations that always reach the exit of [weeklyLoop]. *)
Definition loopFuel (firstOccurrence endDate : Z) : nat :=
  Z.to_nat ((endDate - firstOccurrence) / (7 * msPerDay)) + 2.

(** The body of [scheduleData.forEach]. *)
Definition materializeCourse (startDate endDate : Z) (breaks : option (list BreakPeriod))
    (events : option (list CsvRow)) (course : ScheduleEvent) : option (list CsvRow) :=
  match events with
  | None => None
  | Some evs =>
      let firstOccurrence := getFirstWeekdayOccurrence startDate (day course) in
      weeklyLoop (loopFuel firstOccurrence endDate) course endDate breaks firstOccurrence evs
  end.

(** The [events] array once [scheduleData.forEach] is done. *)
Definition materialize (scheduleData : list ScheduleEvent) (semesterInfo : SemesterInfo)
    (now : Z) : option (list CsvRow) :=
  let '(startDate, endDate) := getSemesterDates semesterInfo now in
  fold_left (materializeCourse startDate endDate (siBreaks semesterInfo))
            scheduleData (Some []).

(** The [replace] of [generateCSV]: every double-quote character is doubled. *)
Fixpoint doubleQuotes (s : string) : string :=
  match s with
  | EmptyString => EmptyString
  | String c r =>
      if (c =? dquote)%char then String dquote (String dquote (doubleQuotes r))
      else String c (doubleQuotes r)
  end.

Definition quoteField (v : string) : string :=
  String dquote (doubleQuotes v ++ String dquote EmptyString).

(** [headers.map(header => ...)] on one row object; [None] when a header
    names no property of it. *)
Fixpoint encodeFields (hs : list string) (event : CsvRow) : option (list string) :=
  match hs with
  | [] => Some []
  | header :: rest =>
      match CourseService.lookup header event, encodeFields rest event with
      | Some v, Some fields => Some (quoteField v :: fields)
      | _, _ => None
      end
  end.

Definition encodeRow (event : CsvRow) : option string :=
  option_map (join ",") (encodeFields headers event).

Fixpoint encodeRows (events : list CsvRow) : option (list string) :=
  match events with
  | [] => Some []
  | e :: rest =>
      match encodeRow e, encodeRows rest with
      | Some line, Some lines => Some (line :: lines)
      | _, _ => None
      end
  end.

(** [generateCSV(scheduleData, semesterInfo)]: [None] when the call does
    not return a string. *)
Definition generateCSV (scheduleData : list ScheduleEvent) (semesterInfo : SemesterInfo)
    (now : Z) : option string :=
  match materialize scheduleData semesterInfo now with
  | None => None
  | Some events =>
      match encodeRows events with
      | None => None
      | Some lines => Some (join (String (ascii_of_nat 10) EmptyString)
                                 (join "," headers :: lines))
      end
  end.

End ScheduleService.

Import Js CourseService JsDate.


(** * Properties *)

Import Js CourseService JsDate.

(** ** Strings *)

Section StringFacts.

Lemma append_empty_r (s : string) : s ++ "" = s.
Proof. induction s as [| c s IH]; simpl; [reflexivity | now rewrite IH]. Qed.

Lemma append_assoc3 (a b c : string) : (a ++ b) ++ c = a ++ b ++ c.
Proof. induction a as [| x a IH]; simpl; [reflexivity | now rewrite IH]. Qed.

Lemma length_append2 (a b : string) : length (a ++ b) = (length a + length b)%nat.
Proof. induction a as [| x a IH]; simpl; [reflexivity | now rewrite IH]. Qed.

Lemma allChars_append (p : ascii -> bool) (a b : string) :
  allChars p (a ++ b) = allChars p a && allChars p b.
Proof.
  induction a as [| x a IH]; simpl; [reflexivity |].
  rewrite IH. now rewrite andb_assoc.
Qed.

End StringFacts.

(** A string of white space only. *)
Definition Blank (s : string) : Prop := allChars isWhiteSpace s = true.

(** A string of decimal digits only. *)
Definition Digits (s : string) : Prop := allChars isDigit s = true.

Section TrimFacts.

Lemma trimStart_blank_append (lead s : string) :
  Blank lead -> trimStart (lead ++ s) = trimStart s.
Proof.
  unfold Blank. induction lead as [| c lead IH]; simpl; intros H; [reflexivity |].
  apply andb_true_iff in H as [Hc Hl]. rewrite Hc. now apply IH.
Qed.

Lemma trimStart_blank (s : string) : Blank s -> trimStart s = "".
Proof.
  intros H. rewrite <- (append_empty_r s). now rewrite trimStart_blank_append.
Qed.

Lemma trimEnd_blank (s : string) : Blank s -> trimEnd s = "".
Proof.
  unfold Blank. induction s as [| c s IH]; simpl; intros H; [reflexivity |].
  apply andb_true_iff in H as [Hc Hs]. now rewrite (IH Hs), Hc.
Qed.

Lemma trimEnd_append_blank (s trail : string) :
  Blank trail -> trimEnd (s ++ trail) = trimEnd s.
Proof.
  intros H. induction s as [| c s IH]; simpl.
  - now apply trimEnd_blank.
  - now rewrite IH.
Qed.

(** A string that ends in a character that is not white space is left
    alone by [trimEnd]. *)
Lemma trimEnd_ends_solid (s : string) (c : ascii) :
  isWhiteSpace c = false -> trimEnd (s ++ String c "") = s ++ String c "".
Proof.
  intros Hc. induction s as [| x s IH]; simpl.
  - now rewrite Hc.
  - rewrite IH. destruct (s ++ String c "") eqn:E; [| reflexivity].
    destruct s; discriminate.
Qed.

Lemma trimStart_split (s : string) :
  exists lead, Blank lead /\ s = lead ++ trimStart s.
Proof.
  induction s as [| c s [lead [Hl Hs]]]; simpl.
  - exists "". split; reflexivity.
  - destruct (isWhiteSpace c) eqn:Hc.
    + exists (String c lead). split.
      * unfold Blank in *. simpl. now rewrite Hc, Hl.
      * simpl. now rewrite <- Hs.
    + exists "". split; reflexivity.
Qed.

Lemma trimEnd_split (s : string) :
  exists trail, Blank trail /\ s = trimEnd s ++ trail.
Proof.
  induction s as [| c s [trail [Ht Hs]]]; simpl.
  - exists "". split; reflexivity.
  - destruct (trimEnd s) as [| y r] eqn:E.
    + simpl in Hs. subst trail. destruct (isWhiteSpace c) eqn:Hc.
      * exists (String c s). split; [| reflexivity].
        unfold Blank in *. simpl. now rewrite Hc, Ht.
      * exists s. split; [assumption | reflexivity].
    + exists trail. split; [assumption |]. simpl. simpl in Hs. now rewrite <- Hs.
Qed.

Lemma trim_split (s : string) :
  exists lead trail, Blank lead /\ Blank trail /\ s = lead ++ trim s ++ trail.
Proof.
  destruct (trimStart_split s) as [lead [Hl Hs]].
  destruct (trimEnd_split (trimStart s)) as [trail [Ht Hs']].
  exists lead, trail. repeat split; try assumption.
  unfold trim. now rewrite <- Hs'.
Qed.

(** Text that ends in something [trimEnd] leaves alone is left alone. *)
Lemma trimEnd_append_solid (x y : string) :
  y <> "" -> trimEnd y = y -> trimEnd (x ++ y) = x ++ y.
Proof.
  intros Hy Ht. induction x as [| c x IH]; simpl; [assumption |].
  rewrite IH. destruct (x ++ y) eqn:E; [| reflexivity].
  destruct x; simpl in E; [contradiction | discriminate].
Qed.

(** [trim] of a core wrapped in white space, when neither end of the core
    can be trimmed. *)
Lemma trim_wrapped (lead trail core : string) :
  Blank lead -> Blank trail ->
  trimStart core = core -> trimEnd core = core ->
  trim (lead ++ core ++ trail) = core.
Proof.
  intros Hl Ht Hs He. unfold trim.
  rewrite trimStart_blank_append by assumption.
  destruct core as [| a core].
  - simpl. rewrite (trimStart_blank trail Ht). reflexivity.
  - simpl in Hs. simpl. destruct (isWhiteSpace a) eqn:Ha.
    + exfalso. destruct (trimStart_split core) as [l [_ Hc]].
      rewrite Hs in Hc. apply (f_equal length) in Hc.
      rewrite length_append2 in Hc. simpl in Hc. lia.
    + change (String a (core ++ trail)) with (String a core ++ trail).
      rewrite trimEnd_append_blank by assumption. exact He.
Qed.

End TrimFacts.

(** ** The time parser *)

Inductive Meridiem := AM | PM.

(** The spellings the pattern accepts for a period, case ignored. *)
Definition meridiemTexts (w : Meridiem) : list string :=
  match w with
  | AM => ["AM"; "Am"; "aM"; "am"]
  | PM => ["PM"; "Pm"; "pM"; "pm"]
  end.

(** Hour of the 24-hour clock for an hour read with a period. *)
Definition twentyFourHour (w : option Meridiem) (hour : Z) : Z :=
  match w with
  | None => hour
  | Some AM => if hour =? 12 then 0 else hour
  | Some PM => if hour =? 12 then 12 else hour + 12
  end.

(** The number a string of decimal digits denotes. *)
Fixpoint decimalValueFrom (acc : Z) (s : string) : Z :=
  match s with
  | EmptyString => acc
  | String c r => decimalValueFrom (acc * 10 + (code c - 48)) r
  end.

Definition decimalValue (s : string) : Z := decimalValueFrom 0 s.

Definition secondsText (sec : option string) : string :=
  match sec with
  | Some ss => ":" ++ ss
  | None => ""
  end.

Definition periodText (per : option (string * string)) : string :=
  match per with
  | Some (gap, p) => gap ++ p
  | None => ""
  end.

(** The colon shape: white space, an hour of one or two digits, a colon, a
    minute of two digits, optional seconds, an optional period after any
    white space, white space. *)
Definition colonText (lead h m : string) (sec : option string)
    (per : option (string * string)) (trail : string) : string :=
  lead ++ (h ++ ":" ++ m ++ secondsText sec ++ periodText per) ++ trail.

Definition ColonShape (lead h m : string) (sec : option string)
    (per : option (string * string)) (trail : string) (w : option Meridiem) : Prop :=
  Blank lead /\ Blank trail /\
  Digits h /\ (length h = 1%nat \/ length h = 2%nat) /\
  Digits m /\ length m = 2%nat /\
  match sec with
  | Some ss => Digits ss /\ length ss = 2%nat
  | None => True
  end /\
  match per, w with
  | Some (gap, p), Some w' => Blank gap /\ In p (meridiemTexts w')
  | None, None => True
  | _, _ => False
  end.

(** The four-digit shape. *)
Definition FourDigits (s : string) : Prop := length s = 4%nat /\ Digits s.

(** What the time parser recognises. *)
Definition Recognized (v : value) : Prop :=
  exists s, v = Str s /\
    (FourDigits s \/
     exists lead h m sec per trail w,
       ColonShape lead h m sec per trail w /\ s = colonText lead h m sec per trail).

Lemma digit_cases (c : ascii) :
  isDigit c = true ->
  In c ["0"; "1"; "2"; "3"; "4"; "5"; "6"; "7"; "8"; "9"]%char.
Proof.
  destruct c as [[] [] [] [] [] [] [] []]; vm_compute; intros H;
    try discriminate H; tauto.
Qed.

Ltac each_digit H :=
  apply digit_cases in H; simpl in H;
  repeat (destruct H as [H | H]); try contradiction; subst.

Section TimeParser.

Lemma digit_solid (c : ascii) : isDigit c = true -> isWhiteSpace c = false.
Proof. intros H. each_digit H; reflexivity. Qed.

Lemma digit_not_colon (c : ascii) : isDigit c = true -> (c =? ":")%char = false.
Proof. intros H. each_digit H; reflexivity. Qed.

Lemma matchHour_one (a : ascii) (r : string) :
  isDigit a = true -> matchHour (String a (String ":" r)) = Some (String a "", r).
Proof. intros Ha. unfold matchHour. rewrite Ha. reflexivity. Qed.

Lemma matchHour_two (a b : ascii) (r : string) :
  isDigit a = true -> isDigit b = true ->
  matchHour (String a (String b (String ":" r))) = Some (String a (String b ""), r).
Proof. intros Ha Hb. unfold matchHour. rewrite Ha, Hb. reflexivity. Qed.

Lemma matchTwoDigits_two (a b : ascii) (r : string) :
  isDigit a = true -> isDigit b = true ->
  matchTwoDigits (String a (String b r)) = Some (String a (String b ""), r).
Proof. intros Ha Hb. unfold matchTwoDigits. rewrite Ha, Hb. reflexivity. Qed.

Lemma meridiem_upper (w : Meridiem) (p : string) :
  In p (meridiemTexts w) ->
  toUpperCase p = match w with AM => "AM" | PM => "PM" end /\
  trimStart p = p /\ trimEnd p = p /\ p <> "" /\
  (forall r, p <> String ":" r).
Proof.
  destruct w; simpl; intros H;
    repeat (destruct H as [H | H]); try contradiction; subst;
    (repeat split; [reflexivity .. | discriminate | intros r; discriminate]).
Qed.

Lemma matchPeriodEnd_period (gap p : string) (w : Meridiem) :
  Blank gap -> In p (meridiemTexts w) ->
  matchPeriodEnd (gap ++ p) = Some (Some p).
Proof.
  intros Hg Hp. destruct (meridiem_upper w p Hp) as (Hu & Hs & _).
  unfold matchPeriodEnd. rewrite trimStart_blank_append by assumption.
  rewrite Hs, Hu. destruct w; reflexivity.
Qed.

Lemma matchPeriodEnd_text (per : option (string * string)) (w : option Meridiem) :
  match per, w with
  | Some (gap, p), Some w' => Blank gap /\ In p (meridiemTexts w')
  | None, None => True
  | _, _ => False
  end ->
  matchPeriodEnd (periodText per) = Some (option_map snd per).
Proof.
  destruct per as [[gap p] |], w as [w |]; simpl; try contradiction.
  - intros [Hg Hp]. now apply matchPeriodEnd_period with w.
  - reflexivity.
Qed.

(** The first character of a period text is never a colon. *)
Lemma periodText_no_colon (per : option (string * string)) (w : option Meridiem) (r : string) :
  match per, w with
  | Some (gap, p), Some w' => Blank gap /\ In p (meridiemTexts w')
  | None, None => True
  | _, _ => False
  end ->
  periodText per <> String ":" r.
Proof.
  destruct per as [[gap p] |], w as [w |]; simpl; try contradiction; try discriminate.
  intros [Hg Hp]. destruct gap as [| g gap]; simpl.
  - now apply (meridiem_upper w p Hp).
  - intros E. injection E as E _. subst g. discriminate Hg.
Qed.

Lemma matchSecondsPeriodEnd_text (sec : option string) (per : option (string * string))
    (w : option Meridiem) :
  match sec with
  | Some ss => Digits ss /\ length ss = 2%nat
  | None => True
  end ->
  match per, w with
  | Some (gap, p), Some w' => Blank gap /\ In p (meridiemTexts w')
  | None, None => True
  | _, _ => False
  end ->
  matchSecondsPeriodEnd (secondsText sec ++ periodText per) = Some (sec, option_map snd per).
Proof.
  intros Hsec Hper. pose proof (matchPeriodEnd_text per w Hper) as Hm.
  destruct sec as [ss |]; simpl.
  - destruct Hsec as [Hd Hlen].
    destruct ss as [| e [| f [| ? ?]]]; try discriminate Hlen.
    unfold Digits in Hd. simpl in Hd. rewrite andb_true_r in Hd.
    apply andb_true_iff in Hd as [He Hf].
    cbn [secondsText append]. unfold matchSecondsPeriodEnd.
    cbn [Ascii.eqb Bool.eqb]. rewrite (matchTwoDigits_two e f _ He Hf), Hm. reflexivity.
  - unfold matchSecondsPeriodEnd. rewrite Hm. simpl.
    destruct (periodText per) as [| c r] eqn:E; [reflexivity |].
    destruct (Ascii.eqb_spec c ":"); [| reflexivity].
    subst c. exfalso. now apply (periodText_no_colon per w r Hper).
Qed.

Definition PeriodShape (per : option (string * string)) (w : option Meridiem) : Prop :=
  match per, w with
  | Some (gap, p), Some w' => Blank gap /\ In p (meridiemTexts w')
  | None, None => True
  | _, _ => False
  end.

Definition SecondsShape (sec : option string) : Prop :=
  match sec with
  | Some ss => Digits ss /\ length ss = 2%nat
  | None => True
  end.

Definition HourShape (h : string) : Prop :=
  Digits h /\ (length h = 1%nat \/ length h = 2%nat).

Definition MinuteShape (m : string) : Prop := Digits m /\ length m = 2%nat.

Lemma two_digits_inv (m : string) :
  MinuteShape m ->
  exists c d, m = String c (String d "") /\ isDigit c = true /\ isDigit d = true.
Proof.
  intros [Hd Hlen]. destruct m as [| c [| d [| ? ?]]]; try discriminate Hlen.
  unfold Digits in Hd. simpl in Hd. rewrite andb_true_r in Hd.
  apply andb_true_iff in Hd as [Hc Hd]. now exists c, d.
Qed.

Lemma hour_inv (h : string) :
  HourShape h ->
  (exists a, h = String a "" /\ isDigit a = true) \/
  (exists a b, h = String a (String b "") /\ isDigit a = true /\ isDigit b = true).
Proof.
  intros [Hd [Hlen | Hlen]].
  - left. destruct h as [| a [| ? ?]]; try discriminate Hlen.
    unfold Digits in Hd. simpl in Hd. rewrite andb_true_r in Hd. now exists a.
  - right. now apply two_digits_inv.
Qed.

Lemma timePattern_text (h m : string) (sec : option string)
    (per : option (string * string)) (w : option Meridiem) :
  HourShape h -> MinuteShape m -> SecondsShape sec -> PeriodShape per w ->
  timePattern (h ++ ":" ++ m ++ secondsText sec ++ periodText per)
  = Some {| tmHour := h; tmMinute := m; tmSecond := sec; tmPeriod := option_map snd per |}.
Proof.
  intros Hh Hm Hs Hp.
  destruct (two_digits_inv m Hm) as (c & d & -> & Hc & Hd).
  pose proof (matchSecondsPeriodEnd_text sec per w Hs Hp) as Hrest.
  unfold timePattern.
  destruct (hour_inv h Hh) as [(a & -> & Ha) | (a & b & -> & Ha & Hb)];
    cbn [append].
  - rewrite (matchHour_one a _ Ha), (matchTwoDigits_two c d _ Hc Hd), Hrest. reflexivity.
  - rewrite (matchHour_two a b _ Ha Hb), (matchTwoDigits_two c d _ Hc Hd), Hrest. reflexivity.
Qed.

(** Text [trimEnd] cannot shorten. *)
Definition SolidEnd (y : string) : Prop := y <> "" /\ trimEnd y = y.

Lemma solid_append (x y : string) : SolidEnd y -> SolidEnd (x ++ y).
Proof.
  intros [Hy Ht]. split.
  - destruct x; simpl; [assumption | discriminate].
  - now apply trimEnd_append_solid.
Qed.

Lemma solid_two_digits (m : string) : MinuteShape m -> SolidEnd m.
Proof.
  intros Hm. destruct (two_digits_inv m Hm) as (c & d & -> & Hc & Hd).
  split; [discriminate |]. simpl. now rewrite (digit_solid d Hd).
Qed.

Lemma core_solid (h m : string) (sec : option string)
    (per : option (string * string)) (w : option Meridiem) :
  HourShape h -> MinuteShape m -> SecondsShape sec -> PeriodShape per w ->
  let core := h ++ ":" ++ m ++ secondsText sec ++ periodText per in
  trimStart core = core /\ trimEnd core = core.
Proof.
  intros Hh Hm Hs Hp core. split.
  - subst core.
    destruct (hour_inv h Hh) as [(a & -> & Ha) | (a & b & -> & Ha & Hb)];
      cbn [append trimStart]; now rewrite (digit_solid a Ha).
  - assert (Hsolid : SolidEnd core); [| exact (proj2 Hsolid)].
    subst core. do 2 apply solid_append.
    destruct per as [[gap p] |], w as [w |]; simpl in Hp; try contradiction.
    + do 3 apply solid_append. destruct Hp as [_ Hp].
      destruct (meridiem_upper w p Hp) as (_ & _ & Ht & Hn & _). now split.
    + cbn [periodText]. rewrite append_empty_r.
      destruct sec as [ss |]; cbn [secondsText].
      * do 2 apply solid_append. now apply solid_two_digits.
      * rewrite append_empty_r. now apply solid_two_digits.
Qed.

Lemma parseInt_hour (h : string) :
  HourShape h -> parseInt h (Some 10) = Some (decimalValue h).
Proof.
  intros Hh.
  destruct (hour_inv h Hh) as [(a & -> & Ha) | (a & b & -> & Ha & Hb)].
  - each_digit Ha; reflexivity.
  - each_digit Ha; each_digit Hb; reflexivity.
Qed.

Lemma parseInt_minute (m : string) :
  MinuteShape m ->
  exists minute, parseInt m (Some 10) = Some minute /\
                 padStart 2 "0" (numberToString minute) = m.
Proof.
  intros Hm. destruct (two_digits_inv m Hm) as (c & d & -> & Hc & Hd).
  each_digit Hc; each_digit Hd; eexists; split; reflexivity.
Qed.

Lemma adjustHour_meridiem (per : option (string * string)) (w : option Meridiem) (hour : Z) :
  PeriodShape per w -> adjustHour (option_map snd per) hour = twentyFourHour w hour.
Proof.
  destruct per as [[gap p] |], w as [w |]; simpl; try contradiction; [| reflexivity].
  intros [_ Hp]. destruct (meridiem_upper w p Hp) as (Hu & _).
  unfold adjustHour. rewrite Hu.
  destruct w; cbn [twentyFourHour]; destruct (hour =? 12) eqn:E; simpl.
  all: rewrite ?E; try reflexivity.
  symmetry. now apply Z.eqb_eq in E.
Qed.

Lemma colonText_not_empty (lead h m : string) (sec : option string)
    (per : option (string * string)) (trail : string) :
  HourShape h ->
  (colonText lead h m sec per trail =? "")%string = false
  /\ allChars isDigit (colonText lead h m sec per trail) = false.
Proof.
  intros Hh. unfold colonText. split.
  - apply String.eqb_neq. intros E. apply (f_equal length) in E.
    rewrite !length_append2 in E. destruct Hh as [_ Hlen]. simpl in E. lia.
  - rewrite !allChars_append. simpl. rewrite !andb_false_r. reflexivity.
Qed.

Lemma sanitizeTime_colon (lead h m : string) (sec : option string)
    (per : option (string * string)) (trail : string) (w : option Meridiem) :
  ColonShape lead h m sec per trail w ->
  sanitizeTime (Str (colonText lead h m sec per trail))
  = Some (padStart 2 "0" (numberToString (twentyFourHour w (decimalValue h))) ++ ":" ++ m).
Proof.
  intros (Hl & Ht & Hhd & Hhl & Hmd & Hml & Hs & Hp).
  assert (Hh : HourShape h) by now split.
  assert (Hm : MinuteShape m) by now split.
  unfold sanitizeTime.
  destruct (colonText_not_empty lead h m sec per trail Hh) as [-> _].
  destruct (core_solid h m sec per w Hh Hm Hs Hp) as [Hcs Hce].
  unfold colonText. rewrite (trim_wrapped _ _ _ Hl Ht Hcs Hce).
  rewrite (timePattern_text h m sec per w Hh Hm Hs Hp). cbn [tmHour tmMinute tmPeriod].
  rewrite (parseInt_hour h Hh).
  destruct (parseInt_minute m Hm) as (minute & -> & Hpad).
  unfold formatHHMM. now rewrite Hpad, (adjustHour_meridiem per w _ Hp).
Qed.

Lemma convertTimeFormat_colon (lead h m : string) (sec : option string)
    (per : option (string * string)) (trail : string) (w : option Meridiem) :
  ColonShape lead h m sec per trail w ->
  convertTimeFormat (Str (colonText lead h m sec per trail))
  = Some (padStart 2 "0" (numberToString (twentyFourHour w (decimalValue h))) ++ ":" ++ m).
Proof.
  intros H. pose proof H as (_ & _ & Hhd & Hhl & _).
  unfold convertTimeFormat.
  destruct (colonText_not_empty lead h m sec per trail (conj Hhd Hhl)) as [-> ->].
  rewrite andb_false_r. now apply sanitizeTime_colon.
Qed.

Lemma convertTimeFormat_four_digits (s : string) :
  FourDigits s ->
  convertTimeFormat (Str s) = Some (substring 0 2 s ++ ":" ++ substring 2 2 s).
Proof.
  intros [Hlen Hd]. unfold convertTimeFormat.
  destruct (String.eqb_spec s "") as [-> |]; [discriminate Hlen |].
  unfold Digits in Hd. now rewrite Hlen, Hd.
Qed.

(** *** What the pattern accepts has the shape *)

Lemma upper_period_inv (t : string) :
  (toUpperCase t = "AM" -> In t (meridiemTexts AM)) /\
  (toUpperCase t = "PM" -> In t (meridiemTexts PM)).
Proof.
  destruct t as [| c1 [| c2 [| c3 r]]]; simpl; split; intros H; try discriminate H;
    injection H as H1 H2;
    destruct c1 as [[] [] [] [] [] [] [] []]; vm_compute in H1; try discriminate H1;
    destruct c2 as [[] [] [] [] [] [] [] []]; vm_compute in H2; try discriminate H2;
    tauto.
Qed.

Lemma matchPeriodEnd_inv (s : string) (p : option string) :
  matchPeriodEnd s = Some p ->
  exists per w, PeriodShape per w /\ s = periodText per /\ p = option_map snd per.
Proof.
  unfold matchPeriodEnd.
  destruct (trimStart_split s) as [gap [Hg Hs]].
  destruct ((toUpperCase (trimStart s) =? "AM")%string
            || (toUpperCase (trimStart s) =? "PM")%string) eqn:E.
  - intros H. injection H as <-.
    apply orb_true_iff in E as [E | E]; apply String.eqb_eq in E.
    + exists (Some (gap, trimStart s)), (Some AM). repeat split; try assumption.
      now apply upper_period_inv.
    + exists (Some (gap, trimStart s)), (Some PM). repeat split; try assumption.
      now apply upper_period_inv.
  - destruct (String.eqb_spec s "") as [-> |]; [| discriminate].
    intros H. injection H as <-. now exists None, None.
Qed.

Lemma skipped_inv (s : string) (sec p : option string) :
  option_map (fun q : option string => (@None string, q)) (matchPeriodEnd s) = Some (sec, p) ->
  exists per w, SecondsShape sec /\ PeriodShape per w
                /\ s = secondsText sec ++ periodText per /\ p = option_map snd per.
Proof.
  destruct (matchPeriodEnd s) as [q |] eqn:E; simpl; [| discriminate].
  intros H. injection H as <- <-.
  destruct (matchPeriodEnd_inv s q E) as (per & w & Hp & Hs & Hq).
  exists per, w. now repeat split.
Qed.

Lemma matchTwoDigits_inv (s m r : string) :
  matchTwoDigits s = Some (m, r) -> MinuteShape m /\ s = m ++ r.
Proof.
  unfold matchTwoDigits. destruct s as [| a [| b s]]; try discriminate.
  destruct (isDigit a) eqn:Ha, (isDigit b) eqn:Hb; simpl; try discriminate.
  intros H. injection H as <- <-. repeat split.
  unfold Digits. simpl. now rewrite Ha, Hb.
Qed.

Lemma matchSecondsPeriodEnd_inv (s : string) (sec p : option string) :
  matchSecondsPeriodEnd s = Some (sec, p) ->
  exists per w, SecondsShape sec /\ PeriodShape per w
                /\ s = secondsText sec ++ periodText per /\ p = option_map snd per.
Proof.
  unfold matchSecondsPeriodEnd.
  destruct s as [| c r]; [apply skipped_inv |].
  destruct (Ascii.eqb_spec c ":") as [-> |]; [| apply skipped_inv].
  destruct (matchTwoDigits r) as [[ss r'] |] eqn:E2; [| apply skipped_inv].
  destruct (matchPeriodEnd r') as [q |] eqn:E3; [| apply skipped_inv].
  intros H. injection H as <- <-.
  destruct (matchTwoDigits_inv r ss r' E2) as [Hss ->].
  destruct (matchPeriodEnd_inv r' q E3) as (per & w & Hp & -> & ->).
  exists per, w. repeat split; try assumption; apply Hss.
Qed.

Lemma matchHour_inv (s h r : string) :
  matchHour s = Some (h, r) -> HourShape h /\ s = h ++ ":" ++ r.
Proof.
  unfold matchHour. destruct s as [| a [| b r2]]; try discriminate.
  - destruct (isDigit a); discriminate.
  - destruct (isDigit a) eqn:Ha; [| discriminate].
    assert (One : (if (b =? ":")%char then Some (String a "", r2) else None) = Some (h, r)
                  -> HourShape h /\ String a (String b r2) = h ++ ":" ++ r).
    { destruct (Ascii.eqb_spec b ":") as [-> |]; [| discriminate].
      intros H. injection H as <- <-. repeat split; [| now left].
      unfold Digits. simpl. now rewrite Ha. }
    destruct (isDigit b) eqn:Hb; [| exact One].
    destruct r2 as [| c r3]; [exact One |].
    destruct (Ascii.eqb_spec c ":") as [-> |]; [| exact One].
    intros H. injection H as <- <-. repeat split; [| now right].
    unfold Digits. simpl. now rewrite Ha, Hb.
Qed.

Lemma timePattern_inv (core : string) (tm : TimeMatch) :
  timePattern core = Some tm ->
  exists per w,
    HourShape (tmHour tm) /\ MinuteShape (tmMinute tm) /\ SecondsShape (tmSecond tm)
    /\ PeriodShape per w
    /\ core = tmHour tm ++ ":" ++ tmMinute tm ++ secondsText (tmSecond tm) ++ periodText per
    /\ tmPeriod tm = option_map snd per.
Proof.
  unfold timePattern.
  destruct (matchHour core) as [[h r1] |] eqn:E1; [| discriminate].
  destruct (matchTwoDigits r1) as [[m r2] |] eqn:E2; [| discriminate].
  destruct (matchSecondsPeriodEnd r2) as [[sec p] |] eqn:E3; [| discriminate].
  intros H. injection H as <-. cbn [tmHour tmMinute tmSecond tmPeriod].
  destruct (matchHour_inv core h r1 E1) as [Hh ->].
  destruct (matchTwoDigits_inv r1 m r2 E2) as [Hm ->].
  destruct (matchSecondsPeriodEnd_inv r2 sec p E3) as (per & w & Hs & Hp & -> & ->).
  exists per, w. destruct Hh, Hm. repeat split; assumption.
Qed.

Lemma sanitizeTime_inv (s t : string) :
  sanitizeTime (Str s) = Some t ->
  exists lead h m sec per trail w,
    ColonShape lead h m sec per trail w /\ s = colonText lead h m sec per trail.
Proof.
  unfold sanitizeTime. destruct (s =? "")%string; [discriminate |].
  destruct (timePattern (trim s)) as [tm |] eqn:E; [| discriminate].
  intros _.
  destruct (timePattern_inv (trim s) tm E) as (per & w & Hh & Hm & Hs & Hp & Hcore & _).
  destruct (trim_split s) as (lead & trail & Hl & Ht & Hsplit).
  exists lead, (tmHour tm), (tmMinute tm), (tmSecond tm), per, trail, w. split.
  - unfold ColonShape. destruct Hh, Hm. now repeat split.
  - unfold colonText. now rewrite <- Hcore.
Qed.

Lemma convertTimeFormat_inv (v : value) (t : string) :
  convertTimeFormat v = Some t -> Recognized v.
Proof.
  unfold convertTimeFormat. destruct v as [| | b | n | s]; try discriminate.
  destruct (s =? "")%string eqn:Es; [discriminate |].
  destruct ((length s =? 4)%nat && allChars isDigit s) eqn:E.
  - intros _. apply andb_true_iff in E as [El Ed]. apply Nat.eqb_eq in El.
    exists s. split; [reflexivity |]. left. now split.
  - intros H. exists s. split; [reflexivity |]. right.
    now apply sanitizeTime_inv with t.
Qed.

End TimeParser.

(** ** Calendar arithmetic *)

Section Calendar.

Lemma civil_fields (doe : Z) :
  0 <= doe <= 146096 ->
  let yoe := (doe - doe / 1460 + doe / 36524 - doe / 146096) / 365 in
  let doy := doe - (365 * yoe + yoe / 4 - yoe / 100) in
  let mp := (5 * doy + 2) / 153 in
  let d := doy - (153 * mp + 2) / 5 + 1 in
  0 <= yoe <= 399 /\ 0 <= doy <= 365 /\ 0 <= mp <= 11 /\ 1 <= d <= 31.
Proof.
  intros H yoe doy mp d. subst d mp doy yoe.
  Z.div_mod_to_equations; lia.
Qed.

(** The civil date of a day number names that day, with a month from 1 to
    12 and a day of month from 1 to 31. *)
Lemma civil_roundtrip (z : Z) :
  let '(y, m, d) := civilFromDays z in
  daysFromCivil y m d = z /\ 1 <= m <= 12 /\ 1 <= d <= 31.
Proof.
  unfold civilFromDays.
  set (era := (z + 719468) / 146097).
  set (doe := z + 719468 - era * 146097).
  assert (Hdoe : 0 <= doe <= 146096).
  { subst doe era. pose proof (Z.mod_pos_bound (z + 719468) 146097 ltac:(lia)) as Hm.
    rewrite Z.mod_eq in Hm by lia. lia. }
  pose proof (civil_fields doe Hdoe) as Hf. cbv zeta in Hf.
  set (yoe := (doe - doe / 1460 + doe / 36524 - doe / 146096) / 365) in *.
  set (doy := doe - (365 * yoe + yoe / 4 - yoe / 100)) in *.
  set (mp := (5 * doy + 2) / 153) in *.
  destruct Hf as (Hyoe & Hdoy & Hmp & Hd).
  assert (Hm : 1 <= (if mp <? 10 then mp + 3 else mp - 9) <= 12)
    by (destruct (Z.ltb_spec mp 10); lia).
  split; [| split; assumption].
  unfold daysFromCivil.
  set (m := if mp <? 10 then mp + 3 else mp - 9) in *.
  assert (Hy : (if m <=? 2 then yoe + era * 400 + (if m <=? 2 then 1 else 0) - 1
                else yoe + era * 400 + (if m <=? 2 then 1 else 0)) = yoe + era * 400)
    by (destruct (m <=? 2); lia).
  rewrite Hy.
  assert (Hera : (yoe + era * 400) / 400 = era)
    by (rewrite Z.div_add by lia; rewrite Z.div_small by lia; lia).
  rewrite Hera.
  assert (Hmp' : (if 2 <? m then m - 3 else m + 9) = mp).
  { subst m. destruct (Z.ltb_spec mp 10).
    - destruct (Z.ltb_spec 2 (mp + 3)); lia.
    - destruct (Z.ltb_spec 2 (mp - 9)); lia. }
  rewrite Hmp'. replace (yoe + era * 400 - era * 400) with yoe by lia.
  subst doy doe. lia.
Qed.

Lemma daysFromCivil_day (y m d : Z) :
  daysFromCivil y m d = daysFromCivil y m 1 + d - 1.
Proof. unfold daysFromCivil. lia. Qed.

Lemma time_split (t : Z) : t = Day t * msPerDay + TimeWithinDay t.
Proof.
  unfold Day, TimeWithinDay, msPerDay.
  pose proof (Z.div_mod t 86400000 ltac:(lia)). lia.
Qed.

Lemma date_fields (t : Z) :
  0 <= getMonth t <= 11 /\ 1 <= getDate t <= 31
  /\ daysFromCivil (getFullYear t) (getMonth t + 1) (getDate t) = Day t.
Proof.
  unfold getMonth, getDate, getFullYear.
  pose proof (civil_roundtrip (Day t)) as H.
  destruct (civilFromDays (Day t)) as [[y m] d]. simpl.
  replace (m - 1 + 1) with m by lia. lia.
Qed.

(** [date.setDate(date.getDate() + k)] moves the date by [k] days. *)
Lemma setDate_add (t k : Z) : setDate t (getDate t + k) = t + k * msPerDay.
Proof.
  destruct (date_fields t) as (Hm & _ & Hd).
  unfold setDate, MakeDate, MakeDay.
  rewrite Z.div_small, Z.mod_small by lia. rewrite Z.add_0_r.
  rewrite daysFromCivil_day in Hd.
  pose proof (time_split t) as Hs. unfold msPerDay in *. lia.
Qed.

Lemma Day_add (t k : Z) : Day (t + k * msPerDay) = Day t + k.
Proof. unfold Day, msPerDay. now rewrite Z.div_add by lia. Qed.

Lemma getDay_add (t k : Z) : getDay (t + k * msPerDay) = (getDay t + k) mod 7.
Proof.
  unfold getDay, WeekDay. rewrite Day_add.
  rewrite Zplus_mod_idemp_l. f_equal. lia.
Qed.

Lemma getDay_range (t : Z) : 0 <= getDay t <= 6.
Proof.
  unfold getDay, WeekDay. pose proof (Z.mod_pos_bound (Day t + 4) 7 ltac:(lia)). lia.
Qed.

End Calendar.

(** ** The first occurrence *)

Section FirstOccurrence.

Import ScheduleService.

(** For a target from 0 to 6, [getFirstWeekdayOccurrence] moves the start
    date forward by less than a week, to the first date whose [getDay]
    (0 is Sunday) is the target. *)
Lemma getFirstWeekdayOccurrence_getDay (startDate targetDay : Z) :
  0 <= targetDay <= 6 ->
  exists daysAhead,
    0 <= daysAhead <= 6
    /\ getFirstWeekdayOccurrence startDate targetDay = startDate + daysAhead * msPerDay
    /\ getDay (startDate + daysAhead * msPerDay) = targetDay
    /\ forall k, 0 <= k < daysAhead -> getDay (startDate + k * msPerDay) <> targetDay.
Proof.
  intros Ht. pose proof (getDay_range startDate) as Hg.
  exists ((targetDay - getDay startDate + 7) mod 7).
  pose proof (Z.mod_pos_bound (targetDay - getDay startDate + 7) 7 ltac:(lia)) as Hb.
  split; [lia |]. split; [| split].
  - unfold getFirstWeekdayOccurrence. rewrite setDate_add.
    rewrite Z.rem_mod_nonneg by lia. reflexivity.
  - rewrite getDay_add. rewrite Zplus_mod_idemp_r.
    replace (getDay startDate + (targetDay - getDay startDate + 7)) with (targetDay + 1 * 7) by lia.
    rewrite Z.mod_add by lia. apply Z.mod_small. lia.
  - intros k Hk. rewrite getDay_add. intros E.
    revert E Hk Hb. generalize (getDay startDate) Hg. clear Hg.
    intros g Hg E Hk Hb. Z.div_mod_to_equations. lia.
Qed.

End FirstOccurrence.

(** ** The weekly loop *)

Definition msPerWeek : Z := 7 * msPerDay.

(** [n] dates a week apart, from [cur]. *)
Fixpoint weeklyDates (n : nat) (cur : Z) : list Z :=
  match n with
  | O => []
  | S k => cur :: weeklyDates k (cur + msPerWeek)
  end.

(** How many weekly steps from [cur] stay within [endDate]. *)
Definition weekCount (cur endDate : Z) : nat :=
  if cur <=? endDate then S (Z.to_nat ((endDate - cur) / msPerWeek)) else O.

(** A date lies in one of the ranges, ends included. *)
Definition InBreak (date : Z) (ranges : list ScheduleService.BreakPeriod) : Prop :=
  exists b, In b ranges /\ ScheduleService.bStart b <= date <= ScheduleService.bEnd b.

Definition suppliedBreaks (breaks : option (list ScheduleService.BreakPeriod))
    : list ScheduleService.BreakPeriod :=
  match breaks with
  | Some l => l
  | None => []
  end.

Section WeeklyLoop.

Import ScheduleService.

(** The dates on which [course] gets a row. *)
Definition occurrences (startDate endDate : Z) (breaks : option (list BreakPeriod))
    (course : ScheduleEvent) : list Z :=
  let first := getFirstWeekdayOccurrence startDate (day course) in
  filter (fun d => negb (isBreakWeek d breaks)) (weeklyDates (weekCount first endDate) first).

Lemma weekCount_step (cur endDate : Z) :
  cur <= endDate -> weekCount cur endDate = S (weekCount (cur + msPerWeek) endDate).
Proof.
  intros H. unfold weekCount, msPerWeek, msPerDay.
  destruct (Z.leb_spec cur endDate); [| lia]. f_equal.
  destruct (Z.leb_spec (cur + 7 * 86400000) endDate).
  - replace (endDate - cur) with (endDate - (cur + 7 * 86400000) + 1 * (7 * 86400000)) by lia.
    rewrite Z.div_add by lia.
    assert (0 <= (endDate - (cur + 7 * 86400000)) / (7 * 86400000))
      by (apply Z.div_pos; lia).
    lia.
  - rewrite Z.div_small by lia. reflexivity.
Qed.

Lemma weekCount_after (cur endDate : Z) : endDate < cur -> weekCount cur endDate = O.
Proof. intros H. unfold weekCount. destruct (Z.leb_spec cur endDate); [lia | reflexivity]. Qed.

(** With fuel beyond the number of weekly steps the loop reaches its exit,
    having pushed one row per date outside the breaks. *)
Lemma weeklyLoop_rows (course : ScheduleEvent) (endDate : Z)
    (breaks : option (list BreakPeriod)) (fuel : nat) :
  forall cur events,
    (weekCount cur endDate < fuel)%nat ->
    weeklyLoop fuel course endDate breaks cur events
    = Some (events ++ map (makeRow course)
              (filter (fun d => negb (isBreakWeek d breaks))
                      (weeklyDates (weekCount cur endDate) cur)))%list.
Proof.
  induction fuel as [| fuel IH]; intros cur events Hf; [lia |].
  cbn [weeklyLoop]. destruct (Z.leb_spec cur endDate) as [Hle | Hgt].
  - rewrite setDate_add. fold msPerWeek.
    rewrite (weekCount_step cur endDate Hle) in *.
    rewrite IH by lia. cbn [weeklyDates filter].
    destruct (isBreakWeek cur breaks); cbn [negb map]; [reflexivity |].
    now rewrite <- app_assoc.
  - rewrite (weekCount_after cur endDate Hgt). cbn. now rewrite app_nil_r.
Qed.

Lemma loopFuel_enough (first endDate : Z) :
  (weekCount first endDate < loopFuel first endDate)%nat.
Proof.
  unfold weekCount, loopFuel, msPerWeek. destruct (first <=? endDate); lia.
Qed.

Lemma materializeCourse_rows (startDate endDate : Z) (breaks : option (list BreakPeriod))
    (scheduleData : list ScheduleEvent) :
  forall events,
    fold_left (materializeCourse startDate endDate breaks) scheduleData (Some events)
    = Some (events ++ flat_map (fun course =>
              map (makeRow course) (occurrences startDate endDate breaks course))
              scheduleData)%list.
Proof.
  induction scheduleData as [| course rest IH]; intros events; cbn [fold_left flat_map].
  - now rewrite app_nil_r.
  - unfold materializeCourse at 2.
    rewrite weeklyLoop_rows by apply loopFuel_enough.
    rewrite IH. rewrite <- app_assoc. unfold occurrences. reflexivity.
Qed.

(** [materialize] always produces the rows, course by course. *)
Lemma materialize_rows (scheduleData : list ScheduleEvent) (semesterInfo : SemesterInfo)
    (now : Z) :
  materialize scheduleData semesterInfo now
  = Some (flat_map (fun course =>
            map (makeRow course)
                (occurrences (fst (getSemesterDates semesterInfo now))
                             (snd (getSemesterDates semesterInfo now))
                             (siBreaks semesterInfo) course))
            scheduleData).
Proof.
  unfold materialize. destruct (getSemesterDates semesterInfo now) as [startDate endDate].
  now rewrite materializeCourse_rows.
Qed.

Lemma In_weeklyDates (n : nat) :
  forall cur d,
    In d (weeklyDates n cur) <-> exists k, 0 <= k < Z.of_nat n /\ d = cur + k * msPerWeek.
Proof.
  induction n as [| n IH]; intros cur d; cbn [weeklyDates In].
  - split; [contradiction | intros (k & Hk & _); lia].
  - rewrite IH. split.
    + intros [<- | (k & Hk & ->)].
      * exists 0. split; lia.
      * exists (k + 1). split; lia.
    + intros (k & Hk & ->). destruct (Z.eq_dec k 0) as [-> | Hne].
      * left. lia.
      * right. exists (k - 1). split; lia.
Qed.

Lemma weekCount_bound (cur endDate k : Z) :
  0 <= k -> (k < Z.of_nat (weekCount cur endDate) <-> cur + k * msPerWeek <= endDate).
Proof.
  intros Hk. unfold weekCount, msPerWeek, msPerDay.
  destruct (Z.leb_spec cur endDate) as [Hle | Hgt].
  - assert (0 <= (endDate - cur) / (7 * 86400000)) by (apply Z.div_pos; lia).
    rewrite Nat2Z.inj_succ, Z2Nat.id by assumption.
    Z.div_mod_to_equations. lia.
  - cbn. lia.
Qed.

Lemma isBreakWeek_InBreak (date : Z) (breaks : option (list BreakPeriod)) :
  isBreakWeek date breaks = true
  <-> InBreak date defaultBreaks \/ InBreak date (suppliedBreaks breaks).
Proof.
  unfold isBreakWeek. fold (suppliedBreaks breaks).
  rewrite existsb_exists. unfold InBreak. split.
  - intros (b & Hin & Hb). apply andb_true_iff in Hb as [H1 H2].
    apply Z.leb_le in H1, H2. apply in_app_or in Hin as [Hin | Hin].
    + left. now exists b.
    + right. now exists b.
  - intros [(b & Hin & Hb) | (b & Hin & Hb)]; exists b; split;
      try (apply in_or_app; auto); apply andb_true_iff; split; apply Z.leb_le; lia.
Qed.

Lemma In_occurrences (startDate endDate : Z) (breaks : option (list BreakPeriod))
    (course : ScheduleEvent) (date : Z) :
  In date (occurrences startDate endDate breaks course)
  <-> exists k, 0 <= k
        /\ date = getFirstWeekdayOccurrence startDate (day course) + k * msPerWeek
        /\ date <= endDate
        /\ isBreakWeek date breaks = false.
Proof.
  unfold occurrences. rewrite filter_In, In_weeklyDates. split.
  - intros [(k & Hk & ->) Hb]. exists k. apply negb_true_iff in Hb.
    repeat split; try assumption; try lia.
    apply weekCount_bound; lia.
  - intros (k & Hk & -> & Hle & Hb). split.
    + exists k. split; [| reflexivity]. split; [assumption |].
      now apply weekCount_bound.
    + now apply negb_true_iff.
Qed.

End WeeklyLoop.

(** ** Claims about the materialiser *)

Section Materializer.

Import ScheduleService.

(** A class event that the model gives the weekday index [d]. *)
Definition sampleEvent (d : Z) : ScheduleEvent :=
  {| subject := "COMP 248 - Object-Oriented Programming I";
     day := d;
     startTime := "11:45";
     endTime := "13:00";
     location := "H 110";
     description := "COMP 248 | Lecture | 3.5 Credits | Instructor: TBD";
     type := Lecture;
     instructor := "TBD";
     section := "A";
     credits := "3.5";
     department := "COMP" |}.

Definition headerLine : string :=
  "Subject,Start Date,Start Time,End Date,End Time,All Day Event,Description,Location,Private".

(** Weekday of a date with 0 for Monday, the numbering of the day-sets
    ([extractDaysFromSchedule], [dayMap]). *)
Definition mondayBasedWeekday (t : Z) : Z := (getDay t + 6) mod 7.

(** C1 (the code at the failing inputs).  2 September 2024 is a Monday.
    For a meeting on weekday 0 (Monday in the day-sets) and that start date,
    [getFirstWeekdayOccurrence] returns 8 September 2024, a Sunday, six days
    later, where the claim has the start date itself; with the start date on
    Tuesday 3 September 2024 it returns the same Sunday, five days later,
    where the claim has six. *)
Theorem first_occurrence_of_weekday_0_is_a_sunday :
  let monday := fromComponents 2024 8 2 in
  let tuesday := fromComponents 2024 8 3 in
  mondayBasedWeekday monday = 0
  /\ getFirstWeekdayOccurrence monday 0 = monday + 6 * msPerDay
  /\ formatDate (getFirstWeekdayOccurrence monday 0) = "09/08/2024"
  /\ mondayBasedWeekday (getFirstWeekdayOccurrence monday 0) = 6
  /\ mondayBasedWeekday tuesday = 1
  /\ getFirstWeekdayOccurrence tuesday 0 = tuesday + 5 * msPerDay
  /\ formatDate (getFirstWeekdayOccurrence tuesday 0) = "09/08/2024".
Proof. vm_compute. repeat split; reflexivity. Qed.

(** C2 (counterexample).  The caller supplies one break, 14 to 18 October
    2024.  Tuesday 26 November 2024 lies in no supplied range, yet
    [isBreakWeek] holds for it (a default range covers it), and the CSV for
    the week of 25 to 30 November has no row. *)
Lemma default_breaks_apply_beside_supplied_ones :
  let supplied := [ {| bStart := fromComponents 2024 9 14; bEnd := fromComponents 2024 9 18 |} ] in
  let date := fromComponents 2024 10 26 in
  let semester := {| siStartDate := Some (fromComponents 2024 10 25);
                     siEndDate := Some (fromComponents 2024 10 30);
                     siTerm := None;
                     siBreaks := Some supplied |} in
  isBreakWeek date (Some supplied) = true
  /\ ~ InBreak date supplied
  /\ getFirstWeekdayOccurrence (fromComponents 2024 10 25) 2 = date
  /\ generateCSV [sampleEvent 2] semester 0 = Some headerLine.
Proof.
  cbv zeta. split; [vm_compute; reflexivity |]. split; [| split; vm_compute; reflexivity].
  intros (b & Hin & Hb). destruct Hin as [<- | []].
  destruct Hb as [_ Hb]. vm_compute in Hb. now apply Hb.
Qed.

(** C2 (amended).  The default ranges are always applied, and the ranges
    the caller supplies are applied beside them: [isBreakWeek] holds of a
    date exactly when it lies in a default range or in a supplied range, and
    the dates that get a row are exactly the weekly steps within the
    semester window that lie in no default range and in no supplied range. *)
Theorem breaks_are_default_and_supplied
    (scheduleData : list ScheduleEvent) (semesterInfo : SemesterInfo) (now : Z) :
  let startDate := fst (getSemesterDates semesterInfo now) in
  let endDate := snd (getSemesterDates semesterInfo now) in
  let breaks := siBreaks semesterInfo in
  (forall date,
     isBreakWeek date breaks = true
     <-> InBreak date defaultBreaks \/ InBreak date (suppliedBreaks breaks))
  /\ exists occurrence : ScheduleEvent -> list Z,
       materialize scheduleData semesterInfo now
       = Some (flat_map (fun course => map (makeRow course) (occurrence course)) scheduleData)
       /\ forall course date,
            In date (occurrence course)
            <-> (exists k, 0 <= k
                   /\ date = getFirstWeekdayOccurrence startDate (day course) + k * (7 * msPerDay)
                   /\ date <= endDate)
                /\ ~ InBreak date defaultBreaks
                /\ ~ InBreak date (suppliedBreaks breaks).
Proof.
  intros startDate endDate breaks.
  split; [intros date; apply isBreakWeek_InBreak |].
  exists (occurrences startDate endDate breaks).
  split; [apply materialize_rows |].
  intros course date. split.
  - intros Hin.
    destruct (proj1 (In_occurrences startDate endDate breaks course date) Hin)
      as (k & Hk & Hd & Hle & Hb).
    split; [exists k; split; [exact Hk |]; split; [exact Hd | exact Hle] |].
    split; intros Hbr.
    + pose proof (proj2 (isBreakWeek_InBreak date breaks) (or_introl Hbr)) as Ht.
      rewrite Ht in Hb. discriminate Hb.
    + pose proof (proj2 (isBreakWeek_InBreak date breaks) (or_intror Hbr)) as Ht.
      rewrite Ht in Hb. discriminate Hb.
  - intros [(k & Hk & Hd & Hle) [Hnd Hns]].
    apply (proj2 (In_occurrences startDate endDate breaks course date)).
    exists k. split; [exact Hk |]. split; [exact Hd |]. split; [exact Hle |].
    destruct (isBreakWeek date breaks) eqn:E; [| reflexivity].
    destruct (proj1 (isBreakWeek_InBreak date breaks) E) as [E' | E']; contradiction.
Qed.

End Materializer.

(** ** The CSV encoder *)

Definition lineFeed : string := String (ascii_of_nat 10) EmptyString.

(** The values of one row, in header order. *)
Definition rowFields (course : ScheduleService.ScheduleEvent) (date : Z) : list string :=
  [ ScheduleService.sanitizeCsvField (ScheduleService.subject course);
    ScheduleService.formatDate date;
    ScheduleService.startTime course;
    ScheduleService.formatDate date;
    ScheduleService.endTime course;
    "False";
    ScheduleService.sanitizeCsvField (ScheduleService.description course);
    ScheduleService.sanitizeCsvField (ScheduleService.location course);
    "False" ].

Definition rowLine (course : ScheduleService.ScheduleEvent) (date : Z) : string :=
  join "," (map ScheduleService.quoteField (rowFields course date)).

(** A reader of quoted fields: after the opening quote, a pair of quotes
    stands for one quote and a single quote must close the field. *)
Fixpoint readQuotedBody (s : string) : option string :=
  match s with
  | EmptyString => None
  | String c r =>
      if (c =? ScheduleService.dquote)%char then
        match r with
        | EmptyString => Some EmptyString
        | String c2 r2 =>
            if (c2 =? ScheduleService.dquote)%char
            then option_map (String ScheduleService.dquote) (readQuotedBody r2)
            else None
        end
      else option_map (String c) (readQuotedBody r)
  end.

Definition readQuoted (s : string) : option string :=
  match s with
  | String c r => if (c =? ScheduleService.dquote)%char then readQuotedBody r else None
  | EmptyString => None
  end.

(** [text] is ten characters, [MM/DD/YYYY]: two digits, a slash, two
    digits, a slash, four digits. *)
Definition IsMMDDYYYY (text : string) : Prop :=
  exists mm dd yyyy,
    text = mm ++ "/" ++ dd ++ "/" ++ yyyy
    /\ Digits mm /\ length mm = 2%nat
    /\ Digits dd /\ length dd = 2%nat
    /\ Digits yyyy /\ length yyyy = 4%nat.

(** [text] writes [date] as month, day of month and year separated by
    slashes: two digits for the month, two for the day of month, and the
    year as [Number.prototype.toString] prints it. *)
Definition DateFormat (text : string) (date : Z) : Prop :=
  exists mm dd,
    text = mm ++ "/" ++ dd ++ "/" ++ numberToString (getFullYear date)
    /\ Digits mm /\ length mm = 2%nat /\ decimalValue mm = getMonth date + 1
    /\ 1 <= decimalValue mm <= 12
    /\ Digits dd /\ length dd = 2%nat /\ decimalValue dd = getDate date
    /\ 1 <= decimalValue dd <= 31.

Section CsvEncoder.

Import ScheduleService.

Lemma forallb_range (P : Z -> bool) (lo len : Z) :
  forallb P (map (fun i => lo + Z.of_nat i) (seq 0 (Z.to_nat len))) = true ->
  forall n, lo <= n < lo + len -> P n = true.
Proof.
  intros H n Hn. rewrite forallb_forall in H. apply H.
  apply in_map_iff. exists (Z.to_nat (n - lo)). split; [lia |].
  apply in_seq. lia.
Qed.

Definition twoDigitCheck (n : Z) : bool :=
  let s := padStart 2 "0" (numberToString n) in
  allChars isDigit s && (length s =? 2)%nat && (decimalValue s =? n).

Definition fourDigitCheck (n : Z) : bool :=
  let s := numberToString n in
  allChars isDigit s && (length s =? 4)%nat.

Lemma pad_two (n : Z) :
  0 <= n <= 99 ->
  let s := padStart 2 "0" (numberToString n) in
  Digits s /\ length s = 2%nat /\ decimalValue s = n.
Proof.
  intros Hn s.
  assert (H : twoDigitCheck n = true).
  { apply (forallb_range twoDigitCheck 0 100); [vm_compute; reflexivity | lia]. }
  unfold twoDigitCheck in H. fold s in H.
  apply andb_true_iff in H as [H H3]. apply andb_true_iff in H as [H1 H2].
  apply Nat.eqb_eq in H2. apply Z.eqb_eq in H3. repeat split; assumption.
Qed.

Lemma year_four_digits (y : Z) :
  1000 <= y <= 9999 -> Digits (numberToString y) /\ length (numberToString y) = 4%nat.
Proof.
  intros Hy.
  assert (H : fourDigitCheck y = true).
  { apply (forallb_range fourDigitCheck 1000 9000); [vm_compute; reflexivity | lia]. }
  unfold fourDigitCheck in H. apply andb_true_iff in H as [H1 H2].
  apply Nat.eqb_eq in H2. split; assumption.
Qed.

Lemma formatDate_format (date : Z) : DateFormat (formatDate date) date.
Proof.
  destruct (date_fields date) as (Hm & Hd & _).
  destruct (pad_two (getMonth date + 1) ltac:(lia)) as (M1 & M2 & M3).
  destruct (pad_two (getDate date) ltac:(lia)) as (D1 & D2 & D3).
  exists (padStart 2 "0" (numberToString (getMonth date + 1))),
         (padStart 2 "0" (numberToString (getDate date))).
  split; [reflexivity |].
  split; [exact M1 |]. split; [exact M2 |]. split; [exact M3 |].
  split; [rewrite M3; lia |].
  split; [exact D1 |]. split; [exact D2 |]. split; [exact D3 |].
  rewrite D3; lia.
Qed.

Lemma formatDate_four_digit_year (date : Z) :
  1000 <= getFullYear date <= 9999 -> IsMMDDYYYY (formatDate date).
Proof.
  intros Hy. destruct (formatDate_format date) as (mm & dd & E & M1 & M2 & _ & _ & D1 & D2 & _).
  destruct (year_four_digits _ Hy) as [Y1 Y2].
  exists mm, dd, (numberToString (getFullYear date)).
  repeat split; assumption.
Qed.

Lemma encodeRow_makeRow (course : ScheduleEvent) (date : Z) :
  encodeRow (makeRow course date) = Some (rowLine course date).
Proof. reflexivity. Qed.

Lemma encodeRows_makeRows (rows : list (ScheduleEvent * Z)) :
  encodeRows (map (fun r => makeRow (fst r) (snd r)) rows)
  = Some (map (fun r => rowLine (fst r) (snd r)) rows).
Proof.
  induction rows as [| r rows IH]; [reflexivity |].
  cbn [map encodeRows]. rewrite encodeRow_makeRow, IH. reflexivity.
Qed.

(** The (course, date) pairs behind the rows, in row order. *)
Definition rowKeys (scheduleData : list ScheduleEvent) (occurrence : ScheduleEvent -> list Z)
    : list (ScheduleEvent * Z) :=
  flat_map (fun course => map (pair course) (occurrence course)) scheduleData.

Lemma rowKeys_rows (scheduleData : list ScheduleEvent) (occurrence : ScheduleEvent -> list Z) :
  flat_map (fun course => map (makeRow course) (occurrence course)) scheduleData
  = map (fun r => makeRow (fst r) (snd r)) (rowKeys scheduleData occurrence).
Proof.
  unfold rowKeys. induction scheduleData as [| course rest IH]; [reflexivity |].
  cbn [flat_map]. rewrite map_app, IH, map_map. reflexivity.
Qed.

Lemma In_rowKeys (scheduleData : list ScheduleEvent) (occurrence : ScheduleEvent -> list Z)
    (r : ScheduleEvent * Z) :
  In r (rowKeys scheduleData occurrence)
  <-> In (fst r) scheduleData /\ In (snd r) (occurrence (fst r)).
Proof.
  unfold rowKeys. rewrite in_flat_map. split.
  - intros (course & Hc & Hr). apply in_map_iff in Hr as (d & <- & Hd). now split.
  - intros [Hc Hd]. exists (fst r). split; [assumption |].
    apply in_map_iff. exists (snd r). split; [now destruct r | assumption].
Qed.

Lemma readQuotedBody_doubleQuotes (v : string) :
  readQuotedBody (doubleQuotes v ++ String dquote EmptyString) = Some v.
Proof.
  induction v as [| c v IH]; [reflexivity |].
  cbn [doubleQuotes]. destruct (Ascii.eqb_spec c dquote) as [-> | Hne].
  - cbn [append readQuotedBody]. rewrite Ascii.eqb_refl, IH. reflexivity.
  - cbn [append readQuotedBody].
    destruct (Ascii.eqb_spec c dquote) as [E | _]; [contradiction |].
    rewrite IH. reflexivity.
Qed.

Lemma readQuoted_quoteField (v : string) : readQuoted (quoteField v) = Some v.
Proof. unfold quoteField, readQuoted. rewrite Ascii.eqb_refl. apply readQuotedBody_doubleQuotes. Qed.

End CsvEncoder.

Section CsvClaims.

Import ScheduleService.

(** C5 (counterexample).  For a semester in the year 999 the Start Date
    and End Date of the row are [09/01/999]: the year has three digits, and
    the text is not [MM/DD/YYYY]. *)
Lemma three_digit_year_is_not_padded :
  let semester := {| siStartDate := Some (fromComponents 999 8 1);
                     siEndDate := Some (fromComponents 999 8 7);
                     siTerm := None;
                     siBreaks := None |} in
  generateCSV [sampleEvent 0] semester 0
  = Some (join lineFeed [headerLine; rowLine (sampleEvent 0) (fromComponents 999 8 1)])
  /\ formatDate (fromComponents 999 8 1) = "09/01/999"
  /\ ~ IsMMDDYYYY (formatDate (fromComponents 999 8 1)).
Proof.
  cbv zeta. split; [vm_compute; reflexivity |].
  assert (E : formatDate (fromComponents 999 8 1) = "09/01/999") by (vm_compute; reflexivity).
  split; [exact E |]. rewrite E.
  intros (mm & dd & yyyy & Ht & _ & Hm & _ & Hd & _ & Hy).
  apply (f_equal length) in Ht. rewrite !length_append2 in Ht.
  rewrite Hm, Hd, Hy in Ht. discriminate Ht.
Qed.

(** C5 (amended).  Whatever the events and the semester, [generateCSV]
    returns the header line followed by one line per row.  The header is the
    nine column names separated by commas.  A row line is the nine values of
    [rowFields], each wrapped by [quoteField], separated by commas: Start
    Date and End Date are both [formatDate] of the occurrence date, All Day
    Event and Private are both [False].  [formatDate] gives two digits of
    month, two of day of month and the year in decimal, which is
    [MM/DD/YYYY] for the years 1000 to 9999.  [quoteField] puts the value
    between double quotes with every double quote of the value doubled, so
    that a reader of quoted fields gets the value back. *)
Theorem csv_has_header_and_quoted_rows
    (scheduleData : list ScheduleEvent) (semesterInfo : SemesterInfo) (now : Z) :
  (exists rows : list (ScheduleEvent * Z),
     generateCSV scheduleData semesterInfo now
     = Some (join lineFeed (headerLine :: map (fun r => rowLine (fst r) (snd r)) rows))
     /\ forall r, In r rows -> In (fst r) scheduleData)
  /\ headerLine = join "," headers
  /\ (forall course date,
        rowLine course date
        = join "," (map quoteField
            [ sanitizeCsvField (subject course); formatDate date; startTime course;
              formatDate date; endTime course; "False";
              sanitizeCsvField (description course); sanitizeCsvField (location course);
              "False" ]))
  /\ (forall date, DateFormat (formatDate date) date)
  /\ (forall date, 1000 <= getFullYear date <= 9999 -> IsMMDDYYYY (formatDate date))
  /\ (forall v, quoteField v = String dquote (doubleQuotes v ++ String dquote EmptyString)
                /\ readQuoted (quoteField v) = Some v)
  /\ (let q := String dquote EmptyString in
      quoteField ("He said " ++ q ++ "hi" ++ q)
      = q ++ "He said " ++ q ++ q ++ "hi" ++ q ++ q ++ q).
Proof.
  split; [| split; [reflexivity |]; split; [reflexivity |];
            split; [apply formatDate_format |];
            split; [apply formatDate_four_digit_year |]; split; [| reflexivity]].
  - set (occ := occurrences (fst (getSemesterDates semesterInfo now))
                            (snd (getSemesterDates semesterInfo now))
                            (siBreaks semesterInfo)).
    exists (rowKeys scheduleData occ). split.
    + unfold generateCSV. rewrite materialize_rows. fold occ.
      rewrite rowKeys_rows, encodeRows_makeRows. reflexivity.
    + intros r Hr. exact (proj1 (proj1 (In_rowKeys scheduleData occ r) Hr)).
  - intros v. split; [reflexivity | apply readQuoted_quoteField].
Qed.

(** C5 at one event of weekday 1 and the week of 2 to 8 September 2024:
    the row is dated [09/02/2024], which is [MM/DD/YYYY]. *)
Lemma csv_has_header_and_quoted_rows_witness :
  1000 <= getFullYear (fromComponents 2024 8 2) <= 9999
  /\ IsMMDDYYYY (formatDate (fromComponents 2024 8 2))
  /\ formatDate (fromComponents 2024 8 2) = "09/02/2024".
Proof.
  assert (Hy : 1000 <= getFullYear (fromComponents 2024 8 2) <= 9999)
    by (vm_compute; split; discriminate).
  split; [exact Hy |]. split; [| vm_compute; reflexivity].
  exact (proj1 (proj2 (proj2 (proj2 (proj2
           (csv_has_header_and_quoted_rows [] {| siStartDate := None; siEndDate := None;
                                                 siTerm := None; siBreaks := None |} 0)))))
           (fromComponents 2024 8 2) Hy).
Defined.

End CsvClaims.

(** ** Claims about the time parser *)

Section TimeClaims.

(** C6.  [convertTimeFormat] turns four digits into [HH:MM]; it turns the
    colon shape (an hour of one or two digits, a minute of two, optional
    seconds, an optional AM or PM in any case, white space around) into the
    24-hour time, where 12 AM is hour 0, 12 PM stays 12 and PM adds 12 to
    the other hours; every other value gives [null]. *)
Theorem parseTime_shapes :
  (forall s, FourDigits s ->
     convertTimeFormat (Str s) = Some (substring 0 2 s ++ ":" ++ substring 2 2 s))
  /\ (forall lead h m sec per trail w,
        ColonShape lead h m sec per trail w ->
        convertTimeFormat (Str (colonText lead h m sec per trail))
        = Some (padStart 2 "0" (numberToString (twentyFourHour w (decimalValue h)))
                ++ ":" ++ m))
  /\ twentyFourHour (Some AM) 12 = 0
  /\ twentyFourHour (Some PM) 12 = 12
  /\ (forall hour, 1 <= hour <= 11 -> twentyFourHour (Some PM) hour = hour + 12)
  /\ (forall v, ~ Recognized v -> convertTimeFormat v = None)
  /\ convertTimeFormat (Str "1400") = Some "14:00"
  /\ convertTimeFormat (Str "2:30 PM") = Some "14:30"
  /\ convertTimeFormat (Str "12:00 AM") = Some "00:00"
  /\ convertTimeFormat (Str "garbage") = None.
Proof.
  split; [exact convertTimeFormat_four_digits |].
  split; [exact convertTimeFormat_colon |].
  split; [reflexivity |]. split; [reflexivity |].
  split.
  { intros hour Hh. unfold twentyFourHour.
    destruct (Z.eqb_spec hour 12); [lia | reflexivity]. }
  split.
  { intros v Hv. destruct (convertTimeFormat v) as [t |] eqn:E; [| reflexivity].
    exfalso. apply Hv. exact (convertTimeFormat_inv v t E). }
  repeat split; reflexivity.
Qed.

(** A feed row for one Monday class whose start time is out of range. *)
Definition lateRow : ScheduleItem :=
  {| CourseService.section := Str "A";
     componentCode := Str "LEC";
     instructors := [];
     locationCode := Str "H 110";
     classCapacity := Str "100";
     enrollmentTotal := Str "80";
     waitlistTotal := Str "0";
     modays := Str "Y";
     tuesdays := Str "N";
     wednesdays := Str "N";
     thursdays := Str "N";
     fridays := Str "N";
     saturdays := Str "N";
     sundays := Str "N";
     classStartTime := Str "99:99";
     classEndTime := Str "13:00" |}.

(** C9.  ["99:99"] has an hour above 23 and a minute above 59, and the
    parser returns it unchanged instead of [null]; a feed row with that
    start time yields a Meeting that carries it. *)
Theorem out_of_range_time_is_accepted :
  convertTimeFormat (Str "99:99") = Some "99:99"
  /\ sanitizeTime (Str "99:99") = Some "99:99"
  /\ 23 < decimalValue "99" /\ 59 < decimalValue "99"
  /\ map (fun s => map CourseService.startTime (schedule s)) (processScheduleResponse [lateRow])
     = [["99:99"]].
Proof. repeat split; reflexivity. Qed.

End TimeClaims.

(** ** The day parser *)

(** Weekday indices: 0 (Monday) to 6 (Sunday). *)
Definition WeekdayIndex (d : Z) : Prop := 0 <= d <= 6.

(** No alternative of the day pattern matches anywhere in [s]. *)
Definition NoDayToken (s : string) : Prop :=
  forall pre suf, s = pre ++ suf -> firstMatch dayAlternatives suf = None.

Section DayParser.

Lemma dayMap_range (tok : string) (d : Z) :
  lookup tok dayMap = Some d -> WeekdayIndex d.
Proof.
  unfold dayMap, WeekdayIndex. cbn [lookup].
  repeat match goal with
         | |- context [(tok =? ?k)%string] => destruct (tok =? k)%string
         end;
    intros H; try discriminate H; injection H as <-; lia.
Qed.

Lemma includes_In (d : Z) (ds : list Z) : includes d ds = true <-> In d ds.
Proof.
  unfold includes. rewrite existsb_exists. split.
  - intros (x & Hx & E). apply Z.eqb_eq in E. now subst.
  - intros H. exists d. split; [assumption | apply Z.eqb_refl].
Qed.

Lemma recordDay_keeps (tok : string) (ds : list Z) :
  NoDup ds -> Forall WeekdayIndex ds ->
  NoDup (recordDay tok ds) /\ Forall WeekdayIndex (recordDay tok ds).
Proof.
  intros Hn Hf. unfold recordDay.
  destruct (lookup tok dayMap) as [d |] eqn:E; [| now split].
  destruct (includes d ds) eqn:Ei; [now split |].
  split.
  - apply NoDup_app; [assumption | constructor; [intros [] | constructor] |].
    intros x Hx [<- | []]. apply includes_In in Hx. congruence.
  - apply Forall_app. split; [assumption |].
    constructor; [now apply dayMap_range with tok | constructor].
Qed.

Lemma scanDays_keeps (s : string) :
  forall skip ds,
    NoDup ds -> Forall WeekdayIndex ds ->
    NoDup (scanDays s skip ds) /\ Forall WeekdayIndex (scanDays s skip ds).
Proof.
  induction s as [| c r IH]; intros skip ds Hn Hf; cbn [scanDays]; [now split |].
  destruct skip as [| k]; [| now apply IH].
  destruct (firstMatch dayAlternatives (String c r)) as [tok |]; [| now apply IH].
  destruct (recordDay_keeps tok ds Hn Hf) as [Hn' Hf']. now apply IH.
Qed.

Lemma scanDays_no_token (s : string) :
  NoDayToken s -> forall skip ds, scanDays s skip ds = ds.
Proof.
  induction s as [| c r IH]; intros Hno skip ds; cbn [scanDays]; [reflexivity |].
  assert (Hr : NoDayToken r).
  { intros pre suf E. apply (Hno (String c pre) suf). cbn. now rewrite E. }
  destruct skip as [| k]; [| now apply IH].
  rewrite (Hno "" (String c r) eq_refl). now apply IH.
Qed.

Lemma sortBefore_weekday (x y : Z) :
  WeekdayIndex x -> WeekdayIndex y -> sortBefore x y = (x <? y).
Proof.
  unfold WeekdayIndex. intros Hx Hy.
  assert (Ex : x = 0 \/ x = 1 \/ x = 2 \/ x = 3 \/ x = 4 \/ x = 5 \/ x = 6) by lia.
  assert (Ey : y = 0 \/ y = 1 \/ y = 2 \/ y = 3 \/ y = 4 \/ y = 5 \/ y = 6) by lia.
  repeat (destruct Ex as [Ex | Ex]); repeat (destruct Ey as [Ey | Ey]); subst; reflexivity.
Qed.

Lemma insertSorted_In (x : Z) (l : list Z) (y : Z) :
  In y (insertSorted x l) <-> y = x \/ In y l.
Proof.
  induction l as [| z l IH]; cbn [insertSorted].
  - cbn. intuition.
  - destruct (sortBefore x z); cbn [In].
    + intuition.
    + rewrite IH. intuition.
Qed.

Lemma insertSorted_ascending (x : Z) (l : list Z) :
  WeekdayIndex x -> Forall WeekdayIndex l -> ~ In x l ->
  StronglySorted Z.lt l -> StronglySorted Z.lt (insertSorted x l).
Proof.
  intros Hx Hf Hnin Hs. induction l as [| z l IH]; cbn [insertSorted].
  - constructor; constructor.
  - apply Forall_cons_iff in Hf as [Hz Hf].
    apply StronglySorted_inv in Hs as [Hs Hall].
    rewrite (sortBefore_weekday x z Hx Hz).
    destruct (Z.ltb_spec x z) as [Hlt | Hge].
    + constructor; [constructor; assumption |].
      constructor; [assumption |].
      eapply Forall_impl; [| exact Hall]. intros a Ha. cbn beta in Ha. lia.
    + assert (Hne : x <> z) by (intros ->; apply Hnin; now left).
      constructor.
      * apply IH; try assumption. intros Hin. apply Hnin. now right.
      * apply Forall_forall. intros a Ha. apply insertSorted_In in Ha as [-> | Ha].
        -- lia.
        -- rewrite Forall_forall in Hall. now apply Hall.
Qed.

Lemma sort_fold_ascending (l : list Z) :
  forall acc,
    NoDup (acc ++ l) -> Forall WeekdayIndex (acc ++ l) -> StronglySorted Z.lt acc ->
    StronglySorted Z.lt (fold_left (fun a x => insertSorted x a) l acc)
    /\ forall y, In y (fold_left (fun a x => insertSorted x a) l acc) <-> In y (acc ++ l).
Proof.
  induction l as [| x l IH]; intros acc Hn Hf Hs; cbn [fold_left].
  - rewrite app_nil_r. split; [assumption | reflexivity].
  - assert (Hx : WeekdayIndex x).
    { rewrite Forall_forall in Hf. apply Hf. apply in_or_app. right. now left. }
    assert (Hacc : Forall WeekdayIndex acc).
    { apply Forall_app in Hf. apply Hf. }
    assert (Hnin : ~ In x acc).
    { apply NoDup_remove_2 in Hn. intros Hin. apply Hn. apply in_or_app. now left. }
    assert (Hperm : forall y, In y (insertSorted x acc ++ l) <-> In y (acc ++ x :: l)).
    { intros y. rewrite !in_app_iff, insertSorted_In. cbn [In]. intuition. }
    destruct (IH (insertSorted x acc)) as [Hs' Hin'].
    + apply NoDup_remove in Hn as [Hn Hn2].
      clear - Hn Hn2 Hnin. revert Hn Hn2.
      induction acc as [| a acc IHa]; cbn [insertSorted app]; intros Hn Hn2.
      * constructor; assumption.
      * assert (Hxa : x <> a) by (intros ->; apply Hnin; now left).
        assert (Hnin' : ~ In x acc) by (intros H; apply Hnin; now right).
        destruct (sortBefore x a).
        -- constructor; [| exact Hn]. exact Hn2.
        -- cbn [app]. apply NoDup_cons_iff in Hn as [Ha Hn]. constructor.
           ++ rewrite in_app_iff, insertSorted_In. rewrite in_app_iff in Ha.
              intros [[E | H] | H]; [congruence | apply Ha; now left | apply Ha; now right].
           ++ apply IHa; try assumption.
              intros H. apply Hn2. cbn [app In]. now right.
    + apply Forall_forall. intros y Hy. apply Hperm in Hy.
      rewrite Forall_forall in Hf. now apply Hf.
    + now apply insertSorted_ascending.
    + split; [assumption |]. intros y. rewrite Hin'. apply Hperm.
Qed.

Lemma sort_ascending (l : list Z) :
  NoDup l -> Forall WeekdayIndex l ->
  StronglySorted Z.lt (sort l) /\ forall y, In y (sort l) <-> In y l.
Proof.
  intros Hn Hf. unfold sort. apply (sort_fold_ascending l []); try assumption. constructor.
Qed.

Lemma ascending_NoDup (l : list Z) : StronglySorted Z.lt l -> NoDup l.
Proof.
  induction 1 as [| a l Hs IH Hall]; constructor; [| assumption].
  intros Hin. rewrite Forall_forall in Hall. specialize (Hall a Hin). lia.
Qed.

End DayParser.

Section DayClaims.

(** C7.  For every input, [parseDays] returns weekday indices in strictly
    ascending order, hence without duplicates; a string in which the day
    pattern matches nowhere gives the empty list. *)
Theorem parseDays_ascending_without_duplicates :
  (forall v,
     StronglySorted Z.lt (parseDays v)
     /\ NoDup (parseDays v)
     /\ Forall WeekdayIndex (parseDays v))
  /\ (forall s, NoDayToken s -> parseDays (Str s) = [])
  /\ parseDays (Str "MoWeFr") = [0; 2; 4]
  /\ parseDays (Str "TuTh") = [1; 3]
  /\ parseDays (Str "") = [].
Proof.
  split; [| split; [| repeat split; reflexivity]].
  - intros v.
    assert (H : StronglySorted Z.lt (parseDays v) /\ Forall WeekdayIndex (parseDays v)).
    { unfold parseDays. destruct v as [| | b | n | s]; try (split; constructor).
      destruct (s =? "")%string; [split; constructor |].
      destruct (scanDays_keeps s 0 [] (NoDup_nil Z) (Forall_nil _)) as [Hn Hf].
      destruct (sort_ascending _ Hn Hf) as [Hs Hin]. split; [assumption |].
      apply Forall_forall. intros y Hy. apply Hin in Hy.
      rewrite Forall_forall in Hf. now apply Hf. }
    destruct H as [Hs Hf]. split; [assumption |]. split; [| assumption].
    now apply ascending_NoDup.
  - intros s Hno. unfold parseDays. destruct (s =? "")%string; [reflexivity |].
    now rewrite scanDays_no_token.
Qed.

(** A catalog meeting with the given day string and parsable times. *)
Definition rawMeetingOn (dayString : string) : RawMeeting :=
  {| rmDays := Str dayString; rmDay := Undefined;
     rmStartTime := Str "11:45"; rmStart := Undefined;
     rmEndTime := Str "13:00"; rmEnd := Undefined;
     rmLocation := Str "H 110"; rmRoom := Undefined;
     rmType := Str "LEC" |}.

(** C10.  The day pattern matches ["mo"] at the start of ["mowefr"], but
    [dayMap] has no entry for the matched text, only for ["Mo"]; so
    [parseDays] returns the empty list for ["mowefr"], where the same codes
    in their table spelling give 0, 2, 4, and a catalog meeting with that
    day string is dropped. *)
Theorem lowercase_day_codes_are_lost :
  firstMatch dayAlternatives "mowefr" = Some "mo"
  /\ lookup "mo" dayMap = None
  /\ lookup "Mo" dayMap = Some 0
  /\ parseDays (Str "mowefr") = []
  /\ parseDays (Str "MoWeFr") = [0; 2; 4]
  /\ processScheduleData [rawMeetingOn "mowefr"] = []
  /\ map days (processScheduleData [rawMeetingOn "MoWeFr"]) = [[0; 2; 4]].
Proof. repeat split; reflexivity. Qed.

End DayClaims.

(** ** The schedule feed *)

Definition meetingList (item : ScheduleItem) : list Meeting :=
  match meetingOf item with
  | Some mt => [mt]
  | None => []
  end.

(** The Meetings of the rows whose key is [k], in row order. *)
Definition meetingsOfKey (k : string) (rows : list ScheduleItem) : list Meeting :=
  flat_map (fun item => if (sectionKey item =? k)%string then meetingList item else []) rows.

Section Feed.

Lemma has_In (k : string) (m : SectionsMap) : has k m = true <-> In k (map fst m).
Proof.
  unfold has. rewrite existsb_exists, in_map_iff. split.
  - intros (e & He & E). apply String.eqb_eq in E. now exists e.
  - intros (e & E & He). exists e. split; [assumption | now apply String.eqb_eq].
Qed.

Lemma pushAt_keys (k : string) (mt : Meeting) (m : SectionsMap) :
  map fst (pushAt k mt m) = map fst m.
Proof.
  induction m as [| [k' s] m IH]; [reflexivity |].
  cbn [pushAt]. destruct (k' =? k)%string; cbn [map fst]; [reflexivity | now rewrite IH].
Qed.

Lemma pushAt_In (k : string) (mt : Meeting) (m : SectionsMap) (k' : string) (s : Section) :
  NoDup (map fst m) ->
  In (k', s) (pushAt k mt m) ->
  (k' = k /\ exists s0, In (k, s0) m /\ s = pushMeeting mt s0)
  \/ (k' <> k /\ In (k', s) m).
Proof.
  induction m as [| [k1 s1] m IH]; cbn [pushAt map fst]; intros Hn Hin; [contradiction |].
  apply NoDup_cons_iff in Hn as [Hk1 Hn].
  destruct (String.eqb_spec k1 k) as [-> | Hne].
  - destruct Hin as [E | Hin].
    + injection E as <- <-. left. split; [reflexivity |]. exists s1. split; [now left | reflexivity].
    + right. split; [| now right]. intros ->. apply Hk1.
      apply in_map_iff. now exists (k, s).
  - destruct Hin as [E | Hin].
    + injection E as <- <-. right. split; [assumption | now left].
    + destruct (IH Hn Hin) as [[-> (s0 & H0 & ->)] | [Hne' Hin']].
      * left. split; [reflexivity |]. exists s0. split; [now right | reflexivity].
      * right. split; [assumption | now right].
Qed.

Lemma meetingsOfKey_app (k : string) (rows : list ScheduleItem) (x : ScheduleItem) :
  meetingsOfKey k (rows ++ [x])
  = (meetingsOfKey k rows ++ (if (sectionKey x =? k)%string then meetingList x else []))%list.
Proof.
  unfold meetingsOfKey. rewrite flat_map_app. cbn [flat_map]. now rewrite app_nil_r.
Qed.

Lemma meetingsOfKey_absent (k : string) (rows : list ScheduleItem) :
  (forall item, In item rows -> sectionKey item <> k) -> meetingsOfKey k rows = [].
Proof.
  induction rows as [| x rows IH]; intros H; [reflexivity |].
  unfold meetingsOfKey in *. cbn [flat_map].
  destruct (String.eqb_spec (sectionKey x) k) as [E | _].
  - exfalso. apply (H x); [now left | assumption].
  - cbn [app]. apply IH. intros item Hi. apply H. now right.
Qed.

Lemma In_meetingsOfKey (k : string) (rows : list ScheduleItem) (mt : Meeting) :
  In mt (meetingsOfKey k rows)
  <-> exists item, In item rows /\ sectionKey item = k /\ meetingOf item = Some mt.
Proof.
  unfold meetingsOfKey. rewrite in_flat_map. split.
  - intros (item & Hi & Hm). exists item. split; [assumption |].
    destruct (String.eqb_spec (sectionKey item) k) as [E | _]; [| contradiction].
    split; [assumption |]. unfold meetingList in Hm.
    destruct (meetingOf item) as [mt' |]; [| contradiction].
    destruct Hm as [-> | []]. reflexivity.
  - intros (item & Hi & Hk & Hm). exists item. split; [assumption |].
    rewrite Hk, String.eqb_refl. unfold meetingList. rewrite Hm. now left.
Qed.

(** What holds of [sectionsMap] after the rows [rows]. *)
Definition MapInvariant (rows : list ScheduleItem) (m : SectionsMap) : Prop :=
  NoDup (map fst m)
  /\ (forall k sec, In (k, sec) m -> schedule sec = meetingsOfKey k rows)
  /\ (forall item, In item rows -> In (sectionKey item) (map fst m)).

Lemma processItem_invariant (rows : list ScheduleItem) (m : SectionsMap) (x : ScheduleItem) :
  MapInvariant rows m -> MapInvariant (rows ++ [x]) (processItem m x).
Proof.
  intros (Hn & Hs & Hk). unfold processItem.
  set (k := sectionKey x).
  set (m1 := if has k m then m else (m ++ [(k, newSection x)])%list).
  assert (Hn1 : NoDup (map fst m1)).
  { subst m1. destruct (has k m) eqn:E; [assumption |].
    rewrite map_app. cbn [map fst]. apply NoDup_app; [assumption | | ].
    - constructor; [intros [] | constructor].
    - intros y Hy [<- | []]. apply has_In in Hy. congruence. }
  assert (Hs1 : forall k' sec, In (k', sec) m1 -> schedule sec = meetingsOfKey k' rows).
  { subst m1. destruct (has k m) eqn:E; [assumption |].
    intros k' sec Hin. apply in_app_or in Hin as [Hin | [Hin | []]]; [now apply Hs |].
    injection Hin as <- <-. cbn [newSection schedule]. symmetry.
    apply meetingsOfKey_absent. intros item Hi Hkey.
    assert (has k m = true) by (apply has_In; rewrite <- Hkey; now apply Hk).
    congruence. }
  assert (Hk1 : forall item, In item (rows ++ [x]) -> In (sectionKey item) (map fst m1)).
  { intros item Hi. subst m1. apply in_app_or in Hi as [Hi | [<- | []]].
    - destruct (has k m); [now apply Hk |].
      rewrite map_app. apply in_or_app. left. now apply Hk.
    - fold k. destruct (has k m) eqn:E; [now apply has_In |].
      rewrite map_app. apply in_or_app. right. now left. }
  clearbody m1. unfold meetingList.
  destruct (meetingOf x) as [mt |] eqn:Em.
  - split; [now rewrite pushAt_keys |]. split; [| now rewrite pushAt_keys].
    intros k' sec Hin. rewrite meetingsOfKey_app. fold k. unfold meetingList. rewrite Em.
    destruct (pushAt_In k mt m1 k' sec Hn1 Hin) as [[-> (s0 & H0 & ->)] | [Hne Hin']].
    + rewrite String.eqb_refl. cbn [pushMeeting schedule]. now rewrite (Hs1 k s0 H0).
    + destruct (String.eqb_spec k k') as [E | _]; [now symmetry in E |].
      rewrite app_nil_r. now apply Hs1.
  - split; [assumption |]. split; [| assumption].
    intros k' sec Hin. rewrite meetingsOfKey_app. unfold meetingList. rewrite Em.
    destruct (sectionKey x =? k')%string; rewrite app_nil_r; now apply Hs1.
Qed.

Lemma buildSectionsMap_invariant (rows : list ScheduleItem) :
  MapInvariant rows (buildSectionsMap rows).
Proof.
  induction rows as [| x rows IH] using rev_ind.
  - repeat split; [constructor | intros k sec [] | intros item []].
  - unfold buildSectionsMap. rewrite fold_left_app. cbn [fold_left].
    now apply processItem_invariant.
Qed.

Lemma map_snd_filter (keep : Section -> bool) (m : SectionsMap) :
  filter keep (map snd m) = map snd (filter (fun e => keep (snd e)) m).
Proof.
  induction m as [| [k s] m IH]; [reflexivity |].
  cbn [map filter snd]. destruct (keep s); cbn [map snd]; now rewrite IH.
Qed.

Lemma NoDup_keys_filter (keep : string * Section -> bool) (m : SectionsMap) :
  NoDup (map fst m) -> NoDup (map fst (filter keep m)).
Proof.
  induction m as [| e m IH]; cbn [map filter]; intros Hn; [constructor |].
  apply NoDup_cons_iff in Hn as [He Hn].
  destruct (keep e); cbn [map]; [| now apply IH].
  constructor; [| now apply IH].
  intros Hin. apply He. apply in_map_iff in Hin as (e' & E & Hin).
  apply filter_In in Hin as [Hin _]. apply in_map_iff. now exists e'.
Qed.

(** The conditions under which a row builds a Meeting. *)
Lemma meetingOf_Some (item : ScheduleItem) (mt : Meeting) :
  meetingOf item = Some mt ->
  days mt = extractDaysFromSchedule item
  /\ days mt <> []
  /\ convertTimeFormat (classStartTime item) = Some (CourseService.startTime mt)
  /\ convertTimeFormat (classEndTime item) = Some (CourseService.endTime mt).
Proof.
  unfold meetingOf. destruct (anyDayFlag item); [| discriminate].
  destruct (convertTimeFormat (classStartTime item)) as [st |]; [| discriminate].
  destruct (convertTimeFormat (classEndTime item)) as [en |]; [| discriminate].
  destruct (extractDaysFromSchedule item) as [| d ds] eqn:E; [discriminate |].
  destruct ((0 <? List.length (d :: ds))%nat && truthy (Str st) && truthy (Str en));
    [| discriminate].
  intros H. injection H as <-. cbn. repeat split. discriminate.
Qed.

Lemma meetingOf_None (item : ScheduleItem) :
  extractDaysFromSchedule item = []
  \/ convertTimeFormat (classStartTime item) = None
  \/ convertTimeFormat (classEndTime item) = None ->
  meetingOf item = None.
Proof.
  unfold meetingOf. intros [H | [H | H]]; rewrite H; destruct (anyDayFlag item);
    try reflexivity.
  - destruct (convertTimeFormat (classStartTime item)); [| reflexivity].
    destruct (convertTimeFormat (classEndTime item)); reflexivity.
  - destruct (convertTimeFormat (classStartTime item)); reflexivity.
Qed.

End Feed.

(** ** Batches of courses *)

Section BatchClaims.

Import ScheduleService.

Variable World : Type.
Variable getCourseDetails :
  string -> string -> World -> World * result (option CourseDetails).
Variable clock : World -> Z.

Let courseEvents := getCourseScheduleData World getCourseDetails clock.
Let batch := generateSchedule World getCourseDetails clock.

(** The term a course is looked up under. *)
Definition termFor (c : CourseInfo) (w : World) : string :=
  match ciTerm c with
  | Some t => t
  | None => getCurrentTerm (clock w)
  end.

(** The ways the processing of one course fails: the catalog client
    rejects, the course is not found, or the course has no section to
    take. *)
Inductive CourseFails (c : CourseInfo) (w : World) : Prop :=
| FetchRejects (w' : World) (e : string) :
    getCourseDetails (ciCode c) (termFor c w) w = (w', Throw e) -> CourseFails c w
| CourseNotFound (w' : World) :
    getCourseDetails (ciCode c) (termFor c w) w = (w', Ok None) -> CourseFails c w
| SectionNotFound (w' : World) (cd : CourseDetails) :
    getCourseDetails (ciCode c) (termFor c w) w = (w', Ok (Some cd)) ->
    ciSection c <> "" ->
    (forall s, In s (cSections cd) -> sSection s <> ciSection c) ->
    CourseFails c w
| NoSection (w' : World) (cd : CourseDetails) :
    getCourseDetails (ciCode c) (termFor c w) w = (w', Ok (Some cd)) ->
    ciSection c = "" ->
    cSections cd = [] ->
    CourseFails c w.

(** No failure leaves [getCourseScheduleData]: its own [catch] turns each
    into an empty list of events. *)
Lemma getCourseScheduleData_returns (c : CourseInfo) (w : World) :
  exists events, snd (courseEvents c w) = Ok events.
Proof.
  unfold courseEvents, getCourseScheduleData. fold (termFor c w).
  destruct (getCourseDetails (ciCode c) (termFor c w) w) as [w' [[cd |] | e]];
    cbn [snd bind tryCatch]; try (now exists []).
  match goal with
  | |- context [match ?t with Some _ => _ | None => _ end] => destruct t
  end; cbn [tryCatch]; eexists; reflexivity.
Qed.

Lemma failing_course_has_no_events (c : CourseInfo) (w : World) :
  CourseFails c w -> snd (courseEvents c w) = Ok [].
Proof.
  unfold courseEvents, getCourseScheduleData. fold (termFor c w).
  intros [w' e H | w' H | w' cd H Hs Hall | w' cd H Hs Hnil]; rewrite H;
    cbn [snd bind tryCatch]; try reflexivity.
  - destruct (String.eqb_spec (ciSection c) "") as [E | _]; [contradiction |].
    cbn [negb].
    destruct (find (fun s => (sSection s =? ciSection c)%string) (cSections cd)) as [s |] eqn:Ef;
      [| reflexivity].
    apply find_some in Ef as [Hin E]. apply String.eqb_eq in E.
    exfalso. now apply (Hall s).
  - rewrite Hs, Hnil. reflexivity.
Qed.

Lemma scheduleStep_acc (w : World) (acc : list ScheduleEvent) (c : CourseInfo) :
  scheduleStep World getCourseDetails clock (w, acc) c
  = (fst (scheduleStep World getCourseDetails clock (w, []) c),
     (acc ++ snd (scheduleStep World getCourseDetails clock (w, []) c))%list).
Proof.
  unfold scheduleStep.
  destruct (getCourseScheduleData World getCourseDetails clock c w) as [w' [evs | e]].
  - destruct (0 <? List.length evs)%nat; cbn [fst snd app]; [reflexivity |].
    now rewrite app_nil_r.
  - cbn [fst snd]. now rewrite app_nil_r.
Qed.

Lemma scheduleStep_fold (courseData : list CourseInfo) :
  forall w acc,
    fold_left (scheduleStep World getCourseDetails clock) courseData (w, acc)
    = (fst (batch courseData w), (acc ++ snd (batch courseData w))%list).
Proof.
  unfold batch, generateSchedule.
  induction courseData as [| c rest IH]; intros w acc; cbn [fold_left].
  - cbn [fst snd]. now rewrite app_nil_r.
  - rewrite (scheduleStep_acc w acc c).
    destruct (scheduleStep World getCourseDetails clock (w, []) c) as [w' e'].
    cbn [fst snd]. rewrite (IH w' (acc ++ e')%list), (IH w' e').
    cbn [fst snd]. rewrite <- app_assoc. reflexivity.
Qed.

Lemma generateSchedule_app (l1 l2 : list CourseInfo) (w : World) :
  batch (l1 ++ l2) w
  = (fst (batch l2 (fst (batch l1 w))),
     (snd (batch l1 w) ++ snd (batch l2 (fst (batch l1 w))))%list).
Proof.
  unfold batch at 1. unfold generateSchedule. rewrite fold_left_app.
  fold (generateSchedule World getCourseDetails clock l1 w). fold batch.
  destruct (batch l1 w) as [w1 e1]. cbn [fst snd]. apply scheduleStep_fold.
Qed.

Lemma generateSchedule_cons (c : CourseInfo) (rest : list CourseInfo) (w : World) :
  batch (c :: rest) w
  = (fst (batch rest (fst (courseEvents c w))),
     (match snd (courseEvents c w) with Ok evs => evs | Throw _ => [] end
      ++ snd (batch rest (fst (courseEvents c w))))%list).
Proof.
  unfold batch at 1. unfold generateSchedule. cbn [fold_left].
  unfold scheduleStep at 2. fold courseEvents.
  destruct (courseEvents c w) as [w' [evs | e]]; cbn [fst snd].
  - destruct (0 <? List.length evs)%nat eqn:E.
    + rewrite scheduleStep_fold. reflexivity.
    + destruct evs; [| discriminate E]. apply scheduleStep_fold.
  - apply scheduleStep_fold.
Qed.

(** C8.  When the processing of course [c] fails, in the state the
    courses before it leave, [c] contributes no event and the batch still
    returns the events of the courses before [c] followed by the events of
    the courses after [c]. *)
Theorem failing_course_is_isolated
    (before after : list CourseInfo) (c : CourseInfo) (w : World) :
  let w1 := fst (generateSchedule World getCourseDetails clock before w) in
  let w2 := fst (getCourseScheduleData World getCourseDetails clock c w1) in
  CourseFails c w1 ->
  snd (getCourseScheduleData World getCourseDetails clock c w1) = Ok []
  /\ generateSchedule World getCourseDetails clock (before ++ c :: after) w
     = (fst (generateSchedule World getCourseDetails clock after w2),
        (snd (generateSchedule World getCourseDetails clock before w)
         ++ snd (generateSchedule World getCourseDetails clock after w2))%list).
Proof.
  intros w1 w2 Hfail.
  pose proof (failing_course_has_no_events c w1 Hfail) as Hnone.
  pose proof (generateSchedule_app before (c :: after) w) as Happ.
  pose proof (generateSchedule_cons c after w1) as Hcons.
  cbv delta [batch courseEvents] in Hnone, Happ, Hcons. cbv beta in Hnone, Happ, Hcons.
  split; [exact Hnone |].
  rewrite Happ. fold w1. rewrite Hcons. fold w2. rewrite Hnone. reflexivity.
Qed.

End BatchClaims.

Section BatchExample.

Import ScheduleService.

(** A feed row of COMP 248: Mondays and Wednesdays, 11:45 to 13:00. *)
Definition lectureRow : ScheduleItem :=
  {| CourseService.section := Str "A";
     componentCode := Str "LEC";
     instructors := [ {| firstName := Str "Ada"; lastName := Str "Lovelace" |} ];
     locationCode := Str "H 110";
     classCapacity := Str "100";
     enrollmentTotal := Str "80";
     waitlistTotal := Str "0";
     modays := Str "Y";
     tuesdays := Str "N";
     wednesdays := Str "Y";
     thursdays := Str "N";
     fridays := Str "N";
     saturdays := Str "N";
     sundays := Str "N";
     classStartTime := Str "1145";
     classEndTime := Str "1300" |}.

Definition sampleDetails : CourseDetails :=
  {| cCode := "COMP 248";
     cTitle := "Object-Oriented Programming I";
     cCredits := "3.5";
     cSections := processScheduleResponse [lectureRow];
     cDescription := "";
     cPrerequisites := "";
     cDepartment := "COMP" |}.

(** A catalog that knows COMP 248 and rejects every other request. *)
Definition sampleCatalog (code term : string) (w : unit)
    : unit * result (option CourseDetails) :=
  if (code =? "COMP 248")%string then (w, Ok (Some sampleDetails))
  else (w, Throw "Request failed with status code 500").

Definition sampleClock (w : unit) : Z := fromComponents 2024 8 2.

Definition knownCourse : CourseInfo :=
  {| ciCode := "COMP 248"; ciSection := "A"; ciTerm := Some "20242" |}.

Definition unknownCourse : CourseInfo :=
  {| ciCode := "SOEN 999"; ciSection := ""; ciTerm := None |}.

(** C8 at a batch of three courses whose second is rejected by the
    catalog: the two events of the first course and the two of the third
    are returned. *)
Lemma failing_course_is_isolated_witness :
  CourseFails unit sampleCatalog sampleClock unknownCourse
    (fst (generateSchedule unit sampleCatalog sampleClock [knownCourse] tt))
  /\ map day (snd (generateSchedule unit sampleCatalog sampleClock
                     ([knownCourse] ++ unknownCourse :: [knownCourse]) tt))
     = [0; 2; 0; 2].
Proof.
  assert (H : CourseFails unit sampleCatalog sampleClock unknownCourse
                (fst (generateSchedule unit sampleCatalog sampleClock [knownCourse] tt))).
  { apply FetchRejects with tt "Request failed with status code 500". reflexivity. }
  split; [exact H |].
  destruct (failing_course_is_isolated unit sampleCatalog sampleClock
              [knownCourse] [knownCourse] unknownCourse tt H) as [_ E].
  rewrite E. reflexivity.
Defined.

End BatchExample.

(** * Further properties of the services *)

(** ** Times: what [sanitizeTime] alone accepts, and the shape of a result *)

Section TimeResults.

Lemma hour_value_range (h : string) : HourShape h -> 0 <= decimalValue h <= 99.
Proof.
  intros Hh. destruct (hour_inv h Hh) as [(a & -> & Ha) | (a & b & -> & Ha & Hb)].
  - each_digit Ha; vm_compute; split; discriminate.
  - each_digit Ha; each_digit Hb; vm_compute; split; discriminate.
Qed.

Lemma twentyFourHour_range (w : option Meridiem) (hour : Z) :
  0 <= hour <= 99 -> 0 <= twentyFourHour w hour <= 111.
Proof.
  intros H. destruct w as [[|] |]; cbn [twentyFourHour];
    try destruct (Z.eqb_spec hour 12); lia.
Qed.

Lemma two_digit_text (m : string) :
  MinuteShape m -> padStart 2 "0" (numberToString (decimalValue m)) = m.
Proof.
  intros Hm. destruct (two_digits_inv m Hm) as (c & d & -> & Hc & Hd).
  each_digit Hc; each_digit Hd; reflexivity.
Qed.

Definition hourTextCheck (n : Z) : bool :=
  let s := padStart 2 "0" (numberToString n) in
  allChars isDigit s && ((length s =? 2)%nat || (length s =? 3)%nat).

Lemma hour_text (n : Z) :
  0 <= n <= 111 ->
  let s := padStart 2 "0" (numberToString n) in
  Digits s /\ (length s = 2%nat \/ length s = 3%nat).
Proof.
  intros Hn s.
  assert (H : hourTextCheck n = true).
  { apply (forallb_range hourTextCheck 0 112); [vm_compute; reflexivity | lia]. }
  unfold hourTextCheck in H. fold s in H. apply andb_true_iff in H as [H1 H2].
  split; [exact H1 |]. apply orb_true_iff in H2 as [H2 | H2]; apply Nat.eqb_eq in H2; auto.
Qed.

Lemma four_digits_inv (s : string) :
  FourDigits s ->
  exists hh mm, s = hh ++ mm /\ MinuteShape hh /\ MinuteShape mm
                /\ substring 0 2 s = hh /\ substring 2 2 s = mm.
Proof.
  intros [Hlen Hd].
  destruct s as [| a [| b [| c [| d [| ? ?]]]]]; try discriminate Hlen.
  unfold Digits in Hd. cbn [allChars] in Hd. rewrite andb_true_r in Hd.
  apply andb_true_iff in Hd as [Ha Hd]. apply andb_true_iff in Hd as [Hb Hd].
  apply andb_true_iff in Hd as [Hc Hd].
  exists (String a (String b "")), (String c (String d "")).
  repeat split; unfold Digits; cbn [allChars]; rewrite ?Ha, ?Hb, ?Hc, ?Hd; reflexivity.
Qed.

(** A text of two digits, a colon and two digits is a colon shape with
    nothing around it. *)
Lemma plain_colon_shape (hh mm : string) :
  MinuteShape hh -> MinuteShape mm -> ColonShape "" hh mm None None "" None.
Proof.
  intros [H1 H2] [H3 H4]. unfold ColonShape.
  repeat split; try assumption; try reflexivity. now right.
Qed.

Lemma plain_colon_text (hh mm : string) :
  colonText "" hh mm None None "" = hh ++ ":" ++ mm.
Proof.
  unfold colonText. cbn [secondsText periodText append].
  rewrite !append_empty_r. reflexivity.
Qed.

Lemma reparse_plain (hh mm : string) :
  MinuteShape hh -> MinuteShape mm ->
  convertTimeFormat (Str (hh ++ ":" ++ mm)) = Some (hh ++ ":" ++ mm).
Proof.
  intros Hh Hm.
  pose proof (convertTimeFormat_colon "" hh mm None None "" None
                (plain_colon_shape hh mm Hh Hm)) as H.
  rewrite plain_colon_text in H. rewrite H.
  cbn [twentyFourHour]. now rewrite (two_digit_text hh Hh).
Qed.

End TimeResults.

Section TimeResultClaims.

(** X1.  [sanitizeTime], the only parser of the catalog shape, accepts the
    colon shape and nothing else: in particular it returns [null] for every
    four-digit string, which [convertTimeFormat] accepts, so a catalog
    meeting whose start time is four digits is dropped. *)
Theorem sanitizeTime_accepts_only_the_colon_shape :
  (forall lead h m sec per trail w,
     ColonShape lead h m sec per trail w ->
     sanitizeTime (Str (colonText lead h m sec per trail))
     = Some (padStart 2 "0" (numberToString (twentyFourHour w (decimalValue h)))
             ++ ":" ++ m))
  /\ (forall v t,
        sanitizeTime v = Some t ->
        exists lead h m sec per trail w,
          ColonShape lead h m sec per trail w
          /\ v = Str (colonText lead h m sec per trail))
  /\ (forall s, FourDigits s ->
        sanitizeTime (Str s) = None /\ convertTimeFormat (Str s) <> None)
  /\ (forall meeting s,
        rmStartTime meeting = Str s -> FourDigits s -> processMeeting meeting = None).
Proof.
  assert (Hinv : forall v t, sanitizeTime v = Some t ->
            exists lead h m sec per trail w,
              ColonShape lead h m sec per trail w
              /\ v = Str (colonText lead h m sec per trail)).
  { intros v t H. destruct v as [| | b | n | s]; try discriminate H.
    destruct (sanitizeTime_inv s t H) as (lead & h & m & sec & per & trail & w & Hs & ->).
    now exists lead, h, m, sec, per, trail, w. }
  assert (Hfour : forall s, FourDigits s -> sanitizeTime (Str s) = None).
  { intros s [Hlen Hd]. destruct (sanitizeTime (Str s)) as [t |] eqn:E; [| reflexivity].
    exfalso. destruct (Hinv _ _ E) as (lead & h & m & sec & per & trail & w & Hs & Ev).
    injection Ev as ->. destruct Hs as (_ & _ & Hhd & Hhl & _).
    destruct (colonText_not_empty lead h m sec per trail (conj Hhd Hhl)) as [_ Hn].
    unfold Digits in Hd. congruence. }
  split; [exact sanitizeTime_colon |]. split; [exact Hinv |]. split.
  - intros s Hs. split; [now apply Hfour |].
    rewrite (convertTimeFormat_four_digits s Hs). discriminate.
  - intros meeting s Hst Hs. unfold processMeeting. rewrite Hst.
    assert (Ht : truthy (Str s) = true).
    { destruct Hs as [Hlen _]. destruct s; [discriminate Hlen | reflexivity]. }
    assert (Hor : or (Str s) (rmStart meeting) = Str s) by (unfold or; now rewrite Ht).
    rewrite Hor. now rewrite (Hfour s Hs).
Qed.

(** X2.  Every time [convertTimeFormat] returns is digits, a colon and two
    digits, with two or three digits before the colon; and when there are
    two, parsing the result again returns it unchanged. *)
Theorem parsed_time_is_digits_colon_digits (v : value) (t : string) :
  convertTimeFormat v = Some t ->
  exists hh mm,
    t = hh ++ ":" ++ mm
    /\ Digits hh /\ (length hh = 2%nat \/ length hh = 3%nat)
    /\ Digits mm /\ length mm = 2%nat
    /\ (length hh = 2%nat -> convertTimeFormat (Str t) = Some t).
Proof.
  intros H. destruct (convertTimeFormat_inv v t H) as (s & -> & [Hs | Hs]).
  - rewrite (convertTimeFormat_four_digits s Hs) in H. injection H as <-.
    destruct (four_digits_inv s Hs) as (hh & mm & _ & Hh & Hm & -> & ->).
    exists hh, mm. destruct Hh as [Hh1 Hh2], Hm as [Hm1 Hm2].
    repeat split; try assumption; [now left |].
    intros _. now apply reparse_plain.
  - destruct Hs as (lead & h & m & sec & per & trail & w & Hs & ->).
    rewrite (convertTimeFormat_colon _ _ _ _ _ _ _ Hs) in H. injection H as <-.
    destruct Hs as (_ & _ & Hhd & Hhl & Hmd & Hml & _).
    pose proof (hour_value_range h (conj Hhd Hhl)) as Hv.
    pose proof (twentyFourHour_range w _ Hv) as Hr.
    destruct (hour_text _ Hr) as [Hd Hl].
    exists (padStart 2 "0" (numberToString (twentyFourHour w (decimalValue h)))), m.
    repeat split; try assumption.
    intros Hl2. apply reparse_plain; now split.
Qed.

Lemma parsed_time_is_digits_colon_digits_witness :
  convertTimeFormat (Str "2:30 PM") = Some "14:30"
  /\ exists hh mm,
       "14:30" = hh ++ ":" ++ mm
       /\ Digits hh /\ (length hh = 2%nat \/ length hh = 3%nat)
       /\ Digits mm /\ length mm = 2%nat
       /\ (length hh = 2%nat -> convertTimeFormat (Str "14:30") = Some "14:30").
Proof.
  split; [reflexivity |].
  exact (parsed_time_is_digits_colon_digits (Str "2:30 PM") "14:30" eq_refl).
Defined.

End TimeResultClaims.

(** ** Day sets *)

Section DaySets.

Lemma isY_spec (v : value) : isY v = true <-> v = Str "Y".
Proof.
  destruct v as [| | b | n | s]; cbn [isY]; split; intros H; try discriminate H.
  - apply String.eqb_eq in H. now subst.
  - injection H as ->. reflexivity.
Qed.

Lemma parseDays_ascending (v : value) :
  StronglySorted Z.lt (parseDays v) /\ Forall WeekdayIndex (parseDays v).
Proof.
  unfold parseDays. destruct v as [| | b | n | s]; try (split; constructor).
  destruct (s =? "")%string; [split; constructor |].
  destruct (scanDays_keeps s 0 [] (NoDup_nil Z) (Forall_nil _)) as [Hn Hf].
  destruct (sort_ascending _ Hn Hf) as [Hs Hin]. split; [assumption |].
  apply Forall_forall. intros y Hy. apply Hin in Hy.
  rewrite Forall_forall in Hf. now apply Hf.
Qed.

Lemma processMeeting_Some (raw : RawMeeting) (mt : Meeting) :
  processMeeting raw = Some mt ->
  days mt = parseDays (or (or (rmDays raw) (rmDay raw)) (Str ""))
  /\ days mt <> []
  /\ sanitizeTime (or (rmStartTime raw) (rmStart raw)) = Some (CourseService.startTime mt)
  /\ sanitizeTime (or (rmEndTime raw) (rmEnd raw)) = Some (CourseService.endTime mt).
Proof.
  unfold processMeeting.
  destruct (sanitizeTime (or (rmStartTime raw) (rmStart raw))) as [st |]; [| discriminate].
  destruct (sanitizeTime (or (rmEndTime raw) (rmEnd raw))) as [en |]; [| discriminate].
  destruct (parseDays (or (or (rmDays raw) (rmDay raw)) (Str ""))) as [| d ds] eqn:E;
    [discriminate |].
  destruct ((0 <? List.length (d :: ds))%nat && truthy (Str st) && truthy (Str en));
    [| discriminate].
  intros H. injection H as <-. cbn. repeat split. discriminate.
Qed.

End DaySets.

Section DaySetClaims.

(** X3.  The day-set [extractDaysFromSchedule] reads off the seven flags
    is in strictly ascending order, and it holds the index of a weekday
    exactly when that weekday's flag is the string [Y]. *)
Theorem day_flags_give_ascending_day_set (item : ScheduleItem) :
  StronglySorted Z.lt (extractDaysFromSchedule item)
  /\ forall d,
       In d (extractDaysFromSchedule item)
       <-> (d = 0 /\ modays item = Str "Y")
           \/ (d = 1 /\ tuesdays item = Str "Y")
           \/ (d = 2 /\ wednesdays item = Str "Y")
           \/ (d = 3 /\ thursdays item = Str "Y")
           \/ (d = 4 /\ fridays item = Str "Y")
           \/ (d = 5 /\ saturdays item = Str "Y")
           \/ (d = 6 /\ sundays item = Str "Y").
Proof.
  set (pick := fun (flag : value) (d : Z) => if isY flag then [d] else []).
  assert (E : extractDaysFromSchedule item
              = (pick (modays item) 0 ++ pick (tuesdays item) 1 ++ pick (wednesdays item) 2
                 ++ pick (thursdays item) 3 ++ pick (fridays item) 4
                 ++ pick (saturdays item) 5 ++ pick (sundays item) 6)%list).
  { unfold extractDaysFromSchedule, pick.
    destruct (isY (modays item)), (isY (tuesdays item)), (isY (wednesdays item)),
             (isY (thursdays item)), (isY (fridays item)), (isY (saturdays item)),
             (isY (sundays item)); reflexivity. }
  assert (Hpick : forall flag k d, In d (pick flag k) <-> d = k /\ flag = Str "Y").
  { intros flag k d. unfold pick. rewrite <- isY_spec.
    destruct (isY flag); cbn [In]; intuition congruence. }
  split.
  - rewrite E. unfold pick.
    destruct (isY (modays item)), (isY (tuesdays item)), (isY (wednesdays item)),
             (isY (thursdays item)), (isY (fridays item)), (isY (saturdays item)),
             (isY (sundays item)); cbn [app]; repeat constructor.
  - intros d. rewrite E. rewrite !in_app_iff, !Hpick. reflexivity.
Qed.

(** X4.  Every Meeting [processScheduleData] keeps comes from a raw
    meeting of the input; its day-set is what [parseDays] gives, non-empty,
    strictly ascending and within 0 to 6; its times are what [sanitizeTime]
    gives; the result is never longer than the input. *)
Theorem catalog_meetings_are_valid (scheduleData : list RawMeeting) :
  (forall mt, In mt (processScheduleData scheduleData) ->
     exists raw,
       In raw scheduleData
       /\ days mt = parseDays (or (or (rmDays raw) (rmDay raw)) (Str ""))
       /\ days mt <> []
       /\ StronglySorted Z.lt (days mt)
       /\ Forall WeekdayIndex (days mt)
       /\ sanitizeTime (or (rmStartTime raw) (rmStart raw))
          = Some (CourseService.startTime mt)
       /\ sanitizeTime (or (rmEndTime raw) (rmEnd raw))
          = Some (CourseService.endTime mt))
  /\ (List.length (processScheduleData scheduleData) <= List.length scheduleData)%nat.
Proof.
  split.
  - intros mt Hin. unfold processScheduleData in Hin.
    apply in_flat_map in Hin as (raw & Hraw & Hmt).
    destruct (processMeeting raw) as [mt' |] eqn:E; [| contradiction].
    destruct Hmt as [-> | []].
    destruct (processMeeting_Some raw mt E) as (Hd & Hne & Hst & Hen).
    exists raw. split; [assumption |]. split; [assumption |]. split; [assumption |].
    rewrite Hd. destruct (parseDays_ascending (or (or (rmDays raw) (rmDay raw)) (Str "")))
      as [Hs Hf].
    split; [assumption |]. split; [assumption |]. now split.
  - unfold processScheduleData. induction scheduleData as [| raw rest IH]; [apply le_n |].
    cbn [flat_map List.length]. rewrite length_app.
    destruct (processMeeting raw); cbn [List.length]; lia.
Qed.

End DaySetClaims.

(** ** The text sanitizers *)

(** Every white-space character of [s] is a space that follows a character
    that is not white space; [prev] tells that a white-space character
    precedes [s]. *)
Fixpoint tidy (prev : bool) (s : string) : bool :=
  match s with
  | EmptyString => true
  | String c r =>
      if isWhiteSpace c then (c =? " ")%char && negb prev && tidy true r
      else tidy false r
  end.

Section Sanitizers.

Import ScheduleService.

Lemma length_prefix (n : nat) (s : string) : (length (prefix n s) <= n)%nat.
Proof.
  unfold prefix. revert s. induction n as [| n IH]; intros [| c s]; cbn; try lia.
  specialize (IH s). lia.
Qed.

Lemma allChars_prefix (p : ascii -> bool) (n : nat) (s : string) :
  allChars p s = true -> allChars p (prefix n s) = true.
Proof.
  unfold prefix. revert s. induction n as [| n IH]; intros [| c s]; cbn; try reflexivity.
  intros H. apply andb_true_iff in H as [Hc Hs]. rewrite Hc. now apply IH.
Qed.

Lemma prefix_short (n : nat) (s : string) : (length s <= n)%nat -> prefix n s = s.
Proof.
  unfold prefix. revert s. induction n as [| n IH]; intros [| c s]; cbn; intros H;
    try reflexivity; try lia.
  f_equal. apply IH. lia.
Qed.

Lemma allChars_filterChars (p : ascii -> bool) (s : string) :
  allChars p (filterChars p s) = true.
Proof.
  induction s as [| c s IH]; cbn; [reflexivity |].
  destruct (p c) eqn:E; cbn; [now rewrite E | assumption].
Qed.

Lemma filterChars_clean (p : ascii -> bool) (s : string) :
  allChars p s = true -> filterChars p s = s.
Proof.
  induction s as [| c s IH]; cbn; [reflexivity |].
  intros H. apply andb_true_iff in H as [Hc Hs]. rewrite Hc. now rewrite IH.
Qed.

Lemma allChars_at (p : ascii -> bool) (pre suf : string) (c : ascii) :
  allChars p (pre ++ String c suf) = true -> p c = true.
Proof.
  rewrite allChars_append. cbn. intros H.
  apply andb_true_iff in H as [_ H]. now apply andb_true_iff in H as [H _].
Qed.

Lemma tidy_prefix (n : nat) (s : string) :
  forall b, tidy b s = true -> tidy b (prefix n s) = true.
Proof.
  unfold prefix. revert s. induction n as [| n IH]; intros [| c s] b; cbn;
    try reflexivity.
  destruct (isWhiteSpace c).
  - intros H. apply andb_true_iff in H as [H1 H2]. rewrite H1. now apply IH.
  - apply IH.
Qed.

Lemma tidy_collapse (s : string) :
  tidy true (collapseSpaces true s) = true /\ tidy false (collapseSpaces false s) = true.
Proof.
  induction s as [| c s [IH1 IH2]]; cbn [collapseSpaces]; [split; reflexivity |].
  destruct (isWhiteSpace c) eqn:E.
  - split; [assumption |]. cbn [tidy]. now rewrite IH1.
  - cbn [tidy]. rewrite E. now split.
Qed.

Lemma replaceLineBreaks_head (c : ascii) (r : string) :
  isWhiteSpace c = false ->
  replaceLineBreaks (String c r) = String c (replaceLineBreaks r).
Proof.
  intros H. cbn [replaceLineBreaks].
  destruct ((code c =? 13) || (code c =? 10) || (code c =? 9)) eqn:E; [| reflexivity].
  exfalso. unfold isWhiteSpace in H.
  apply orb_true_iff in E as [E | E]; [apply orb_true_iff in E as [E | E] |];
    apply Z.eqb_eq in E; rewrite E in H; discriminate H.
Qed.

(** [trim] leaves nothing, or a text that starts with a character that is
    not white space. *)
Lemma trim_head (s : string) :
  trim s = "" \/ exists c r, trim s = String c r /\ isWhiteSpace c = false.
Proof.
  unfold trim. destruct (trimStart s) as [| c r] eqn:E; [now left |].
  assert (Hc : isWhiteSpace c = false).
  { clear -E. induction s as [| x s IH]; [discriminate E |].
    cbn [trimStart] in E. destruct (isWhiteSpace x) eqn:Ex; [now apply IH |].
    injection E as <- _. assumption. }
  right. cbn [trimEnd]. rewrite Hc.
  destruct (trimEnd r) as [| y r'].
  - now exists c, "".
  - now exists c, (String y r').
Qed.

Lemma tidy_at (pre : string) (c : ascii) (suf : string) :
  forall b,
    tidy b (pre ++ String c suf) = true -> isWhiteSpace c = true ->
    c = " "%char
    /\ ((pre = "" /\ b = false)
        \/ exists pre' p, pre = pre' ++ String p "" /\ isWhiteSpace p = false).
Proof.
  induction pre as [| x pre IH]; intros b H Hc.
  - cbn [append tidy] in H. rewrite Hc in H.
    apply andb_true_iff in H as [H _]. apply andb_true_iff in H as [H1 H2].
    apply Ascii.eqb_eq in H1. apply negb_true_iff in H2. split; [assumption | now left].
  - cbn [append tidy] in H. destruct (isWhiteSpace x) eqn:Ex.
    + apply andb_true_iff in H as [_ H].
      destruct (IH true H Hc) as [Hsp [[_ Hb] | (pre' & p & -> & Hp)]]; [discriminate Hb |].
      split; [assumption |]. right. now exists (String x pre'), p.
    + destruct (IH false H Hc) as [Hsp [[-> _] | (pre' & p & -> & Hp)]].
      * split; [assumption |]. right. now exists "", x.
      * split; [assumption |]. right. now exists (String x pre'), p.
Qed.

Lemma sanitizeCsvField_tidy (text : string) : tidy true (sanitizeCsvField text) = true.
Proof.
  unfold sanitizeCsvField. destruct (text =? "")%string; [reflexivity |].
  apply tidy_prefix.
  destruct (trim_head text) as [-> | (c & r & -> & Hc)]; [reflexivity |].
  rewrite (replaceLineBreaks_head c r Hc). cbn [collapseSpaces tidy]. rewrite Hc.
  cbn [tidy]. rewrite Hc. apply tidy_collapse.
Qed.

End Sanitizers.

Section SanitizerClaims.

Import ScheduleService.

(** X5.  [sanitizeString] returns at most 500 characters, none of them a
    control character; it returns the empty string for a value that is not
    a string; and it returns a string unchanged when the string has no
    control character, no white space at either end and at most 500
    characters. *)
Theorem sanitizeString_is_bounded_and_free_of_controls :
  (forall v, (length (sanitizeString v) <= 500)%nat)
  /\ (forall v pre c suf, sanitizeString v = pre ++ String c suf -> isControl c = false)
  /\ (forall v, (forall s, v <> Str s) -> sanitizeString v = "")
  /\ (forall s,
        allChars (fun c => negb (isControl c)) s = true -> trim s = s ->
        (length s <= 500)%nat ->
        sanitizeString (Str s) = s).
Proof.
  assert (Hclean : forall v, allChars (fun c => negb (isControl c)) (sanitizeString v) = true).
  { intros v. unfold sanitizeString. destruct v as [| | b | n | s]; try reflexivity.
    destruct (s =? "")%string; [reflexivity |].
    apply allChars_prefix, allChars_filterChars. }
  split; [| split; [| split]].
  - intros v. unfold sanitizeString. destruct v as [| | b | n | s]; cbn [length]; try lia.
    destruct (s =? "")%string; [cbn [length]; lia | apply length_prefix].
  - intros v pre c suf E. specialize (Hclean v). rewrite E in Hclean.
    apply allChars_at in Hclean. now apply negb_true_iff in Hclean.
  - intros v Hv. destruct v as [| | b | n | s]; try reflexivity.
    exfalso. now apply (Hv s).
  - intros s Hc Ht Hl. unfold sanitizeString.
    destruct (String.eqb_spec s "") as [-> | _]; [reflexivity |].
    rewrite Ht, (filterChars_clean _ s Hc). now apply prefix_short.
Qed.

(** X6.  [sanitizeCsvField] returns at most 255 characters; every
    white-space character of the result is a space that comes right after a
    character that is not white space, so the result has no line break and
    no tab, does not start with a space and has no two spaces in a row. *)
Theorem sanitizeCsvField_is_one_line_single_spaced (text : string) :
  (length (sanitizeCsvField text) <= 255)%nat
  /\ (forall pre c suf,
        sanitizeCsvField text = pre ++ String c suf -> isWhiteSpace c = true ->
        c = " "%char
        /\ exists pre' p, pre = pre' ++ String p "" /\ isWhiteSpace p = false)
  /\ (forall pre c suf,
        sanitizeCsvField text = pre ++ String c suf ->
        c <> ascii_of_nat 10 /\ c <> ascii_of_nat 13 /\ c <> ascii_of_nat 9).
Proof.
  assert (Hsp : forall pre c suf,
            sanitizeCsvField text = pre ++ String c suf -> isWhiteSpace c = true ->
            c = " "%char
            /\ exists pre' p, pre = pre' ++ String p "" /\ isWhiteSpace p = false).
  { intros pre c suf E Hc. pose proof (sanitizeCsvField_tidy text) as Ht. rewrite E in Ht.
    destruct (tidy_at pre c suf true Ht Hc) as [H1 [[_ H2] | H2]];
      [discriminate H2 | now split]. }
  split; [| split; [exact Hsp |]].
  - unfold sanitizeCsvField. destruct (text =? "")%string; [cbn [length]; lia |].
    apply length_prefix.
  - intros pre c suf E.
    repeat split; intros ->; destruct (Hsp pre _ suf E eq_refl) as [H _]; discriminate H.
Qed.

End SanitizerClaims.

(** ** The schedule feed: which row makes a section, and in which order *)

(** The elements of [l] in the order of their first occurrence. *)
Fixpoint distinct (l : list string) : list string :=
  match l with
  | [] => []
  | x :: r => x :: filter (fun y => negb (y =? x)%string) (distinct r)
  end.

Definition setSchedule (s : Section) (ms : list Meeting) : Section :=
  {| sSection := sSection s; sType := sType s; instructor := instructor s;
     sLocation := sLocation s; schedule := ms;
     capacity := capacity s; enrolled := enrolled s; waitlist := waitlist s |}.

(** The section of key [k]: made from the first row with that key, with
    the Meetings of all rows with that key. *)
Definition sectionOfKey (k : string) (rows : list ScheduleItem) : option Section :=
  match find (fun item => (sectionKey item =? k)%string) rows with
  | Some first => Some (setSchedule (newSection first) (meetingsOfKey k rows))
  | None => None
  end.

Section FeedOrder.

Lemma In_distinct (l : list string) (k : string) : In k (distinct l) <-> In k l.
Proof.
  induction l as [| x l IH]; cbn [distinct In]; [reflexivity |].
  rewrite filter_In, IH. split.
  - intros [H | [H _]]; auto.
  - intros [H | H]; [now left |].
    destruct (String.eqb_spec k x) as [-> | Hne]; [now left |].
    right. split; [assumption | reflexivity].
Qed.

Lemma distinct_snoc (l : list string) (x : string) :
  distinct (l ++ [x])
  = if existsb (String.eqb x) l then distinct l else (distinct l ++ [x])%list.
Proof.
  induction l as [| a l IH]; [reflexivity |].
  cbn [app distinct existsb]. rewrite IH.
  destruct (String.eqb_spec x a) as [-> | Hne]; cbn [orb].
  - destruct (existsb (String.eqb a) l); [reflexivity |].
    rewrite filter_app. cbn [filter]. rewrite String.eqb_refl. cbn [negb].
    now rewrite app_nil_r.
  - destruct (existsb (String.eqb x) l); [reflexivity |].
    rewrite filter_app. cbn [filter].
    destruct (String.eqb_spec x a) as [E | _]; [contradiction | reflexivity].
Qed.

Lemma existsb_eqb_In (x : string) (l : list string) :
  existsb (String.eqb x) l = true <-> In x l.
Proof.
  rewrite existsb_exists. split.
  - intros (y & Hy & E). apply String.eqb_eq in E. now subst.
  - intros H. exists x. split; [assumption | apply String.eqb_refl].
Qed.

(** The keys of [sectionsMap] are the keys of the rows, in the order of
    their first occurrence. *)
Lemma buildSectionsMap_keys (rows : list ScheduleItem) :
  map fst (buildSectionsMap rows) = distinct (map sectionKey rows).
Proof.
  induction rows as [| x rows IH] using rev_ind; [reflexivity |].
  unfold buildSectionsMap. rewrite fold_left_app. cbn [fold_left].
  fold (buildSectionsMap rows). unfold processItem.
  assert (Hk : map fst (if has (sectionKey x) (buildSectionsMap rows)
                        then buildSectionsMap rows
                        else (buildSectionsMap rows ++ [(sectionKey x, newSection x)])%list)
               = distinct (map sectionKey (rows ++ [x]))).
  { rewrite map_app. cbn [map]. rewrite distinct_snoc.
    destruct (has (sectionKey x) (buildSectionsMap rows)) eqn:E.
    - apply has_In in E. rewrite IH in E. apply (proj1 (In_distinct _ _)) in E.
      apply (proj2 (existsb_eqb_In _ _)) in E. now rewrite E.
    - assert (E' : existsb (String.eqb (sectionKey x)) (map sectionKey rows) = false).
      { destruct (existsb _ _) eqn:E2; [| reflexivity].
        apply (proj1 (existsb_eqb_In _ _)) in E2.
        apply (proj2 (In_distinct _ _)) in E2. rewrite <- IH in E2.
        apply (proj2 (has_In _ _)) in E2. congruence. }
      rewrite E', map_app, IH. reflexivity. }
  destruct (meetingOf x); [rewrite pushAt_keys |]; exact Hk.
Qed.

Lemma find_append {A : Type} (f : A -> bool) (l1 l2 : list A) :
  find f (l1 ++ l2) = match find f l1 with
                      | Some x => Some x
                      | None => find f l2
                      end.
Proof.
  induction l1 as [| a l1 IH]; [reflexivity |].
  cbn [app find]. destruct (f a); [reflexivity | exact IH].
Qed.

(** The fields of a section other than its schedule. *)
Definition sameIdentity (s1 s2 : Section) : Prop :=
  setSchedule s1 [] = setSchedule s2 [].

Lemma pushAt_identity (k : string) (mt : Meeting) (m : SectionsMap) (k' : string) (s : Section) :
  In (k', s) (pushAt k mt m) -> exists s0, In (k', s0) m /\ sameIdentity s s0.
Proof.
  induction m as [| [k1 s1] m IH]; cbn [pushAt]; intros Hin; [contradiction |].
  destruct (k1 =? k)%string.
  - destruct Hin as [E | Hin].
    + injection E as <- <-. exists s1. split; [now left | reflexivity].
    + exists s. split; [now right | reflexivity].
  - destruct Hin as [E | Hin].
    + injection E as <- <-. exists s1. split; [now left | reflexivity].
    + destruct (IH Hin) as (s0 & H0 & Hs). exists s0. split; [now right | assumption].
Qed.

(** Every entry of [sectionsMap] was made from the first row with its
    key. *)
Lemma buildSectionsMap_first_row (rows : list ScheduleItem) :
  forall k sec,
    In (k, sec) (buildSectionsMap rows) ->
    exists first,
      find (fun item => (sectionKey item =? k)%string) rows = Some first
      /\ sameIdentity sec (newSection first).
Proof.
  induction rows as [| x rows IH] using rev_ind; [intros k sec [] |].
  intros k sec Hin.
  assert (Hold : forall s0, In (k, s0) (buildSectionsMap rows) ->
            exists first,
              find (fun item => (sectionKey item =? k)%string) (rows ++ [x]) = Some first
              /\ sameIdentity s0 (newSection first)).
  { intros s0 H0. destruct (IH k s0 H0) as (first & Hf & Hs).
    exists first. split; [| assumption]. rewrite find_append, Hf. reflexivity. }
  assert (Hnew : forall s0,
            In (k, s0) (if has (sectionKey x) (buildSectionsMap rows)
                        then buildSectionsMap rows
                        else (buildSectionsMap rows ++ [(sectionKey x, newSection x)])%list) ->
            exists first,
              find (fun item => (sectionKey item =? k)%string) (rows ++ [x]) = Some first
              /\ sameIdentity s0 (newSection first)).
  { intros s0 H0. destruct (has (sectionKey x) (buildSectionsMap rows)) eqn:E;
      [now apply Hold |].
    apply in_app_or in H0 as [H0 | [H0 | []]]; [now apply Hold |].
    injection H0 as <- <-. exists x. split; [| reflexivity].
    rewrite find_append.
    destruct (find (fun item => (sectionKey item =? sectionKey x)%string) rows)
      as [y |] eqn:Ef.
    - exfalso. apply find_some in Ef as [Hy Ey]. apply String.eqb_eq in Ey.
      assert (has (sectionKey x) (buildSectionsMap rows) = true).
      { apply (proj2 (has_In _ _)). rewrite buildSectionsMap_keys.
        apply (proj2 (In_distinct _ _)). rewrite <- Ey. now apply in_map. }
      congruence.
    - cbn [find]. now rewrite String.eqb_refl. }
  unfold buildSectionsMap in Hin. rewrite fold_left_app in Hin. cbn [fold_left] in Hin.
  fold (buildSectionsMap rows) in Hin. unfold processItem in Hin.
  destruct (meetingOf x) as [mt |]; [| now apply Hnew].
  apply pushAt_identity in Hin as (s0 & H0 & Hs).
  destruct (Hnew s0 H0) as (first & Hf & Hs0). exists first. split; [assumption |].
  unfold sameIdentity in *. congruence.
Qed.

Lemma section_from_parts (sec s0 : Section) (ms : list Meeting) :
  sameIdentity sec s0 -> schedule sec = ms -> sec = setSchedule s0 ms.
Proof.
  unfold sameIdentity, setSchedule. destruct sec, s0. cbn.
  intros H <-. injection H as -> -> -> -> -> -> ->. reflexivity.
Qed.

Lemma buildSectionsMap_entries (rows : list ScheduleItem) (k : string) (sec : Section) :
  In (k, sec) (buildSectionsMap rows) -> sectionOfKey k rows = Some sec.
Proof.
  intros Hin. destruct (buildSectionsMap_first_row rows k sec Hin) as (first & Hf & Hs).
  destruct (buildSectionsMap_invariant rows) as (_ & Hsched & _).
  unfold sectionOfKey. rewrite Hf. f_equal. symmetry.
  apply section_from_parts; [assumption | now apply Hsched].
Qed.

Lemma filter_values_by_key (p : Section -> bool) (g : string -> option Section)
    (m : SectionsMap) :
  (forall k sec, In (k, sec) m -> g k = Some sec) ->
  filter p (map snd m)
  = flat_map (fun k => match g k with
                       | Some s => if p s then [s] else []
                       | None => []
                       end) (map fst m).
Proof.
  induction m as [| [k s] m IH]; intros H; [reflexivity |].
  cbn [map filter flat_map fst snd]. rewrite (H k s (or_introl eq_refl)).
  rewrite IH by (intros k' s' Hin; apply H; now right).
  destruct (p s); reflexivity.
Qed.

End FeedOrder.

Section FeedOrderClaims.

(** X7.  [processScheduleResponse] lists the keys of the rows in the
    order of their first occurrence and, for each key that has a Meeting,
    the section made from the first row with that key (its label, type,
    instructor, location and counts) carrying the Meetings of all rows with
    that key; later rows with the same key add Meetings and change nothing
    else. *)
Theorem feed_sections_come_from_first_rows (scheduleData : list ScheduleItem) :
  processScheduleResponse scheduleData
  = flat_map (fun k => match sectionOfKey k scheduleData with
                       | Some s => if (0 <? List.length (schedule s))%nat then [s] else []
                       | None => []
                       end)
             (distinct (map sectionKey scheduleData)).
Proof.
  unfold processScheduleResponse.
  rewrite (filter_values_by_key _ (fun k => sectionOfKey k scheduleData)).
  - now rewrite buildSectionsMap_keys.
  - intros k sec. apply buildSectionsMap_entries.
Qed.

End FeedOrderClaims.

(** ** From sections to events *)

Section Events.

Import ScheduleService.

Lemma orElse_not_empty (a b : string) : b <> "" -> orElse a b <> "".
Proof.
  intros Hb. unfold orElse. destruct (String.eqb_spec a ""); assumption.
Qed.

Lemma extractDays_range (item : ScheduleItem) :
  Forall WeekdayIndex (extractDaysFromSchedule item).
Proof.
  unfold extractDaysFromSchedule, WeekdayIndex.
  destruct (isY (modays item)), (isY (tuesdays item)), (isY (wednesdays item)),
           (isY (thursdays item)), (isY (fridays item)), (isY (saturdays item)),
           (isY (sundays item)); cbn [app]; repeat constructor; discriminate.
Qed.

Lemma In_convertToScheduleEvents (cd : CourseDetails) (sec : CourseService.Section)
    (e : ScheduleEvent) :
  In e (convertToScheduleEvents cd sec) ->
  exists meeting,
    In meeting (schedule sec) /\ In (day e) (days meeting)
    /\ startTime e = CourseService.startTime meeting
    /\ endTime e = CourseService.endTime meeting
    /\ subject e = cCode cd ++ " - " ++ cTitle cd
    /\ location e <> "" /\ instructor e <> "".
Proof.
  unfold convertToScheduleEvents. intros Hin.
  apply in_flat_map in Hin as (meeting & Hm & Hin).
  apply in_map_iff in Hin as (d & <- & Hd).
  exists meeting. cbn. repeat split; try assumption.
  - apply orElse_not_empty, orElse_not_empty. discriminate.
  - apply orElse_not_empty. discriminate.
Qed.

End Events.

Section EventClaims.

Import ScheduleService.

(** X8.  [convertToScheduleEvents] makes one event per Meeting and day of
    its day-set, Meeting by Meeting and day by day in the stored order;
    each event carries the times of its Meeting and the subject
    [code - title], and its location and instructor are never empty ([TBD]
    stands in); a section without Meetings gives no event. *)
Theorem events_follow_the_schedule (cd : CourseDetails) (sec : CourseService.Section) :
  map day (convertToScheduleEvents cd sec) = flat_map days (schedule sec)
  /\ (forall e, In e (convertToScheduleEvents cd sec) ->
        exists meeting,
          In meeting (schedule sec) /\ In (day e) (days meeting)
          /\ startTime e = CourseService.startTime meeting
          /\ endTime e = CourseService.endTime meeting
          /\ subject e = cCode cd ++ " - " ++ cTitle cd
          /\ location e <> "" /\ instructor e <> "")
  /\ (schedule sec = [] -> convertToScheduleEvents cd sec = []).
Proof.
  split; [| split].
  - unfold convertToScheduleEvents.
    induction (schedule sec) as [| m ms IH]; [reflexivity |].
    cbn [flat_map]. rewrite map_app, IH, map_map. cbn [day]. now rewrite map_id.
  - apply In_convertToScheduleEvents.
  - intros E. unfold convertToScheduleEvents. now rewrite E.
Qed.

(** X9.  Every section [processScheduleResponse] returns gives at least
    one event, and the weekday index of each of its events is from 0 to
    6. *)
Theorem feed_sections_give_events_with_weekday_indices
    (scheduleData : list ScheduleItem) (cd : CourseDetails) (sec : CourseService.Section) :
  In sec (processScheduleResponse scheduleData) ->
  convertToScheduleEvents cd sec <> []
  /\ Forall (fun e => WeekdayIndex (day e)) (convertToScheduleEvents cd sec).
Proof.
  intros Hin. unfold processScheduleResponse in Hin.
  apply filter_In in Hin as [Hin Hne]. apply in_map_iff in Hin as ([k s] & E & Hin).
  cbn [snd] in E. subst s.
  destruct (buildSectionsMap_invariant scheduleData) as (_ & Hs & _).
  pose proof (Hs k sec Hin) as Hsched.
  assert (Hmeet : forall mt, In mt (schedule sec) ->
            days mt <> [] /\ Forall WeekdayIndex (days mt)).
  { intros mt Hmt. rewrite Hsched in Hmt.
    apply In_meetingsOfKey in Hmt as (item & _ & _ & Hm).
    destruct (meetingOf_Some item mt Hm) as (Hd & Hn & _).
    split; [assumption |]. rewrite Hd. apply extractDays_range. }
  split.
  - destruct (schedule sec) as [| mt ms] eqn:Es; [discriminate Hne |].
    destruct (Hmeet mt (or_introl eq_refl)) as [Hd _].
    unfold convertToScheduleEvents. rewrite Es. cbn [flat_map].
    destruct (days mt) as [| d ds]; [contradiction | discriminate].
  - apply Forall_forall. intros e He.
    destruct (In_convertToScheduleEvents cd sec e He) as (mt & Hmt & Hd & _).
    destruct (Hmeet mt Hmt) as [_ Hf]. rewrite Forall_forall in Hf. now apply Hf.
Qed.

Lemma feed_sections_give_events_with_weekday_indices_witness :
  let sec := hd (newSection lectureRow) (processScheduleResponse [lectureRow]) in
  In sec (processScheduleResponse [lectureRow])
  /\ convertToScheduleEvents sampleDetails sec <> []
  /\ Forall (fun e => WeekdayIndex (day e)) (convertToScheduleEvents sampleDetails sec).
Proof.
  intros sec.
  assert (H : In sec (processScheduleResponse [lectureRow])) by (left; reflexivity).
  split; [exact H |].
  exact (feed_sections_give_events_with_weekday_indices [lectureRow] sampleDetails sec H).
Defined.

End EventClaims.

(** ** Batches: order and failures *)

Section BatchOrder.

Import ScheduleService.

Variable World : Type.
Variable getCourseDetails :
  string -> string -> World -> World * result (option CourseDetails).
Variable clock : World -> Z.

(** X10.  [getCourseScheduleData] never throws: whatever the catalog
    client does, it returns a list of events.  [generateSchedule] returns
    the events of the courses in the order of the batch: the events of a
    batch made of two parts are those of the first part followed by those
    of the second, run in the state the first part leaves. *)
Theorem batch_events_keep_batch_order :
  (forall c w, exists events,
     snd (getCourseScheduleData World getCourseDetails clock c w) = Ok events)
  /\ (forall w, generateSchedule World getCourseDetails clock [] w = (w, []))
  /\ (forall c w,
        generateSchedule World getCourseDetails clock [c] w
        = (fst (getCourseScheduleData World getCourseDetails clock c w),
           match snd (getCourseScheduleData World getCourseDetails clock c w) with
           | Ok events => events
           | Throw _ => []
           end))
  /\ (forall l1 l2 w,
        let w1 := fst (generateSchedule World getCourseDetails clock l1 w) in
        generateSchedule World getCourseDetails clock (l1 ++ l2) w
        = (fst (generateSchedule World getCourseDetails clock l2 w1),
           (snd (generateSchedule World getCourseDetails clock l1 w)
            ++ snd (generateSchedule World getCourseDetails clock l2 w1))%list)).
Proof.
  split; [exact (getCourseScheduleData_returns World getCourseDetails clock) |].
  split; [reflexivity |]. split.
  - intros c w.
    pose proof (generateSchedule_cons World getCourseDetails clock c [] w) as H.
    cbv zeta in H. rewrite H. cbn [generateSchedule fold_left fst snd].
    now rewrite app_nil_r.
  - intros l1 l2 w w1. exact (generateSchedule_app World getCourseDetails clock l1 l2 w).
Qed.

End BatchOrder.

(** ** Occurrence dates *)

Section OccurrenceDates.

Import ScheduleService.

Lemma filter_ascending (keep : Z -> bool) (l : list Z) :
  StronglySorted Z.lt l -> StronglySorted Z.lt (filter keep l).
Proof.
  induction 1 as [| a l Hs IH Hall]; cbn [filter]; [constructor |].
  destruct (keep a); [| assumption].
  constructor; [assumption |].
  apply Forall_forall. intros x Hx. apply filter_In in Hx as [Hx _].
  rewrite Forall_forall in Hall. now apply Hall.
Qed.

Lemma weeklyDates_ascending (n : nat) : forall cur, StronglySorted Z.lt (weeklyDates n cur).
Proof.
  induction n as [| n IH]; intros cur; cbn [weeklyDates]; constructor; [apply IH |].
  apply Forall_forall. intros d Hd.
  destruct (proj1 (In_weeklyDates n (cur + msPerWeek) d) Hd) as (k & Hk & ->).
  unfold msPerWeek, msPerDay. lia.
Qed.

Lemma occurrences_ascending (startDate endDate : Z) (breaks : option (list BreakPeriod))
    (course : ScheduleEvent) :
  StronglySorted Z.lt (occurrences startDate endDate breaks course).
Proof. unfold occurrences. apply filter_ascending, weeklyDates_ascending. Qed.

Lemma occurrence_weekday (startDate endDate : Z) (breaks : option (list BreakPeriod))
    (course : ScheduleEvent) (date : Z) :
  0 <= day course <= 6 ->
  In date (occurrences startDate endDate breaks course) ->
  getDay date = day course /\ startDate <= date <= endDate.
Proof.
  intros Hd Hin.
  destruct (proj1 (In_occurrences startDate endDate breaks course date) Hin)
    as (k & Hk & -> & Hle & _).
  destruct (getFirstWeekdayOccurrence_getDay startDate (day course) Hd)
    as (a & Ha & E & Hg & _).
  rewrite E in Hle |- *. clear Hin E.
  split; [| split; [| exact Hle]].
  - replace (startDate + a * msPerDay + k * msPerWeek)
      with (startDate + a * msPerDay + (7 * k) * msPerDay)
      by (unfold msPerWeek; ring).
    rewrite getDay_add, Hg.
    replace (day course + 7 * k) with (day course + k * 7) by ring.
    rewrite Z.mod_add by lia. apply Z.mod_small. lia.
  - unfold msPerWeek, msPerDay. lia.
Qed.

Lemma occurrences_empty_window (startDate endDate : Z) (breaks : option (list BreakPeriod))
    (course : ScheduleEvent) :
  0 <= day course <= 6 -> endDate < startDate ->
  occurrences startDate endDate breaks course = [].
Proof.
  intros Hd Hlt. unfold occurrences.
  destruct (getFirstWeekdayOccurrence_getDay startDate (day course) Hd)
    as (a & Ha & E & _).
  rewrite E. rewrite weekCount_after; [reflexivity |].
  unfold msPerDay. lia.
Qed.

Lemma flat_map_all_nil {A B : Type} (f : A -> list B) (l : list A) :
  (forall x, In x l -> f x = []) -> flat_map f l = [].
Proof.
  induction l as [| x l IH]; intros H; [reflexivity |].
  cbn [flat_map]. rewrite (H x (or_introl eq_refl)). cbn [app].
  apply IH. intros y Hy. apply H. now right.
Qed.

End OccurrenceDates.

Section OccurrenceClaims.

Import ScheduleService.

(** X11.  For a target from 0 to 6, [getFirstWeekdayOccurrence] returns
    the start date moved forward by zero to six whole days: the first date
    from the start date on whose [getDay] (0 is Sunday) is the target. *)
Theorem first_occurrence_is_next_date_with_that_getDay (startDate targetDay : Z) :
  0 <= targetDay <= 6 ->
  exists daysAhead,
    0 <= daysAhead <= 6
    /\ getFirstWeekdayOccurrence startDate targetDay = startDate + daysAhead * msPerDay
    /\ getDay (getFirstWeekdayOccurrence startDate targetDay) = targetDay
    /\ forall k, 0 <= k < daysAhead -> getDay (startDate + k * msPerDay) <> targetDay.
Proof.
  intros Ht.
  destruct (getFirstWeekdayOccurrence_getDay startDate targetDay Ht)
    as (a & Ha & E & Hg & Hmin).
  exists a. rewrite E. repeat split; try assumption; lia.
Qed.

Lemma first_occurrence_is_next_date_with_that_getDay_witness :
  0 <= 3 <= 6
  /\ exists daysAhead,
       0 <= daysAhead <= 6
       /\ getFirstWeekdayOccurrence (fromComponents 2024 8 2) 3
          = fromComponents 2024 8 2 + daysAhead * msPerDay
       /\ getDay (getFirstWeekdayOccurrence (fromComponents 2024 8 2) 3) = 3
       /\ forall k, 0 <= k < daysAhead ->
            getDay (fromComponents 2024 8 2 + k * msPerDay) <> 3.
Proof.
  assert (H : 0 <= 3 <= 6) by lia.
  split; [exact H |].
  exact (first_occurrence_is_next_date_with_that_getDay (fromComponents 2024 8 2) 3 H).
Defined.

(** X12.  The rows of a course whose weekday index is from 0 to 6 are
    dated, in strictly ascending order, on dates whose [getDay] is that
    index and that lie from the semester's start date to its end date. *)
Theorem rows_are_dated_within_the_window_in_order
    (scheduleData : list ScheduleEvent) (semesterInfo : SemesterInfo) (now : Z) :
  let startDate := fst (getSemesterDates semesterInfo now) in
  let endDate := snd (getSemesterDates semesterInfo now) in
  exists occurrence : ScheduleEvent -> list Z,
    materialize scheduleData semesterInfo now
    = Some (flat_map (fun course => map (makeRow course) (occurrence course)) scheduleData)
    /\ (forall course, StronglySorted Z.lt (occurrence course))
    /\ (forall course date,
          0 <= day course <= 6 -> In date (occurrence course) ->
          getDay date = day course /\ startDate <= date <= endDate).
Proof.
  intros startDate endDate.
  exists (occurrences startDate endDate (siBreaks semesterInfo)).
  split; [apply materialize_rows |]. split.
  - intros course. apply occurrences_ascending.
  - intros course date. apply occurrence_weekday.
Qed.

(** X13.  [generateCSV] returns the header line alone for an empty list of
    events, and also when the semester's end date is before its start date
    (for events whose weekday index is from 0 to 6). *)
Theorem csv_is_header_alone_without_occurrences
    (scheduleData : list ScheduleEvent) (semesterInfo : SemesterInfo) (now : Z) :
  generateCSV [] semesterInfo now = Some headerLine
  /\ (snd (getSemesterDates semesterInfo now) < fst (getSemesterDates semesterInfo now) ->
      Forall (fun course => 0 <= day course <= 6) scheduleData ->
      generateCSV scheduleData semesterInfo now = Some headerLine).
Proof.
  split.
  - unfold generateCSV. rewrite materialize_rows. reflexivity.
  - intros Hlt Hd. unfold generateCSV. rewrite materialize_rows.
    rewrite flat_map_all_nil; [reflexivity |].
    intros course Hin. rewrite Forall_forall in Hd.
    rewrite occurrences_empty_window; [reflexivity | now apply Hd | exact Hlt].
Qed.

End OccurrenceClaims.

(** ** Reading a CSV line back *)

(** Where a reader of quoted, comma-separated fields stands: before a
    field, inside the quotes of a field, or just after a quote met inside a
    field (the closing quote, or the first of a doubled pair). *)
Inductive ReaderState := BeforeField | InsideField | AfterQuote.

(** A reader of one CSV line of quoted fields: [cur] is the text of the
    current field so far, [done] the fields already read. *)
Fixpoint readFields (s : string) (st : ReaderState) (cur : string) (done : list string)
    : option (list string) :=
  match s with
  | EmptyString =>
      match st with
      | AfterQuote => Some (done ++ [cur])%list
      | _ => None
      end
  | String c r =>
      match st with
      | BeforeField =>
          if (c =? ScheduleService.dquote)%char then readFields r InsideField "" done
          else None
      | InsideField =>
          if (c =? ScheduleService.dquote)%char then readFields r AfterQuote cur done
          else readFields r InsideField (cur ++ String c "") done
      | AfterQuote =>
          if (c =? ScheduleService.dquote)%char
          then readFields r InsideField (cur ++ String ScheduleService.dquote "") done
          else if (c =? ",")%char then readFields r BeforeField "" (done ++ [cur])%list
          else None
      end
  end.

Definition readLine (s : string) : option (list string) := readFields s BeforeField "" [].

Section CsvReader.

Import ScheduleService.

(** Reading the doubled text of [v] and its closing quote appends [v] to
    the current field. *)
Lemma readFields_value (v rest cur : string) (done : list string) :
  readFields (doubleQuotes v ++ String dquote rest) InsideField cur done
  = readFields rest AfterQuote (cur ++ v) done.
Proof.
  revert cur. induction v as [| c v IH]; intros cur.
  - cbn [doubleQuotes append readFields]. rewrite Ascii.eqb_refl.
    now rewrite append_empty_r.
  - cbn [doubleQuotes]. destruct (Ascii.eqb_spec c dquote) as [-> | Hne].
    + cbn [append readFields]. rewrite !Ascii.eqb_refl. rewrite IH.
      now rewrite append_assoc3.
    + cbn [append readFields].
      destruct (Ascii.eqb_spec c dquote) as [E | _]; [contradiction |].
      rewrite IH. now rewrite append_assoc3.
Qed.

Lemma readFields_field (v rest : string) (done : list string) :
  readFields (quoteField v ++ rest) BeforeField "" done
  = readFields rest AfterQuote v done.
Proof.
  unfold quoteField. cbn [append readFields]. rewrite Ascii.eqb_refl.
  rewrite append_assoc3. cbn [append]. now rewrite readFields_value.
Qed.

Lemma readFields_line (fs : list string) :
  forall f done,
    readFields (join "," (map quoteField (f :: fs))) BeforeField "" done
    = Some (done ++ f :: fs)%list.
Proof.
  induction fs as [| g fs IH]; intros f done.
  - cbn [map join]. rewrite <- (append_empty_r (quoteField f)).
    rewrite readFields_field. reflexivity.
  - change (join "," (map quoteField (f :: g :: fs)))
      with (quoteField f ++ "," ++ join "," (map quoteField (g :: fs))).
    rewrite readFields_field. cbn [append readFields].
    destruct (Ascii.eqb_spec "," dquote) as [E | _]; [discriminate E |].
    cbn [Ascii.eqb Bool.eqb]. rewrite IH. now rewrite <- app_assoc.
Qed.

End CsvReader.

Section CsvReaderClaims.

Import ScheduleService.

(** X14.  A line of [generateCSV] can be read back: a reader that splits
    at the commas outside quotes and undoes the doubling of quotes gets,
    from the line of any non-empty list of values, exactly those values,
    whatever commas and double quotes they contain; from a row line it gets
    the nine values of the row. *)
Theorem csv_line_reads_back_to_its_values :
  (forall f fs, readLine (join "," (map quoteField (f :: fs))) = Some (f :: fs))
  /\ (forall course date, readLine (rowLine course date) = Some (rowFields course date))
  /\ (forall course date, List.length (rowFields course date) = List.length headers).
Proof.
  split; [| split].
  - intros f fs. unfold readLine. now rewrite readFields_line.
  - intros course date. unfold readLine, rowLine, rowFields. now rewrite readFields_line.
  - reflexivity.
Qed.

End CsvReaderClaims.

(** ** The semester window of a term code *)

(** Days of a month in a common year. *)
Definition monthLength (m : Z) : Z :=
  if m =? 2 then 28
  else if (m =? 4) || (m =? 6) || (m =? 9) || (m =? 11) then 30
  else 31.

(** Year, month (from 1) and day of month of a time value. *)
Definition civilDate (t : Z) : Z * Z * Z := (getFullYear t, getMonth t + 1, getDate t).

Section TermWindow.

Import ScheduleService.

Lemma civil_inverse_fields (yoe doy : Z) :
  0 <= yoe <= 399 -> 0 <= doy <= 364 ->
  let doe := yoe * 365 + yoe / 4 - yoe / 100 + doy in
  0 <= doe <= 146096
  /\ (doe - doe / 1460 + doe / 36524 - doe / 146096) / 365 = yoe.
Proof.
  intros H1 H2 doe. subst doe. Z.div_mod_to_equations; lia.
Qed.

(** The civil date of the day number of [y]-[mp]-[d], with [mp] the month
    counted from March. *)
Lemma civil_of_march_based (y' mp d : Z) :
  0 <= mp <= 11 -> 1 <= d ->
  (153 * mp + 2) / 5 + d - 1 <= 364 ->
  (5 * ((153 * mp + 2) / 5 + d - 1) + 2) / 153 = mp ->
  let yoe := y' - y' / 400 * 400 in
  let doe := yoe * 365 + yoe / 4 - yoe / 100 + ((153 * mp + 2) / 5 + d - 1) in
  civilFromDays (y' / 400 * 146097 + doe - 719468)
  = (yoe + y' / 400 * 400 + (if (if mp <? 10 then mp + 3 else mp - 9) <=? 2 then 1 else 0),
     if mp <? 10 then mp + 3 else mp - 9, d).
Proof.
  intros Hmp Hd Hdoy Hback yoe doe.
  assert (Hyoe : 0 <= yoe <= 399).
  { subst yoe. pose proof (Z.mod_pos_bound y' 400 ltac:(lia)) as Hm.
    rewrite Z.mod_eq in Hm by lia. lia. }
  assert (Hdoy0 : 0 <= (153 * mp + 2) / 5 + d - 1).
  { assert (0 <= (153 * mp + 2) / 5) by (apply Z.div_pos; lia). lia. }
  destruct (civil_inverse_fields yoe _ Hyoe (conj Hdoy0 Hdoy)) as [Hdoe Hy].
  fold doe in Hdoe, Hy.
  unfold civilFromDays.
  replace (y' / 400 * 146097 + doe - 719468 + 719468) with (doe + y' / 400 * 146097) by lia.
  rewrite Z.div_add, (Z.div_small doe) by lia. cbn [Z.add].
  replace (doe + y' / 400 * 146097 - y' / 400 * 146097) with doe by lia.
  rewrite Hy.
  replace (doe - (365 * yoe + yoe / 4 - yoe / 100)) with ((153 * mp + 2) / 5 + d - 1)
    by (subst doe; lia).
  rewrite Hback.
  replace ((153 * mp + 2) / 5 + d - 1 - (153 * mp + 2) / 5 + 1) with d by lia.
  reflexivity.
Qed.

Lemma civilFromDays_daysFromCivil (y m d : Z) :
  1 <= m <= 12 -> 1 <= d <= monthLength m ->
  civilFromDays (daysFromCivil y m d) = (y, m, d).
Proof.
  intros Hm Hd.
  assert (Cases : m = 1 \/ m = 2 \/ m = 3 \/ m = 4 \/ m = 5 \/ m = 6 \/ m = 7 \/ m = 8
                  \/ m = 9 \/ m = 10 \/ m = 11 \/ m = 12) by lia.
  unfold daysFromCivil.
  repeat (destruct Cases as [Cases | Cases]); subst m; cbn in Hd;
    cbn [Z.leb Z.ltb Z.compare Pos.compare Pos.compare_cont Z.sub Z.add Z.opp Z.pos_sub
         Pos.add Pos.succ Pos.pred_double Z.succ_double Z.pred_double Z.double];
    match goal with
    | |- civilFromDays (?y' / 400 * 146097
                        + ((?y' - ?y' / 400 * 400) * 365 + _ - _ + ((153 * ?mp + 2) / 5 + d - 1))
                        - 719468) = _ =>
        rewrite (civil_of_march_based y' mp d);
          [ cbn -[Z.div Z.mul]; f_equal; f_equal; lia
          | lia | lia
          | change ((153 * mp + 2) / 5) with (Z.div (153 * mp + 2) 5);
            Z.div_mod_to_equations; lia
          | Z.div_mod_to_equations; lia ]
    end.
Qed.

End TermWindow.

Section TermCodes.

Import ScheduleService.

Lemma digitValue_digit (c : ascii) : isDigit c = true -> digitValue 10 c = Some (code c - 48).
Proof. intros H. each_digit H; reflexivity. Qed.

Lemma readDigits_digits (s : string) :
  forall a, Digits s -> readDigits 10 s (Some a) = Some (decimalValueFrom a s).
Proof.
  unfold Digits. induction s as [| c s IH]; intros a H; [reflexivity |].
  cbn [allChars] in H. apply andb_true_iff in H as [Hc Hs].
  cbn [readDigits decimalValueFrom]. rewrite (digitValue_digit c Hc). now apply IH.
Qed.

(** [parseInt] of at least two decimal digits, with no radix given. *)
Lemma parseInt_decimal (s : string) :
  Digits s -> (2 <= length s)%nat -> parseInt s None = Some (decimalValue s).
Proof.
  intros Hd Hlen. destruct s as [| a [| b r]]; cbn [length] in Hlen; try lia.
  unfold Digits in Hd. cbn [allChars] in Hd.
  apply andb_true_iff in Hd as [Ha Hd]. apply andb_true_iff in Hd as [Hb Hr].
  assert (E : parseInt (String a (String b r)) None
              = option_map (Z.mul 1) (readDigits 10 r
                  (Some ((code a - 48) * 10 + (code b - 48))))).
  { each_digit Ha; each_digit Hb; reflexivity. }
  rewrite E, (readDigits_digits r _ Hr). cbn [option_map].
  unfold decimalValue. cbn [decimalValueFrom]. f_equal.
  rewrite Z.mul_1_l. f_equal; lia.
Qed.

Lemma prefix_append (a b : string) : prefix (length a) (a ++ b) = a.
Proof.
  unfold prefix. induction a as [| c a IH]; cbn.
  - destruct b; reflexivity.
  - now rewrite IH.
Qed.

Lemma substring_all (s : string) : substring 0 (length s) s = s.
Proof. induction s as [| c s IH]; cbn; [reflexivity | now rewrite IH]. Qed.

Lemma dropChars_append (a b : string) : dropChars (length a) (a ++ b) = b.
Proof.
  unfold dropChars. rewrite length_append2.
  replace (length a + length b - length a)%nat with (length b) by lia.
  induction a as [| c a IH]; cbn [append length substring]; [apply substring_all | exact IH].
Qed.

Lemma Day_of_midnight (n : Z) : Day (n * msPerDay) = n /\ TimeWithinDay (n * msPerDay) = 0.
Proof.
  unfold Day, TimeWithinDay, msPerDay. split.
  - apply Z.div_mul. lia.
  - apply Z.mod_mul. lia.
Qed.

(** [new Date(year, monthIndex, day)] is midnight of that civil date, for a
    year outside 0 to 99 and a day the month has in a common year. *)
Lemma fromComponents_civil (y mo d : Z) :
  ~ 0 <= y <= 99 -> 0 <= mo <= 11 -> 1 <= d <= monthLength (mo + 1) ->
  civilDate (fromComponents y mo d) = (y, mo + 1, d)
  /\ TimeWithinDay (fromComponents y mo d) = 0
  /\ Day (fromComponents y mo d) = daysFromCivil y (mo + 1) d.
Proof.
  intros Hy Hmo Hd. unfold fromComponents.
  assert (E : (0 <=? y) && (y <=? 99) = false).
  { destruct (Z.leb_spec 0 y), (Z.leb_spec y 99); cbn; try reflexivity. lia. }
  rewrite E. unfold MakeDate, MakeDay.
  rewrite Z.div_small, Z.mod_small by lia. rewrite !Z.add_0_r.
  rewrite <- daysFromCivil_day.
  destruct (Day_of_midnight (daysFromCivil y (mo + 1) d)) as [HD HT].
  split; [| split; assumption].
  unfold civilDate, getFullYear, getMonth, getDate. rewrite HD.
  rewrite civilFromDays_daysFromCivil by lia. cbn [fst snd]. f_equal. f_equal. lia.
Qed.

(** The year and the semester digit [getSemesterDates] reads off a term
    code that starts with four digits. *)
Lemma getSemesterDates_of_term (semesterInfo : SemesterInfo) (now : Z) (yyyy sem : string) :
  siStartDate semesterInfo = None \/ siEndDate semesterInfo = None ->
  termOf semesterInfo now = yyyy ++ sem ->
  Digits yyyy -> length yyyy = 4%nat -> decimalValue yyyy <> 0 ->
  let y := decimalValue yyyy in
  getSemesterDates semesterInfo now
  = if (orElse sem "2" =? "1")%string then (fromComponents y 8 1, fromComponents y 11 31)
    else if (orElse sem "2" =? "2")%string then (fromComponents y 0 1, fromComponents y 3 30)
    else if (orElse sem "2" =? "4")%string then (fromComponents y 4 1, fromComponents y 7 31)
    else (fromComponents y 0 1, fromComponents y 11 31).
Proof.
  intros Hnone Hterm Hd Hlen Hy y. unfold getSemesterDates. rewrite Hterm.
  replace 4%nat with (length yyyy) by assumption.
  rewrite prefix_append, dropChars_append.
  rewrite (parseInt_decimal yyyy Hd) by lia. fold y.
  destruct (Z.eqb_spec y 0) as [E | _]; [contradiction |].
  destruct Hnone as [-> | Hn]; [reflexivity |].
  rewrite Hn. destruct (siStartDate semesterInfo); reflexivity.
Qed.

End TermCodes.

Section TermOrder.

Import ScheduleService.

Ltac reduce_tests := cbn [Z.leb Z.ltb Z.compare Pos.compare Pos.compare_cont].

Lemma days_after_april (y m d : Z) :
  9 <= m <= 12 -> 1 <= d -> daysFromCivil y 4 30 < daysFromCivil y m d.
Proof.
  intros Hm Hd. unfold daysFromCivil.
  destruct (Z.leb_spec m 2); [lia |]. destruct (Z.ltb_spec 2 m); [| lia].
  reduce_tests. Z.div_mod_to_equations; lia.
Qed.

Lemma days_in_summer (y m d : Z) :
  5 <= m <= 8 -> 1 <= d <= 31 ->
  daysFromCivil y 5 1 <= daysFromCivil y m d <= daysFromCivil y 8 31.
Proof.
  intros Hm Hd. unfold daysFromCivil.
  destruct (Z.leb_spec m 2); [lia |]. destruct (Z.ltb_spec 2 m); [| lia].
  reduce_tests. Z.div_mod_to_equations; lia.
Qed.

Lemma days_before_september (y m d : Z) :
  1 <= m <= 4 -> 1 <= d <= 31 -> daysFromCivil y m d < daysFromCivil y 9 1.
Proof.
  intros Hm Hd. unfold daysFromCivil.
  destruct (Z.leb_spec m 2); destruct (Z.ltb_spec 2 m); try lia;
    reduce_tests; Z.div_mod_to_equations; lia.
Qed.

Definition yearTextCheck (y : Z) : bool :=
  let s := numberToString y in
  allChars isDigit s && (length s =? 4)%nat && (decimalValue s =? y).

Lemma year_text (y : Z) :
  1000 <= y <= 9999 ->
  Digits (numberToString y) /\ length (numberToString y) = 4%nat
  /\ decimalValue (numberToString y) = y.
Proof.
  intros Hy.
  assert (H : yearTextCheck y = true).
  { apply (forallb_range yearTextCheck 1000 9000); [vm_compute; reflexivity | lia]. }
  unfold yearTextCheck in H.
  apply andb_true_iff in H as [H H3]. apply andb_true_iff in H as [H1 H2].
  apply Nat.eqb_eq in H2. apply Z.eqb_eq in H3. repeat split; assumption.
Qed.

Lemma midnight_value (t : Z) : TimeWithinDay t = 0 -> t = Day t * msPerDay.
Proof. intros H. pose proof (time_split t) as E. lia. Qed.

Lemma time_within_day (t : Z) : Day t * msPerDay <= t < Day t * msPerDay + msPerDay.
Proof.
  pose proof (time_split t) as E. unfold TimeWithinDay, msPerDay in *.
  pose proof (Z.mod_pos_bound t 86400000 ltac:(lia)). lia.
Qed.

End TermOrder.

Section TermClaims.

Import ScheduleService.

Ltac settle_window :=
  repeat match goal with
         | |- _ /\ _ => split
         | |- _ -> _ => intro
         | H : _ \/ _ |- _ => destruct H
         end;
  try assumption; try congruence.

(** X15.  When the start and end dates are not both given and the term
    starts with four digits that spell a year from 100 on, the semester
    window is read off the rest of the term: [1] gives 1 September to 31
    December of that year, [2] or nothing gives 1 January to 30 April, [4]
    gives 1 May to 31 August, anything else the whole year; both ends are
    at midnight. *)
Theorem term_code_gives_its_window
    (semesterInfo : SemesterInfo) (now : Z) (yyyy sem : string) :
  siStartDate semesterInfo = None \/ siEndDate semesterInfo = None ->
  siTerm semesterInfo = Some (yyyy ++ sem) ->
  Digits yyyy -> length yyyy = 4%nat -> 100 <= decimalValue yyyy ->
  let y := decimalValue yyyy in
  let startDate := fst (getSemesterDates semesterInfo now) in
  let endDate := snd (getSemesterDates semesterInfo now) in
  TimeWithinDay startDate = 0 /\ TimeWithinDay endDate = 0
  /\ (sem = "1" -> civilDate startDate = (y, 9, 1) /\ civilDate endDate = (y, 12, 31))
  /\ (sem = "2" \/ sem = "" ->
      civilDate startDate = (y, 1, 1) /\ civilDate endDate = (y, 4, 30))
  /\ (sem = "4" -> civilDate startDate = (y, 5, 1) /\ civilDate endDate = (y, 8, 31))
  /\ (sem <> "1" -> sem <> "2" -> sem <> "" -> sem <> "4" ->
      civilDate startDate = (y, 1, 1) /\ civilDate endDate = (y, 12, 31)).
Proof.
  intros Hnone Hterm Hd Hlen Hy y startDate endDate.
  assert (Ht : termOf semesterInfo now = yyyy ++ sem).
  { unfold termOf. rewrite Hterm. unfold orElse.
    destruct (String.eqb_spec (yyyy ++ sem) "") as [E | _]; [| reflexivity].
    apply (f_equal length) in E. rewrite length_append2, Hlen in E. discriminate E. }
  pose proof (getSemesterDates_of_term semesterInfo now yyyy sem Hnone Ht Hd Hlen
                ltac:(lia)) as E.
  cbv zeta in E. fold y in E.
  assert (Hout : ~ 0 <= y <= 99) by (subst y; lia).
  destruct (fromComponents_civil y 8 1 Hout ltac:(lia) ltac:(cbn; lia)) as (S1 & S1t & _).
  destruct (fromComponents_civil y 11 31 Hout ltac:(lia) ltac:(cbn; lia)) as (E1 & E1t & _).
  destruct (fromComponents_civil y 0 1 Hout ltac:(lia) ltac:(cbn; lia)) as (S2 & S2t & _).
  destruct (fromComponents_civil y 3 30 Hout ltac:(lia) ltac:(cbn; lia)) as (E2 & E2t & _).
  destruct (fromComponents_civil y 4 1 Hout ltac:(lia) ltac:(cbn; lia)) as (S4 & S4t & _).
  destruct (fromComponents_civil y 7 31 Hout ltac:(lia) ltac:(cbn; lia)) as (E4 & E4t & _).
  cbn [Z.add Pos.add Pos.succ] in S1, E1, S2, E2, S4, E4.
  subst startDate endDate. rewrite E. clear E. unfold orElse.
  destruct (String.eqb_spec sem "") as [-> | Hne0].
  - cbn [String.eqb Ascii.eqb Bool.eqb fst snd andb]. settle_window.
  - destruct (String.eqb_spec sem "1") as [-> | Hne1]; cbn [fst snd];
      [settle_window |].
    destruct (String.eqb_spec sem "2") as [-> | Hne2]; cbn [fst snd];
      [settle_window |].
    destruct (String.eqb_spec sem "4") as [-> | Hne4]; cbn [fst snd];
      settle_window.
Qed.

Lemma term_code_gives_its_window_witness :
  let semesterInfo := {| siStartDate := None; siEndDate := None;
                         siTerm := Some ("2024" ++ "1"); siBreaks := None |} in
  civilDate (fst (getSemesterDates semesterInfo 0)) = (2024, 9, 1)
  /\ civilDate (snd (getSemesterDates semesterInfo 0)) = (2024, 12, 31).
Proof.
  cbv zeta.
  pose proof (term_code_gives_its_window
                {| siStartDate := None; siEndDate := None;
                   siTerm := Some ("2024" ++ "1"); siBreaks := None |}
                0 "2024" "1" (or_introl eq_refl) eq_refl eq_refl eq_refl
                ltac:(vm_compute; discriminate)) as H.
  cbv zeta in H. destruct H as (_ & _ & H & _). exact (H eq_refl).
Defined.

(** X16.  When neither dates nor a term are given, the window follows
    [getCurrentTerm]: from September to December it is 1 January to 30
    April of the current year, which is already over; from May to August it
    is 1 May to 31 August of the current year, which holds the current
    date; from January to April it is 1 September to 31 December of the
    current year, which has not begun. *)
Theorem default_window_by_current_month (semesterInfo : SemesterInfo) (now : Z) :
  siStartDate semesterInfo = None \/ siEndDate semesterInfo = None ->
  siTerm semesterInfo = None \/ siTerm semesterInfo = Some "" ->
  1000 <= getFullYear now <= 9999 ->
  let y := getFullYear now in
  let startDate := fst (getSemesterDates semesterInfo now) in
  let endDate := snd (getSemesterDates semesterInfo now) in
  (8 <= getMonth now ->
   civilDate startDate = (y, 1, 1) /\ civilDate endDate = (y, 4, 30) /\ endDate < now)
  /\ (4 <= getMonth now < 8 ->
      civilDate startDate = (y, 5, 1) /\ civilDate endDate = (y, 8, 31)
      /\ startDate <= now < endDate + msPerDay)
  /\ (getMonth now < 4 ->
      civilDate startDate = (y, 9, 1) /\ civilDate endDate = (y, 12, 31) /\ now < startDate).
Proof.
  intros Hnone Hterm Hy y startDate endDate.
  destruct (year_text y Hy) as (Yd & Yl & Yv).
  assert (Ht : termOf semesterInfo now = getCurrentTerm now).
  { unfold termOf. destruct Hterm as [-> | ->]; reflexivity. }
  assert (Hout : ~ 0 <= y <= 99) by lia.
  destruct (date_fields now) as (Hmo & Hda & Hday). fold y in Hday.
  pose proof (time_within_day now) as Hnow.
  assert (Hwin : forall sem,
            getCurrentTerm now = numberToString y ++ sem ->
            getSemesterDates semesterInfo now
            = if (orElse sem "2" =? "1")%string
              then (fromComponents y 8 1, fromComponents y 11 31)
              else if (orElse sem "2" =? "2")%string
              then (fromComponents y 0 1, fromComponents y 3 30)
              else if (orElse sem "2" =? "4")%string
              then (fromComponents y 4 1, fromComponents y 7 31)
              else (fromComponents y 0 1, fromComponents y 11 31)).
  { intros sem Hsem. rewrite Hsem in Ht.
    pose proof (getSemesterDates_of_term semesterInfo now (numberToString y) sem
                  Hnone Ht Yd Yl ltac:(lia)) as E.
    cbv zeta in E. now rewrite Yv in E. }
  destruct (fromComponents_civil y 8 1 Hout ltac:(lia) ltac:(cbn; lia)) as (S1 & S1t & S1d).
  destruct (fromComponents_civil y 11 31 Hout ltac:(lia) ltac:(cbn; lia)) as (E1 & _).
  destruct (fromComponents_civil y 0 1 Hout ltac:(lia) ltac:(cbn; lia)) as (S2 & _).
  destruct (fromComponents_civil y 3 30 Hout ltac:(lia) ltac:(cbn; lia)) as (E2 & E2t & E2d).
  destruct (fromComponents_civil y 4 1 Hout ltac:(lia) ltac:(cbn; lia)) as (S4 & S4t & S4d).
  destruct (fromComponents_civil y 7 31 Hout ltac:(lia) ltac:(cbn; lia)) as (E4 & E4t & E4d).
  cbn [Z.add Pos.add Pos.succ] in S1, E1, S2, E2, S4, E4, S1d, E2d, S4d, E4d.
  apply midnight_value in S1t, E2t, S4t, E4t.
  subst startDate endDate.
  split; [| split]; intros Hm.
  - rewrite (Hwin "2").
    + cbn [orElse String.eqb Ascii.eqb Bool.eqb fst snd].
      split; [assumption |]. split; [assumption |].
      pose proof (days_after_april y (getMonth now + 1) (getDate now)
                    ltac:(lia) ltac:(lia)) as Hlt.
      rewrite Hday, <- E2d in Hlt. rewrite E2t. unfold msPerDay in *. lia.
    + unfold getCurrentTerm. fold y. destruct (Z.leb_spec 8 (getMonth now)); [reflexivity | lia].
  - rewrite (Hwin "4").
    + cbn [orElse String.eqb Ascii.eqb Bool.eqb fst snd].
      split; [assumption |]. split; [assumption |].
      pose proof (days_in_summer y (getMonth now + 1) (getDate now)
                    ltac:(lia) ltac:(lia)) as Hin.
      rewrite Hday, <- S4d, <- E4d in Hin. rewrite S4t, E4t. unfold msPerDay in *. lia.
    + unfold getCurrentTerm. fold y.
      destruct (Z.leb_spec 8 (getMonth now)); [lia |].
      destruct (Z.leb_spec 4 (getMonth now)); [reflexivity | lia].
  - rewrite (Hwin "1").
    + cbn [orElse String.eqb Ascii.eqb Bool.eqb fst snd].
      split; [assumption |]. split; [assumption |].
      pose proof (days_before_september y (getMonth now + 1) (getDate now)
                    ltac:(lia) ltac:(lia)) as Hlt.
      rewrite Hday, <- S1d in Hlt. rewrite S1t. unfold msPerDay in *. lia.
    + unfold getCurrentTerm. fold y.
      destruct (Z.leb_spec 8 (getMonth now)); [lia |].
      destruct (Z.leb_spec 4 (getMonth now)); [lia | reflexivity].
Qed.

Lemma default_window_by_current_month_witness :
  let semesterInfo := {| siStartDate := None; siEndDate := None;
                         siTerm := None; siBreaks := None |} in
  let now := fromComponents 2024 9 15 in
  civilDate (fst (getSemesterDates semesterInfo now)) = (2024, 1, 1)
  /\ civilDate (snd (getSemesterDates semesterInfo now)) = (2024, 4, 30)
  /\ snd (getSemesterDates semesterInfo now) < now.
Proof.
  cbv zeta.
  pose proof (default_window_by_current_month
                {| siStartDate := None; siEndDate := None;
                   siTerm := None; siBreaks := None |}
                (fromComponents 2024 9 15) (or_introl eq_refl) (or_introl eq_refl)
                ltac:(vm_compute; split; discriminate)) as H.
  cbv zeta in H. destruct H as (H & _).
  apply H. vm_compute. discriminate.
Defined.

End TermClaims.

(** ** Catalog sections: [processSections] and [normalizeClassType] *)

(** What a raw section holds under [schedule] or [meetings]: nothing, an
    array of raw meetings, or one raw meeting object. *)
Inductive RawSchedule :=
| NoSchedule
| MeetingArray (meetings : list CourseService.RawMeeting)
| OneMeeting (meeting : CourseService.RawMeeting).

Record RawSection := {
  rsSection : Js.value;
  rsSectionCode : Js.value;
  rsType : Js.value;
  rsClassType : Js.value;
  rsInstructor : Js.value;
  rsLocation : Js.value;
  rsRoom : Js.value;
  rsSchedule : RawSchedule;
  rsMeetings : RawSchedule;
  rsCapacity : Js.value;
  rsEnrolled : Js.value;
  rsWaitlist : Js.value
}.

(** [a || b] on schedules: an array, even an empty one, is truthy. *)
Definition orSchedule (a b : RawSchedule) : RawSchedule :=
  match a with
  | NoSchedule => b
  | _ => a
  end.

(** The [meetings] array [processScheduleData] maps over. *)
Definition meetingsOf (scheduleData : RawSchedule) : list CourseService.RawMeeting :=
  match scheduleData with
  | NoSchedule => []
  | MeetingArray meetings => meetings
  | OneMeeting meeting => [meeting]
  end.

(** One element of [processSections]'s [map]. *)
Definition processSection (section : RawSection) : CourseService.Section :=
  {| CourseService.sSection :=
       CourseService.sanitizeString (Js.or (rsSection section) (rsSectionCode section));
     CourseService.sType :=
       CourseService.normalizeClassType
         (Js.or (Js.or (rsType section) (rsClassType section)) (Js.Str "LEC"));
     CourseService.instructor :=
       CourseService.sanitizeString (Js.or (rsInstructor section) (Js.Str ""));
     CourseService.sLocation :=
       CourseService.sanitizeString
         (Js.or (Js.or (rsLocation section) (rsRoom section)) (Js.Str ""));
     CourseService.schedule :=
       CourseService.processScheduleData
         (meetingsOf (orSchedule (rsSchedule section)
                        (orSchedule (rsMeetings section) (MeetingArray []))));
     CourseService.capacity := Js.parseIntValue (Js.or (rsCapacity section) (Js.Num 0));
     CourseService.enrolled := Js.parseIntValue (Js.or (rsEnrolled section) (Js.Num 0));
     CourseService.waitlist := Js.parseIntValue (Js.or (rsWaitlist section) (Js.Num 0)) |}.

(** [processSections(sections)] on an array of raw sections. *)
Definition processSections (sections : list RawSection) : list CourseService.Section :=
  filter (fun s => Js.truthy (Js.Str (CourseService.sSection s))) (map processSection sections).

(** A time as the parsers write it: two or three digits, a colon, two digits. *)
Definition ClockText (t : string) : Prop :=
  exists hh mm,
    t = hh ++ ":" ++ mm
    /\ Digits hh /\ (length hh = 2%nat \/ length hh = 3%nat)
    /\ Digits mm /\ length mm = 2%nat.

Section CatalogSections.

Lemma sanitizeTime_text (v : value) (t : string) :
  sanitizeTime v = Some t -> ClockText t.
Proof.
  intros H. destruct v as [| | b | n | s]; try discriminate H.
  destruct (sanitizeTime_inv s t H) as (lead & h & m & sec & per & trail & w & Hs & ->).
  rewrite (sanitizeTime_colon _ _ _ _ _ _ _ Hs) in H. injection H as <-.
  destruct Hs as (_ & _ & Hhd & Hhl & Hmd & Hml & _).
  pose proof (hour_value_range h (conj Hhd Hhl)) as Hv.
  pose proof (twentyFourHour_range w _ Hv) as Hr.
  destruct (hour_text _ Hr) as [Hd Hl].
  exists (padStart 2 "0" (numberToString (twentyFourHour w (decimalValue h)))), m.
  repeat split; assumption.
Qed.

Lemma sanitizeString_clean (v : value) :
  allChars (fun c => negb (isControl c)) (sanitizeString v) = true.
Proof.
  unfold sanitizeString. destruct v as [| | b | n | s]; try reflexivity.
  destruct (s =? "")%string; [reflexivity |].
  apply allChars_prefix, allChars_filterChars.
Qed.

Lemma sanitizeString_length (v : value) : (length (sanitizeString v) <= 500)%nat.
Proof.
  unfold sanitizeString. destruct v as [| | b | n | s]; cbn [length]; try lia.
  destruct (s =? "")%string; [cbn [length]; lia | apply length_prefix].
Qed.

Lemma processScheduleData_valid (scheduleData : list RawMeeting) (mt : Meeting) :
  In mt (processScheduleData scheduleData) ->
  days mt <> [] /\ StronglySorted Z.lt (days mt) /\ Forall WeekdayIndex (days mt)
  /\ ClockText (CourseService.startTime mt) /\ ClockText (CourseService.endTime mt).
Proof.
  intros Hin. unfold processScheduleData in Hin.
  apply in_flat_map in Hin as (raw & _ & Hmt).
  destruct (processMeeting raw) as [mt' |] eqn:E; [| contradiction].
  destruct Hmt as [-> | []].
  destruct (processMeeting_Some raw mt E) as (Hd & Hne & Hst & Hen).
  split; [assumption |]. rewrite Hd.
  destruct (parseDays_ascending (or (or (rmDays raw) (rmDay raw)) (Str ""))) as [Hs Hf].
  split; [assumption |]. split; [assumption |].
  split; [exact (sanitizeTime_text _ _ Hst) | exact (sanitizeTime_text _ _ Hen)].
Qed.

Lemma upperChar_idempotent (c : ascii) : upperChar (upperChar c) = upperChar c.
Proof. destruct c as [[] [] [] [] [] [] [] []]; reflexivity. Qed.

Lemma toUpperCase_idempotent (s : string) : toUpperCase (toUpperCase s) = toUpperCase s.
Proof.
  induction s as [| c s IH]; cbn [toUpperCase]; [reflexivity |].
  now rewrite upperChar_idempotent, IH.
Qed.

Lemma lookup_In {A : Type} (k : string) (m : list (string * A)) (v : A) :
  lookup k m = Some v -> In (k, v) m.
Proof.
  induction m as [| [k' v'] m IH]; cbn [lookup]; [discriminate |].
  destruct (String.eqb_spec k k') as [-> | _].
  - intros E. injection E as ->. now left.
  - intros E. right. now apply IH.
Qed.

End CatalogSections.

Section CatalogSectionClaims.

(** X17.  [processSections] keeps, in order, the raw sections whose
    sanitized name is not empty, whatever their meetings: the names of the
    result are the non-empty sanitized names of the input.  Every section
    it returns has a name of at most 500 characters without control
    characters, and each of its meetings has a non-empty, strictly
    ascending day-set within 0 to 6 and start and end times written as two
    or three digits, a colon and two digits. *)
Theorem catalog_sections_are_named_and_valid (sections : list RawSection) :
  map sSection (processSections sections)
  = filter (fun name => negb (name =? "")%string)
      (map (fun raw => sanitizeString (or (rsSection raw) (rsSectionCode raw))) sections)
  /\ (forall s, In s (processSections sections) ->
        sSection s <> ""
        /\ (length (sSection s) <= 500)%nat
        /\ allChars (fun c => negb (isControl c)) (sSection s) = true
        /\ (forall mt, In mt (schedule s) ->
              days mt <> [] /\ StronglySorted Z.lt (days mt)
              /\ Forall WeekdayIndex (days mt)
              /\ ClockText (CourseService.startTime mt)
              /\ ClockText (CourseService.endTime mt))).
Proof.
  split.
  - unfold processSections. induction sections as [| raw rest IH]; [reflexivity |].
    cbn [map filter]. cbn [truthy processSection sSection] in *.
    destruct (negb (sanitizeString (or (rsSection raw) (rsSectionCode raw)) =? "")%string);
      cbn [map]; now rewrite IH.
  - intros s Hin. unfold processSections in Hin.
    apply filter_In in Hin as [Hin Hname]. apply in_map_iff in Hin as (raw & <- & _).
    cbn [truthy] in Hname. cbn [processSection sSection schedule] in *.
    split.
    { intros E. rewrite E in Hname. discriminate Hname. }
    split; [apply sanitizeString_length |]. split; [apply sanitizeString_clean |].
    intros mt Hmt. exact (processScheduleData_valid _ mt Hmt).
Qed.

(** X18.  [normalizeClassType] ignores letter case: texts that agree once
    upper-cased get the same class type, and upper-casing a text first
    changes nothing.  A result other than Lecture is given only for a
    string whose upper-cased text is one of the keys of the type map, with
    that key's type. *)
Theorem class_type_ignores_letter_case :
  (forall a b, toUpperCase a = toUpperCase b ->
     normalizeClassType (Str a) = normalizeClassType (Str b))
  /\ (forall s, normalizeClassType (Str (toUpperCase s)) = normalizeClassType (Str s))
  /\ (forall v, normalizeClassType v <> Lecture ->
        exists s, v = Str s /\ In (toUpperCase s, normalizeClassType v) typeMap).
Proof.
  split; [| split].
  - intros a b E. unfold normalizeClassType. now rewrite E.
  - intros s. unfold normalizeClassType. now rewrite toUpperCase_idempotent.
  - intros v Hv. destruct v as [| | b | n | s]; try (exfalso; apply Hv; reflexivity).
    exists s. split; [reflexivity |]. unfold normalizeClassType in *.
    destruct (lookup (toUpperCase s) typeMap) as [t |] eqn:E.
    + now apply lookup_In.
    + exfalso. now apply Hv.
Qed.

End CatalogSectionClaims.

(** ** Enrolled courses: [parseEnrolledCourses] *)

(** [[A-Z]]. *)
Definition isUpperLetter (c : ascii) : bool := (65 <=? Js.code c) && (Js.code c <=? 90).

(** [[A-Z\-]]. *)
Definition isSuffixChar (c : ascii) : bool := isUpperLetter c || (Js.code c =? 45).

(** [s.split('\n')]. *)
Fixpoint splitLines (s : string) : list string :=
  match s with
  | EmptyString => [EmptyString]
  | String c r =>
      if Js.code c =? 10 then EmptyString :: splitLines r
      else match splitLines r with
           | line :: rest => String c line :: rest
           | [] => [String c EmptyString]
           end
  end.

(** A greedy [p*] at the start of [s]: the longest prefix whose code units
    satisfy [p], and what follows it. *)
Fixpoint spanChars (p : ascii -> bool) (s : string) : string * string :=
  match s with
  | EmptyString => (EmptyString, EmptyString)
  | String c r =>
      if p c then let (a, b) := spanChars p r in (String c a, b)
      else (EmptyString, s)
  end.

(** [p{n}] at the start of [s]. *)
Fixpoint exactChars (p : ascii -> bool) (n : nat) (s : string) : option (string * string) :=
  match n with
  | O => Some (EmptyString, s)
  | S n' =>
      match s with
      | EmptyString => None
      | String c r =>
          if p c
          then match exactChars p n' r with
               | Some (a, b) => Some (String c a, b)
               | None => None
               end
          else None
      end
  end.

(** Group 1 of the course pattern on [line]: at the start of the line,
    four capital letters, a run of white space, three digits, then a run
    of capital letters and hyphens.  Each greedy run is followed by a code
    unit outside its class or by the end, so giving code units back never
    helps and the longest runs decide. *)
Definition courseCodePattern (line : string) : option string :=
  match exactChars isUpperLetter 4 line with
  | Some (letters, r1) =>
      let (spaces, r2) := spanChars Js.isWhiteSpace r1 in
      if (spaces =? "")%string then None
      else match exactChars Js.isDigit 3 r2 with
           | Some (digits, r3) =>
               let (suffix, _) := spanChars isSuffixChar r3 in
               Some (letters ++ spaces ++ digits ++ suffix)
           | None => None
           end
  | None => None
  end.

(** The tail of the section pattern at the start of [s]: a run of white
    space, an opening parenthesis, a run of digits (group 2) and a closing
    parenthesis. *)
Definition sectionNumberAt (s : string) : option string :=
  let (_, r1) := spanChars Js.isWhiteSpace s in
  match r1 with
  | String "(" r2 =>
      let (digits, r3) := spanChars Js.isDigit r2 in
      if (digits =? "")%string then None
      else match r3 with
           | String ")" _ => Some digits
           | _ => None
           end
  | _ => None
  end.

(** The section pattern at the start of [s]: two or three capital
    letters, then the tail; three letters are tried before two. *)
Definition sectionAt (s : string) : option string :=
  let two := match exactChars isUpperLetter 2 s with
             | Some (_, r) => sectionNumberAt r
             | None => None
             end in
  match exactChars isUpperLetter 3 s with
  | Some (_, r) =>
      match sectionNumberAt r with
      | Some digits => Some digits
      | None => two
      end
  | None => two
  end.

(** Group 2 of the leftmost match of the section pattern in [line]. *)
Fixpoint sectionPattern (line : string) : option string :=
  match line with
  | EmptyString => None
  | String _ r =>
      match sectionAt line with
      | Some digits => Some digits
      | None => sectionPattern r
      end
  end.

(** The body of the loop over the lines; [clock k] is the time at which
    the clock is read for the [k]-th course pushed. *)
Fixpoint parseLines (clock : nat -> Z) (k : nat) (lines : list string)
    : list ScheduleService.CourseInfo :=
  match lines with
  | [] => []
  | line :: rest =>
      match courseCodePattern line with
      | Some courseCode =>
          let section := match sectionPattern line with
                         | Some digits => digits
                         | None => EmptyString
                         end in
          {| ScheduleService.ciCode :=
               Js.trim (ScheduleService.collapseSpaces false courseCode);
             ScheduleService.ciSection := section;
             ScheduleService.ciTerm :=
               Some (ScheduleService.getCurrentTerm (clock k)) |}
          :: parseLines clock (S k) rest
      | None => parseLines clock k rest
      end
  end.

(** [parseEnrolledCourses(courseText)]. *)
Definition parseEnrolledCourses (clock : nat -> Z) (courseText : string)
    : list ScheduleService.CourseInfo :=
  parseLines clock 0
    (filter (fun line => Js.truthy (Js.Str line)) (map Js.trim (splitLines courseText))).

(** [text] is the course code read off the start of [line]: four capital
    letters, one space where the line has a run of white space, three
    digits, then the capital letters and hyphens that follow them. *)
Definition CodeOfLine (line text : string) : Prop :=
  exists letters spaces digits suffix rest,
    line = letters ++ spaces ++ digits ++ suffix ++ rest
    /\ text = letters ++ " " ++ digits ++ suffix
    /\ length letters = 4%nat /\ allChars isUpperLetter letters = true
    /\ Blank spaces /\ spaces <> ""
    /\ length digits = 3%nat /\ Digits digits
    /\ allChars isSuffixChar suffix = true.

Definition isSolid (c : ascii) : bool := negb (isWhiteSpace c).

Definition notLineFeed (c : ascii) : bool := negb (code c =? 10).

Section EnrolledCourses.

Import ScheduleService.

Lemma spanChars_spec (p : ascii -> bool) (s a b : string) :
  spanChars p s = (a, b) ->
  s = a ++ b /\ allChars p a = true
  /\ (b = "" \/ exists c r, b = String c r /\ p c = false).
Proof.
  revert a b. induction s as [| c s IH]; intros a b; cbn [spanChars].
  - intros E. injection E as <- <-. repeat split. now left.
  - destruct (p c) eqn:Hc.
    + destruct (spanChars p s) as [a' b'] eqn:Es. intros E. injection E as <- <-.
      destruct (IH a' b' eq_refl) as (-> & Ha & Hb).
      repeat split; [| assumption]. cbn [allChars]. now rewrite Hc, Ha.
    + intros E. injection E as <- <-. repeat split. right. now exists c, s.
Qed.

Lemma spanChars_append (p : ascii -> bool) (a b : string) :
  allChars p a = true -> (b = "" \/ exists c r, b = String c r /\ p c = false) ->
  spanChars p (a ++ b) = (a, b).
Proof.
  intros Ha Hb. induction a as [| x a IH]; cbn [append spanChars].
  - destruct Hb as [-> | (c & r & -> & Hc)]; [reflexivity |].
    cbn [spanChars]. now rewrite Hc.
  - cbn [allChars] in Ha. apply andb_true_iff in Ha as [Hx Ha].
    now rewrite Hx, (IH Ha).
Qed.

Lemma exactChars_spec (p : ascii -> bool) (n : nat) (s a b : string) :
  exactChars p n s = Some (a, b) ->
  s = a ++ b /\ length a = n /\ allChars p a = true.
Proof.
  revert s a b. induction n as [| n IH]; intros s a b; cbn [exactChars].
  - intros E. injection E as <- <-. repeat split.
  - destruct s as [| c s]; [discriminate |].
    destruct (p c) eqn:Hc; [| discriminate].
    destruct (exactChars p n s) as [[a' b'] |] eqn:Es; [| discriminate].
    intros E. injection E as <- <-.
    destruct (IH s a' b' Es) as (-> & Hl & Ha).
    repeat split; [now cbn [length]; rewrite Hl |]. cbn [allChars]. now rewrite Hc, Ha.
Qed.

Lemma exactChars_append (p : ascii -> bool) (a b : string) :
  allChars p a = true -> exactChars p (length a) (a ++ b) = Some (a, b).
Proof.
  intros Ha. induction a as [| x a IH]; cbn [append length exactChars]; [reflexivity |].
  cbn [allChars] in Ha. apply andb_true_iff in Ha as [Hx Ha].
  now rewrite Hx, (IH Ha).
Qed.

Lemma letter_solid (c : ascii) : isUpperLetter c = true -> isSolid c = true.
Proof.
  unfold isUpperLetter, isSolid, isWhiteSpace. intros H.
  apply andb_true_iff in H as [H1 H2]. apply Z.leb_le in H1, H2.
  apply negb_true_iff, orb_false_iff. split; [apply orb_false_iff; split |].
  - apply andb_false_iff. right. apply Z.leb_gt. lia.
  - apply Z.eqb_neq. lia.
  - apply Z.eqb_neq. lia.
Qed.

Lemma digit_is_solid (c : ascii) : isDigit c = true -> isSolid c = true.
Proof.
  unfold isDigit, isSolid, isWhiteSpace. intros H.
  apply andb_true_iff in H as [H1 H2]. apply Z.leb_le in H1, H2.
  apply negb_true_iff, orb_false_iff. split; [apply orb_false_iff; split |].
  - apply andb_false_iff. right. apply Z.leb_gt. lia.
  - apply Z.eqb_neq. lia.
  - apply Z.eqb_neq. lia.
Qed.

Lemma suffix_solid (c : ascii) : isSuffixChar c = true -> isSolid c = true.
Proof.
  unfold isSuffixChar. intros H. apply orb_true_iff in H as [H | H].
  - now apply letter_solid.
  - apply Z.eqb_eq in H. unfold isSolid, isWhiteSpace. rewrite H. reflexivity.
Qed.

Lemma allChars_weaken (p q : ascii -> bool) (s : string) :
  (forall c, p c = true -> q c = true) -> allChars p s = true -> allChars q s = true.
Proof.
  intros Hpq. induction s as [| c s IH]; cbn [allChars]; [reflexivity |].
  intros H. apply andb_true_iff in H as [Hc Hs]. now rewrite (Hpq c Hc), (IH Hs).
Qed.

Lemma collapseSpaces_solid (a r : string) (inRun : bool) :
  allChars isSolid a = true -> a <> "" ->
  collapseSpaces inRun (a ++ r) = a ++ collapseSpaces false r.
Proof.
  revert inRun. induction a as [| c a IH]; intros inRun Ha Hne; [contradiction |].
  cbn [allChars] in Ha. apply andb_true_iff in Ha as [Hc Ha].
  unfold isSolid in Hc. apply negb_true_iff in Hc.
  cbn [append collapseSpaces]. rewrite Hc. f_equal.
  destruct a as [| d a]; [reflexivity |]. now apply IH.
Qed.

Lemma collapseSpaces_all_solid (a : string) (inRun : bool) :
  allChars isSolid a = true -> collapseSpaces inRun a = a.
Proof.
  revert inRun. induction a as [| c a IH]; intros inRun Ha; [reflexivity |].
  cbn [allChars] in Ha. apply andb_true_iff in Ha as [Hc Ha].
  unfold isSolid in Hc. apply negb_true_iff in Hc.
  cbn [collapseSpaces]. rewrite Hc. now rewrite IH.
Qed.

Lemma collapseSpaces_run (spaces r : string) :
  Blank spaces -> collapseSpaces true (spaces ++ r) = collapseSpaces true r.
Proof.
  unfold Blank. induction spaces as [| c spaces IH]; intros H; [reflexivity |].
  cbn [allChars] in H. apply andb_true_iff in H as [Hc H].
  cbn [append collapseSpaces]. rewrite Hc. now apply IH.
Qed.

Lemma collapseSpaces_blank (spaces r : string) :
  Blank spaces -> spaces <> "" ->
  collapseSpaces false (spaces ++ r) = " " ++ collapseSpaces true r.
Proof.
  intros H Hne. destruct spaces as [| c spaces]; [contradiction |].
  unfold Blank in H. cbn [allChars] in H. apply andb_true_iff in H as [Hc H].
  cbn [append collapseSpaces]. rewrite Hc. f_equal. now apply collapseSpaces_run.
Qed.

Lemma trimEnd_all_solid (s : string) : allChars isSolid s = true -> trimEnd s = s.
Proof.
  induction s as [| c s IH]; [reflexivity |].
  cbn [allChars]. intros H. apply andb_true_iff in H as [Hc Hs].
  unfold isSolid in Hc. apply negb_true_iff in Hc.
  cbn [trimEnd]. rewrite (IH Hs). destruct s; [now rewrite Hc | reflexivity].
Qed.

Lemma length_not_empty (s : string) (n : nat) : length s = S n -> s <> "".
Proof. intros H ->. discriminate H. Qed.

(** The pattern's group is the start of the line and has the four parts. *)
Lemma courseCodePattern_inv (line courseCode : string) :
  courseCodePattern line = Some courseCode ->
  exists letters spaces digits suffix rest,
    line = courseCode ++ rest
    /\ courseCode = letters ++ spaces ++ digits ++ suffix
    /\ length letters = 4%nat /\ allChars isUpperLetter letters = true
    /\ Blank spaces /\ spaces <> ""
    /\ length digits = 3%nat /\ Digits digits
    /\ allChars isSuffixChar suffix = true.
Proof.
  unfold courseCodePattern.
  destruct (exactChars isUpperLetter 4 line) as [[letters r1] |] eqn:E1; [| discriminate].
  destruct (spanChars isWhiteSpace r1) as [spaces r2] eqn:E2.
  destruct (String.eqb_spec spaces "") as [| Hne]; [discriminate |].
  destruct (exactChars isDigit 3 r2) as [[digits r3] |] eqn:E3; [| discriminate].
  destruct (spanChars isSuffixChar r3) as [suffix rest] eqn:E4.
  intros E. injection E as <-.
  destruct (exactChars_spec _ _ _ _ _ E1) as (-> & Hl1 & Ha1).
  destruct (spanChars_spec _ _ _ _ E2) as (-> & Ha2 & _).
  destruct (exactChars_spec _ _ _ _ _ E3) as (-> & Hl3 & Ha3).
  destruct (spanChars_spec _ _ _ _ E4) as (-> & Ha4 & _).
  exists letters, spaces, digits, suffix, rest.
  repeat split; try assumption.
  now rewrite !append_assoc3.
Qed.

(** Collapsing the white space and trimming leaves one space between the
    letters and the digits. *)
Lemma normalised_code (letters spaces digits suffix : string) :
  length letters = 4%nat -> allChars isUpperLetter letters = true ->
  Blank spaces -> spaces <> "" ->
  length digits = 3%nat -> Digits digits ->
  allChars isSuffixChar suffix = true ->
  trim (collapseSpaces false (letters ++ spaces ++ digits ++ suffix))
  = letters ++ " " ++ digits ++ suffix.
Proof.
  intros Hl1 Ha1 Ha2 Hne Hl3 Ha3 Ha4.
  assert (Hs1 : allChars isSolid letters = true)
    by exact (allChars_weaken _ _ _ letter_solid Ha1).
  assert (Hs3 : allChars isSolid (digits ++ suffix) = true).
  { rewrite allChars_append.
    rewrite (allChars_weaken _ _ _ digit_is_solid Ha3).
    now rewrite (allChars_weaken _ _ _ suffix_solid Ha4). }
  assert (Hn3 : digits ++ suffix <> "").
  { destruct digits; [discriminate Hl3 | discriminate]. }
  rewrite (collapseSpaces_solid letters _ false Hs1 (length_not_empty _ _ Hl1)).
  rewrite (collapseSpaces_blank spaces _ Ha2 Hne).
  rewrite (collapseSpaces_all_solid _ true Hs3).
  unfold trim.
  assert (Hstart : trimStart (letters ++ " " ++ digits ++ suffix)
                   = letters ++ " " ++ digits ++ suffix).
  { destruct letters as [| c letters]; [discriminate Hl1 |].
    cbn [allChars] in Hs1. apply andb_true_iff in Hs1 as [Hc _].
    unfold isSolid in Hc. apply negb_true_iff in Hc.
    cbn [append trimStart]. now rewrite Hc. }
  rewrite Hstart.
  change (letters ++ " " ++ digits ++ suffix)
    with (letters ++ " " ++ (digits ++ suffix)).
  rewrite <- append_assoc3.
  apply trimEnd_append_solid; [assumption | now apply trimEnd_all_solid].
Qed.

Lemma sectionNumberAt_digits (s digits : string) :
  sectionNumberAt s = Some digits -> Digits digits /\ digits <> "".
Proof.
  unfold sectionNumberAt.
  destruct (spanChars isWhiteSpace s) as [gap r1].
  destruct r1 as [| c r2]; [discriminate |].
  destruct (Ascii.eqb_spec c "("%char) as [-> | Hc].
  - destruct (spanChars isDigit r2) as [ds r3] eqn:E.
    destruct (String.eqb_spec ds "") as [| Hne]; [discriminate |].
    destruct r3 as [| d r4]; [discriminate |].
    destruct (Ascii.eqb_spec d ")"%char) as [-> | Hd].
    + intros H. injection H as <-.
      destruct (spanChars_spec _ _ _ _ E) as (_ & Hds & _). now split.
    + destruct d as [[] [] [] [] [] [] [] []]; try discriminate. now contradiction Hd.
  - destruct c as [[] [] [] [] [] [] [] []]; try discriminate. now contradiction Hc.
Qed.

Lemma sectionAt_digits (s digits : string) :
  sectionAt s = Some digits -> Digits digits /\ digits <> "".
Proof.
  unfold sectionAt.
  assert (Htwo : match exactChars isUpperLetter 2 s with
                 | Some (_, r) => sectionNumberAt r
                 | None => None
                 end = Some digits -> Digits digits /\ digits <> "").
  { destruct (exactChars isUpperLetter 2 s) as [[a r] |]; [| discriminate].
    apply sectionNumberAt_digits. }
  destruct (exactChars isUpperLetter 3 s) as [[a r] |]; [| exact Htwo].
  destruct (sectionNumberAt r) as [ds |] eqn:E; [| exact Htwo].
  intros H. injection H as <-. exact (sectionNumberAt_digits _ _ E).
Qed.

Lemma sectionPattern_digits (line digits : string) :
  sectionPattern line = Some digits -> Digits digits /\ digits <> "".
Proof.
  induction line as [| c line IH]; [discriminate |].
  cbn [sectionPattern].
  destruct (sectionAt (String c line)) as [ds |] eqn:E.
  - intros H. injection H as <-. exact (sectionAt_digits _ _ E).
  - exact IH.
Qed.

Lemma parseLines_courses (clock : nat -> Z) (lines : list string) :
  forall k0 k course,
    nth_error (parseLines clock k0 lines) k = Some course ->
    (exists line, In line lines /\ CodeOfLine line (ciCode course))
    /\ Digits (ciSection course)
    /\ ciTerm course = Some (getCurrentTerm (clock (k0 + k)%nat)).
Proof.
  induction lines as [| line lines IH]; intros k0 k course.
  - cbn [parseLines]. destruct k; discriminate.
  - cbn [parseLines].
    destruct (courseCodePattern line) as [courseCode |] eqn:E.
    + destruct k as [| k]; cbn [nth_error].
      * intros H. injection H as <-. cbn [ciCode ciSection ciTerm].
        destruct (courseCodePattern_inv _ _ E)
          as (letters & spaces & digits & suffix & rest & Hline & -> & Hl1 & Ha1
              & Ha2 & Hne & Hl3 & Ha3 & Ha4).
        rewrite (normalised_code letters spaces digits suffix) by assumption.
        split.
        { exists line. split; [now left |].
          exists letters, spaces, digits, suffix, rest.
          rewrite Hline, !append_assoc3. repeat split; assumption. }
        split.
        { destruct (sectionPattern line) as [ds |] eqn:Es; [| reflexivity].
          exact (proj1 (sectionPattern_digits _ _ Es)). }
        now rewrite Nat.add_0_r.
      * intros H. destruct (IH (S k0) k course H) as ((line' & Hin & Hc) & Hs & Ht).
        split; [exists line'; split; [now right | assumption] |].
        split; [assumption |]. now rewrite Nat.add_succ_r.
    + intros H. destruct (IH k0 k course H) as ((line' & Hin & Hc) & Hs & Ht).
      split; [exists line'; split; [now right | assumption] |].
      split; assumption.
Qed.

Lemma parseLines_length (clock : nat -> Z) (lines : list string) :
  forall k0, (List.length (parseLines clock k0 lines) <= List.length lines)%nat.
Proof.
  induction lines as [| line lines IH]; intros k0; cbn [parseLines List.length]; [lia |].
  destruct (courseCodePattern line); cbn [List.length].
  - specialize (IH (S k0)). lia.
  - specialize (IH k0). lia.
Qed.

Lemma filter_length_le {A : Type} (f : A -> bool) (l : list A) :
  (List.length (filter f l) <= List.length l)%nat.
Proof.
  induction l as [| x l IH]; cbn [filter List.length]; [lia |].
  destruct (f x); cbn [List.length]; lia.
Qed.

Lemma splitLines_single (s : string) :
  allChars notLineFeed s = true -> splitLines s = [s].
Proof.
  induction s as [| c s IH]; [reflexivity |].
  cbn [allChars]. intros H. apply andb_true_iff in H as [Hc Hs].
  unfold notLineFeed in Hc. apply negb_true_iff in Hc.
  cbn [splitLines]. now rewrite Hc, (IH Hs).
Qed.

End EnrolledCourses.

Section EnrolledLines.

Import ScheduleService.

Lemma solid_not_line_feed (c : ascii) : isSolid c = true -> notLineFeed c = true.
Proof.
  unfold isSolid, notLineFeed, isWhiteSpace. intros H.
  apply negb_true_iff in H. apply negb_true_iff.
  destruct (Z.eqb_spec (code c) 10) as [E |]; [| reflexivity].
  rewrite E in H. discriminate H.
Qed.

Lemma courseCodePattern_complete (letters spaces digits suffix rest : string) :
  length letters = 4%nat -> allChars isUpperLetter letters = true ->
  Blank spaces -> spaces <> "" ->
  length digits = 3%nat -> Digits digits ->
  allChars isSuffixChar suffix = true ->
  (rest = "" \/ exists c r, rest = String c r /\ isSuffixChar c = false) ->
  courseCodePattern (letters ++ spaces ++ digits ++ suffix ++ rest)
  = Some (letters ++ spaces ++ digits ++ suffix).
Proof.
  intros Hl1 Ha1 Ha2 Hne Hl3 Ha3 Ha4 Hrest. unfold courseCodePattern.
  pose proof (exactChars_append isUpperLetter letters
                (spaces ++ digits ++ suffix ++ rest) Ha1) as E1.
  rewrite Hl1 in E1. rewrite E1.
  assert (E2 : spanChars isWhiteSpace (spaces ++ digits ++ suffix ++ rest)
               = (spaces, digits ++ suffix ++ rest)).
  { apply spanChars_append; [exact Ha2 |]. right.
    destruct digits as [| d digits]; [discriminate Hl3 |].
    exists d, (digits ++ suffix ++ rest). split; [reflexivity |].
    unfold Digits in Ha3. cbn [allChars] in Ha3. apply andb_true_iff in Ha3 as [Hd _].
    apply digit_is_solid in Hd. unfold isSolid in Hd. now apply negb_true_iff in Hd. }
  rewrite E2.
  destruct (String.eqb_spec spaces "") as [| _]; [contradiction |].
  pose proof (exactChars_append isDigit digits (suffix ++ rest) Ha3) as E3.
  rewrite Hl3 in E3. rewrite E3.
  now rewrite (spanChars_append isSuffixChar suffix rest Ha4 Hrest).
Qed.

End EnrolledLines.

Section EnrolledCourseClaims.

Import ScheduleService.

(** X19.  Every course [parseEnrolledCourses] returns is read off the
    start of one trimmed line of the text: its code is that line's four
    capital letters, a single space in place of the line's run of white
    space, the three digits and the capital letters and hyphens after
    them; its section is made of digits only, or empty; its term is the
    current term when the course was pushed.  There are never more courses
    than lines. *)
Theorem enrolled_courses_are_normalised (clock : nat -> Z) (courseText : string) :
  (forall k course,
     nth_error (parseEnrolledCourses clock courseText) k = Some course ->
     (exists line,
        In line (map trim (splitLines courseText)) /\ CodeOfLine line (ciCode course))
     /\ Digits (ciSection course)
     /\ ciTerm course = Some (getCurrentTerm (clock k)))
  /\ (List.length (parseEnrolledCourses clock courseText)
      <= List.length (splitLines courseText))%nat.
Proof.
  split.
  - intros k course H. unfold parseEnrolledCourses in H.
    destruct (parseLines_courses clock _ 0%nat k course H) as ((line & Hin & Hc) & Hs & Ht).
    split; [| split; assumption].
    exists line. split; [| assumption]. now apply filter_In in Hin as [Hin _].
  - unfold parseEnrolledCourses.
    etransitivity; [apply parseLines_length |].
    etransitivity; [apply filter_length_le |]. now rewrite length_map.
Qed.

(** X20.  A one-line text that starts with four capital letters, a run of
    white space, three digits and a run of capital letters and hyphens,
    and goes on with something that is neither and does not end in white
    space, gives exactly one course, whose code has a single space between
    the letters and the digits. *)
Theorem code_line_is_recognised
    (clock : nat -> Z) (letters spaces digits suffix rest : string) :
  length letters = 4%nat -> allChars isUpperLetter letters = true ->
  Blank spaces -> spaces <> "" ->
  length digits = 3%nat -> Digits digits ->
  allChars isSuffixChar suffix = true ->
  (rest = "" \/ exists c r, rest = String c r /\ isSuffixChar c = false
                            /\ trimEnd rest = rest) ->
  allChars notLineFeed (spaces ++ rest) = true ->
  map ciCode (parseEnrolledCourses clock (letters ++ spaces ++ digits ++ suffix ++ rest))
  = [letters ++ " " ++ digits ++ suffix].
Proof.
  intros Hl1 Ha1 Ha2 Hne Hl3 Ha3 Ha4 Hrest Hnl.
  set (line := letters ++ spaces ++ digits ++ suffix ++ rest).
  assert (Hs1 : allChars isSolid letters = true)
    by exact (allChars_weaken _ _ _ letter_solid Ha1).
  assert (Hs3 : allChars isSolid digits = true)
    by exact (allChars_weaken _ _ _ digit_is_solid Ha3).
  assert (Hs4 : allChars isSolid suffix = true)
    by exact (allChars_weaken _ _ _ suffix_solid Ha4).
  rewrite allChars_append in Hnl. apply andb_true_iff in Hnl as [Hn2 Hn5].
  assert (Hsplit : splitLines line = [line]).
  { apply splitLines_single. subst line. rewrite !allChars_append.
    rewrite (allChars_weaken _ _ _ solid_not_line_feed Hs1), Hn2.
    rewrite (allChars_weaken _ _ _ solid_not_line_feed Hs3).
    now rewrite (allChars_weaken _ _ _ solid_not_line_feed Hs4), Hn5. }
  assert (Hstart : trimStart line = line).
  { subst line. destruct letters as [| c letters]; [discriminate Hl1 |].
    cbn [allChars] in Hs1. apply andb_true_iff in Hs1 as [Hc _].
    unfold isSolid in Hc. apply negb_true_iff in Hc.
    cbn [append trimStart]. now rewrite Hc. }
  assert (Hend : trimEnd line = line).
  { subst line. destruct Hrest as [-> | (c & r & Hr & _ & Ht)].
    - rewrite append_empty_r.
      change (letters ++ spaces ++ digits ++ suffix)
        with (letters ++ spaces ++ (digits ++ suffix)).
      rewrite <- append_assoc3. apply trimEnd_append_solid.
      + destruct digits; [discriminate Hl3 | discriminate].
      + apply trimEnd_all_solid. rewrite allChars_append. now rewrite Hs3, Hs4.
    - rewrite <- !append_assoc3. apply trimEnd_append_solid; [| assumption].
      rewrite Hr. discriminate. }
  assert (Hrest' : rest = "" \/ exists c r, rest = String c r /\ isSuffixChar c = false).
  { destruct Hrest as [-> | (c & r & Hr & Hc & _)]; [now left | right; now exists c, r]. }
  unfold parseEnrolledCourses. rewrite Hsplit. cbn [map]. unfold trim at 1.
  rewrite Hstart, Hend.
  assert (Hline : truthy (Str line) = true).
  { subst line. destruct letters; [discriminate Hl1 | reflexivity]. }
  cbn [filter]. rewrite Hline. cbn [parseLines].
  subst line.
  rewrite (courseCodePattern_complete letters spaces digits suffix rest) by assumption.
  cbn [map ciCode].
  now rewrite (normalised_code letters spaces digits suffix) by assumption.
Qed.

Lemma code_line_is_recognised_witness :
  map ciCode (parseEnrolledCourses (fun _ => 0) "COMP  248 LEC (1234)") = ["COMP 248"].
Proof.
  apply (code_line_is_recognised (fun _ => 0) "COMP" "  " "248" "" " LEC (1234)").
  - reflexivity.
  - reflexivity.
  - reflexivity.
  - discriminate.
  - reflexivity.
  - reflexivity.
  - reflexivity.
  - right. exists " "%char, "LEC (1234)". repeat split; reflexivity.
  - reflexivity.
Defined.

End EnrolledCourseClaims.

(** * The claims on breaks and on the schedule feed *)

(** ** Breaks in the CSV text *)

Section BreakRows.

Import ScheduleService.

Lemma rowKeys_lines (scheduleData : list ScheduleEvent) (occurrence : ScheduleEvent -> list Z) :
  map (fun r => rowLine (fst r) (snd r)) (rowKeys scheduleData occurrence)
  = flat_map (fun course => map (rowLine course) (occurrence course)) scheduleData.
Proof.
  unfold rowKeys. induction scheduleData as [| course rest IH]; [reflexivity |].
  cbn [flat_map]. rewrite map_app, IH, map_map. reflexivity.
Qed.

(** The text [generateCSV] returns: the header line, then the line of each
    occurrence date, course by course. *)
Lemma generateCSV_lines (scheduleData : list ScheduleEvent) (semesterInfo : SemesterInfo)
    (now : Z) :
  generateCSV scheduleData semesterInfo now
  = Some (join lineFeed
            (headerLine
             :: flat_map (fun course =>
                  map (rowLine course)
                      (occurrences (fst (getSemesterDates semesterInfo now))
                                   (snd (getSemesterDates semesterInfo now))
                                   (siBreaks semesterInfo) course))
                  scheduleData)).
Proof.
  unfold generateCSV. rewrite materialize_rows.
  rewrite rowKeys_rows, encodeRows_makeRows, rowKeys_lines. reflexivity.
Qed.

Lemma TimeWithinDay_add (t k : Z) : TimeWithinDay (t + k * msPerDay) = TimeWithinDay t.
Proof. unfold TimeWithinDay, msPerDay. apply Z.mod_add. lia. Qed.

(** Every occurrence date has the time of day of the start date. *)
Lemma occurrence_time_of_day (startDate endDate : Z) (breaks : option (list BreakPeriod))
    (course : ScheduleEvent) (date : Z) :
  In date (occurrences startDate endDate breaks course) ->
  TimeWithinDay date = TimeWithinDay startDate.
Proof.
  intros Hin.
  destruct (proj1 (In_occurrences startDate endDate breaks course date) Hin)
    as (k & _ & Hd & _).
  unfold getFirstWeekdayOccurrence in Hd. rewrite setDate_add in Hd.
  set (a := Z.rem (day course - getDay startDate + 7) 7) in Hd.
  replace date with (startDate + (a + 7 * k) * msPerDay)
    by (rewrite Hd; unfold msPerWeek; ring).
  apply TimeWithinDay_add.
Qed.

Lemma midnight_in_range (date lo hi : Z) :
  TimeWithinDay date = 0 -> TimeWithinDay lo = 0 ->
  Day lo <= Day date <= Day hi -> lo <= date <= hi.
Proof.
  intros Hd Hl [H1 H2].
  pose proof (time_split date) as Ed. pose proof (time_split lo) as El.
  pose proof (time_split hi) as Eh.
  assert (0 <= TimeWithinDay hi).
  { unfold TimeWithinDay, msPerDay. apply Z.mod_pos_bound. lia. }
  unfold msPerDay in *. split; nia.
Qed.

End BreakRows.

Section BreakClaims.

Import ScheduleService.

(** C3.  [generateCSV] returns the header line followed, course by
    course, by one line per occurrence date, in ascending date order; the
    line of a date carries [formatDate] of that date as Start Date and End
    Date.  For every course:
    - a date inside a configured break range, its two ends included, is no
      occurrence date, so the text has no line for it;
    - every weekly step from the first occurrence that is within the
      semester window and in no break range is an occurrence date, whatever
      came before it: the cadence runs on through a break and the step after
      the break gets its line;
    - there are no other occurrence dates.
    A date is inside a range when its time value is between those of the
    two ends.  When the start date of the window and the start of a
    configured range are at midnight, that is the same as the calendar day
    being from the first to the last day of the range: no line is dated on
    such a day. *)
Theorem break_dates_skipped_and_cadence_kept
    (scheduleData : list ScheduleEvent) (semesterInfo : SemesterInfo) (now : Z) :
  let startDate := fst (getSemesterDates semesterInfo now) in
  let endDate := snd (getSemesterDates semesterInfo now) in
  let breaks := siBreaks semesterInfo in
  exists occurrence : ScheduleEvent -> list Z,
    generateCSV scheduleData semesterInfo now
    = Some (join lineFeed
              (headerLine
               :: flat_map (fun course => map (rowLine course) (occurrence course))
                    scheduleData))
    /\ (forall course date,
          rowLine course date
          = join "," (map quoteField
              [ sanitizeCsvField (subject course); formatDate date; startTime course;
                formatDate date; endTime course; "False";
                sanitizeCsvField (description course); sanitizeCsvField (location course);
                "False" ]))
    /\ (forall course, StronglySorted Z.lt (occurrence course))
    /\ (forall course date,
          InBreak date (suppliedBreaks breaks) -> ~ In date (occurrence course))
    /\ (forall course k,
          let date := getFirstWeekdayOccurrence startDate (day course) + k * (7 * msPerDay) in
          0 <= k -> date <= endDate ->
          ~ InBreak date defaultBreaks -> ~ InBreak date (suppliedBreaks breaks) ->
          In date (occurrence course))
    /\ (forall course date,
          In date (occurrence course) ->
          exists k, 0 <= k
            /\ date = getFirstWeekdayOccurrence startDate (day course) + k * (7 * msPerDay)
            /\ date <= endDate)
    /\ (TimeWithinDay startDate = 0 ->
        forall course date b,
          In date (occurrence course) -> In b (suppliedBreaks breaks) ->
          TimeWithinDay (bStart b) = 0 ->
          ~ Day (bStart b) <= Day date <= Day (bEnd b)).
Proof.
  intros startDate endDate breaks.
  exists (occurrences startDate endDate breaks).
  assert (Hskip : forall course date,
            InBreak date (suppliedBreaks breaks) ->
            ~ In date (occurrences startDate endDate breaks course)).
  { intros course date Hb Hin.
    destruct (proj1 (In_occurrences startDate endDate breaks course date) Hin)
      as (k & _ & _ & _ & Hk).
    pose proof (proj2 (isBreakWeek_InBreak date breaks) (or_intror Hb)) as Ht.
    rewrite Ht in Hk. discriminate Hk. }
  split; [apply generateCSV_lines |].
  split; [reflexivity |].
  split; [intros course; apply occurrences_ascending |].
  split; [exact Hskip |].
  split; [| split].
  - intros course k date Hk Hle Hd Hs.
    apply (proj2 (In_occurrences startDate endDate breaks course date)).
    exists k. split; [exact Hk |]. split; [reflexivity |]. split; [exact Hle |].
    destruct (isBreakWeek date breaks) eqn:E; [| reflexivity].
    destruct (proj1 (isBreakWeek_InBreak date breaks) E) as [E' | E']; contradiction.
  - intros course date Hin.
    destruct (proj1 (In_occurrences startDate endDate breaks course date) Hin)
      as (k & Hk & Hd & Hle & _).
    exists k. split; [exact Hk |]. split; [exact Hd | exact Hle].
  - intros Hmid course date b Hin Hb Hbs Hdays.
    apply (Hskip course date); [| exact Hin].
    exists b. split; [exact Hb |].
    apply midnight_in_range; [| exact Hbs | exact Hdays].
    rewrite (occurrence_time_of_day _ _ _ _ _ Hin). exact Hmid.
Qed.

End BreakClaims.

(** ** The schedule feed, row by row *)

(** The Meeting a row of the feed stands for, in the words of the claim:
    the row's day-set when it is not empty, with its two times when both
    parse; no Meeting otherwise. *)
Definition rowMeeting (item : ScheduleItem) : option Meeting :=
  match extractDaysFromSchedule item,
        convertTimeFormat (classStartTime item),
        convertTimeFormat (classEndTime item) with
  | _ :: _, Some st, Some en =>
      Some {| days := extractDaysFromSchedule item;
              CourseService.startTime := st;
              CourseService.endTime := en;
              mLocation := sanitizeString (or (locationCode item) (Str ""));
              mType := normalizeClassType (componentCode item) |}
  | _, _, _ => None
  end.

(** A text without a hyphen. *)
Definition NoHyphen (s : string) : Prop :=
  allChars (fun c => negb (c =? "-")%char) s = true.

Section FeedRows.

Lemma convertTimeFormat_text (v : value) (t : string) :
  convertTimeFormat v = Some t -> ClockText t.
Proof.
  intros H. destruct (convertTimeFormat_inv v t H) as (s & -> & [Hs | Hs]).
  - rewrite (convertTimeFormat_four_digits s Hs) in H. injection H as <-.
    destruct (four_digits_inv s Hs) as (hh & mm & _ & Hh & Hm & -> & ->).
    exists hh, mm. destruct Hh as [Hh1 Hh2], Hm as [Hm1 Hm2].
    repeat split; try assumption. now left.
  - destruct Hs as (lead & h & m & sec & per & trail & w & Hs & ->).
    rewrite (convertTimeFormat_colon _ _ _ _ _ _ _ Hs) in H. injection H as <-.
    destruct Hs as (_ & _ & Hhd & Hhl & Hmd & Hml & _).
    pose proof (hour_value_range h (conj Hhd Hhl)) as Hv.
    pose proof (twentyFourHour_range w _ Hv) as Hr.
    destruct (hour_text _ Hr) as [Hd Hl].
    exists (padStart 2 "0" (numberToString (twentyFourHour w (decimalValue h)))), m.
    repeat split; assumption.
Qed.

Lemma ClockText_truthy (t : string) : ClockText t -> truthy (Str t) = true.
Proof.
  intros (hh & mm & -> & _ & Hl & _).
  destruct hh as [| c hh]; [destruct Hl as [Hl | Hl]; discriminate Hl | reflexivity].
Qed.

Lemma anyDayFlag_of_days (item : ScheduleItem) :
  extractDaysFromSchedule item <> [] -> anyDayFlag item = true.
Proof.
  intros H. unfold anyDayFlag.
  destruct (isY (modays item)) eqn:E0;
    [apply isY_spec in E0; rewrite E0; reflexivity |].
  destruct (isY (tuesdays item)) eqn:E1;
    [apply isY_spec in E1; rewrite E1; destruct (truthy (modays item)); reflexivity |].
  destruct (isY (wednesdays item)) eqn:E2;
    [apply isY_spec in E2; rewrite E2;
     destruct (truthy (modays item)), (truthy (tuesdays item)); reflexivity |].
  destruct (isY (thursdays item)) eqn:E3;
    [apply isY_spec in E3; rewrite E3;
     destruct (truthy (modays item)), (truthy (tuesdays item)),
              (truthy (wednesdays item)); reflexivity |].
  destruct (isY (fridays item)) eqn:E4;
    [apply isY_spec in E4; rewrite E4;
     destruct (truthy (modays item)), (truthy (tuesdays item)),
              (truthy (wednesdays item)), (truthy (thursdays item)); reflexivity |].
  destruct (isY (saturdays item)) eqn:E5;
    [apply isY_spec in E5; rewrite E5;
     destruct (truthy (modays item)), (truthy (tuesdays item)),
              (truthy (wednesdays item)), (truthy (thursdays item)),
              (truthy (fridays item)); reflexivity |].
  destruct (isY (sundays item)) eqn:E6;
    [apply isY_spec in E6; rewrite E6;
     destruct (truthy (modays item)), (truthy (tuesdays item)),
              (truthy (wednesdays item)), (truthy (thursdays item)),
              (truthy (fridays item)), (truthy (saturdays item)); reflexivity |].
  exfalso. apply H. unfold extractDaysFromSchedule.
  now rewrite E0, E1, E2, E3, E4, E5, E6.
Qed.

(** The Meeting the code builds from a row is the Meeting the row stands
    for. *)
Lemma meetingOf_rowMeeting (item : ScheduleItem) : meetingOf item = rowMeeting item.
Proof.
  unfold meetingOf, rowMeeting.
  destruct (extractDaysFromSchedule item) as [| d ds] eqn:Ed.
  - destruct (anyDayFlag item); [| reflexivity].
    destruct (convertTimeFormat (classStartTime item)); [| reflexivity].
    destruct (convertTimeFormat (classEndTime item)); reflexivity.
  - assert (Hflag : anyDayFlag item = true).
    { apply anyDayFlag_of_days. rewrite Ed. discriminate. }
    rewrite Hflag.
    destruct (convertTimeFormat (classStartTime item)) as [st |] eqn:Es; [| reflexivity].
    destruct (convertTimeFormat (classEndTime item)) as [en |] eqn:Ee; [| reflexivity].
    rewrite (ClockText_truthy st (convertTimeFormat_text _ _ Es)).
    rewrite (ClockText_truthy en (convertTimeFormat_text _ _ Ee)).
    reflexivity.
Qed.

Lemma rowMeeting_Some (item : ScheduleItem) (mt : Meeting) :
  rowMeeting item = Some mt ->
  days mt = extractDaysFromSchedule item
  /\ days mt <> []
  /\ convertTimeFormat (classStartTime item) = Some (CourseService.startTime mt)
  /\ convertTimeFormat (classEndTime item) = Some (CourseService.endTime mt).
Proof. rewrite <- meetingOf_rowMeeting. apply meetingOf_Some. Qed.

Lemma rowMeeting_built (item : ScheduleItem) (st en : string) :
  extractDaysFromSchedule item <> [] ->
  convertTimeFormat (classStartTime item) = Some st ->
  convertTimeFormat (classEndTime item) = Some en ->
  exists mt,
    rowMeeting item = Some mt
    /\ days mt = extractDaysFromSchedule item
    /\ CourseService.startTime mt = st /\ CourseService.endTime mt = en.
Proof.
  intros Hd Hs He. unfold rowMeeting. rewrite Hs, He.
  destruct (extractDaysFromSchedule item) as [| d ds]; [contradiction |].
  eexists. split; [reflexivity |]. repeat split.
Qed.

Lemma rowMeeting_None (item : ScheduleItem) :
  extractDaysFromSchedule item = []
  \/ convertTimeFormat (classStartTime item) = None
  \/ convertTimeFormat (classEndTime item) = None ->
  rowMeeting item = None.
Proof. rewrite <- meetingOf_rowMeeting. apply meetingOf_None. Qed.

Lemma meetingsOfKey_rows (k : string) (rows : list ScheduleItem) :
  meetingsOfKey k rows
  = flat_map (fun item =>
                if (toString (section item) ++ "-" ++ toString (componentCode item) =? k)%string
                then match rowMeeting item with
                     | Some mt => [mt]
                     | None => []
                     end
                else []) rows.
Proof.
  unfold meetingsOfKey. induction rows as [| x rows IH]; [reflexivity |].
  cbn [flat_map]. rewrite IH. unfold meetingList, sectionKey.
  now rewrite meetingOf_rowMeeting.
Qed.

Lemma hyphen_split (a b a' b' : string) :
  NoHyphen a -> NoHyphen a' ->
  a ++ "-" ++ b = a' ++ "-" ++ b' -> a = a' /\ b = b'.
Proof.
  unfold NoHyphen. revert a'. induction a as [| c a IH]; intros [| c' a'] Ha Ha' E.
  - cbn in E. injection E as ->. now split.
  - cbn in E. injection E as <- _. cbn in Ha'. discriminate Ha'.
  - cbn in E. injection E as -> _. cbn in Ha. discriminate Ha.
  - cbn [append] in E. injection E as -> E.
    cbn [allChars] in Ha, Ha'.
    apply andb_true_iff in Ha as [_ Ha]. apply andb_true_iff in Ha' as [_ Ha'].
    destruct (IH a' Ha Ha' E) as [-> ->]. now split.
Qed.

End FeedRows.

Section FeedClaims.

(** C4.  Rows are merged by the text of their section and componentCode
    joined by a hyphen: [processScheduleResponse] returns one section per
    such key that has a Meeting, no key twice.  The schedule of the section
    under a key is the list, in row order, of the Meetings of all rows with
    that key, and it is not empty; the section's label and type are the
    sanitized section and the normalized componentCode of the first row
    with the key.  Two rows with the same section text and the same
    componentCode text have their Meetings in one and the same section; for
    section texts without a hyphen, rows share a key only then.  A row
    stands for a Meeting exactly when its day-set is not empty and both its
    times parse: every Meeting of the output comes from such a row, every
    such row has its Meeting in the output, and a row with an empty day-set
    or a time that does not parse stands for none. *)
Theorem feed_rows_merge_into_valid_sections (scheduleData : list ScheduleItem) :
  let key := fun item : ScheduleItem =>
    toString (section item) ++ "-" ++ toString (componentCode item) in
  let meetingsUnder := fun k : string =>
    flat_map (fun item => if (key item =? k)%string
                          then match rowMeeting item with
                               | Some mt => [mt]
                               | None => []
                               end
                          else []) scheduleData in
  (exists keyed : list (string * Section),
     processScheduleResponse scheduleData = map snd keyed
     /\ NoDup (map fst keyed)
     /\ (forall k sec, In (k, sec) keyed ->
           schedule sec = meetingsUnder k
           /\ schedule sec <> []
           /\ exists first,
                find (fun item => (key item =? k)%string) scheduleData = Some first
                /\ sSection sec = sanitizeString (section first)
                /\ sType sec = normalizeClassType (componentCode first))
     /\ (forall item mt, In item scheduleData -> rowMeeting item = Some mt ->
           exists sec, In (key item, sec) keyed /\ In mt (schedule sec)))
  /\ (forall a b mtA mtB,
        In a scheduleData -> In b scheduleData ->
        toString (section a) = toString (section b) ->
        toString (componentCode a) = toString (componentCode b) ->
        rowMeeting a = Some mtA -> rowMeeting b = Some mtB ->
        exists sec, In sec (processScheduleResponse scheduleData)
                    /\ In mtA (schedule sec) /\ In mtB (schedule sec))
  /\ (forall a b : ScheduleItem,
        NoHyphen (toString (section a)) -> NoHyphen (toString (section b)) ->
        (key a = key b
         <-> toString (section a) = toString (section b)
             /\ toString (componentCode a) = toString (componentCode b)))
  /\ (forall sec, In sec (processScheduleResponse scheduleData) ->
        schedule sec <> []
        /\ forall mt, In mt (schedule sec) ->
             exists item,
               In item scheduleData
               /\ days mt = extractDaysFromSchedule item /\ days mt <> []
               /\ convertTimeFormat (classStartTime item) = Some (CourseService.startTime mt)
               /\ convertTimeFormat (classEndTime item) = Some (CourseService.endTime mt))
  /\ (forall item st en,
        In item scheduleData ->
        extractDaysFromSchedule item <> [] ->
        convertTimeFormat (classStartTime item) = Some st ->
        convertTimeFormat (classEndTime item) = Some en ->
        exists sec mt,
          In sec (processScheduleResponse scheduleData) /\ In mt (schedule sec)
          /\ days mt = extractDaysFromSchedule item
          /\ CourseService.startTime mt = st /\ CourseService.endTime mt = en)
  /\ (forall item,
        extractDaysFromSchedule item = []
        \/ convertTimeFormat (classStartTime item) = None
        \/ convertTimeFormat (classEndTime item) = None ->
        rowMeeting item = None).
Proof.
  intros key meetingsUnder.
  destruct (buildSectionsMap_invariant scheduleData) as (Hn & Hs & Hk).
  set (keep := fun e : string * Section => (0 <? List.length (schedule (snd e)))%nat).
  set (keyed := filter keep (buildSectionsMap scheduleData)).
  assert (Hout : processScheduleResponse scheduleData = map snd keyed).
  { unfold processScheduleResponse. now rewrite map_snd_filter. }
  assert (Hsched : forall k sec, In (k, sec) keyed ->
            schedule sec = meetingsUnder k /\ schedule sec <> []).
  { intros k sec Hin. apply filter_In in Hin as [Hin Hkeep]. split.
    - rewrite (Hs _ _ Hin). apply meetingsOfKey_rows.
    - unfold keep in Hkeep. cbn [snd] in Hkeep. intros E. rewrite E in Hkeep.
      discriminate. }
  assert (Hrow : forall item mt, In item scheduleData -> rowMeeting item = Some mt ->
            exists sec, In (key item, sec) keyed /\ In mt (schedule sec)).
  { intros item mt Hi Hm. specialize (Hk item Hi).
    apply in_map_iff in Hk as ([k sec] & Ek & Hin). cbn [fst] in Ek. subst k.
    assert (Hmt : In mt (schedule sec)).
    { rewrite (Hs _ _ Hin). apply In_meetingsOfKey. exists item.
      split; [assumption |]. split; [reflexivity |]. now rewrite meetingOf_rowMeeting. }
    exists sec. split; [| assumption].
    apply filter_In. split; [exact Hin |]. unfold keep. cbn [snd].
    destruct (schedule sec); [contradiction | reflexivity]. }
  assert (Hkeys : NoDup (map fst keyed)) by now apply NoDup_keys_filter.
  split; [| split; [| split; [| split; [| split; [| exact rowMeeting_None]]]]].
  - exists keyed. split; [assumption |]. split; [assumption |]. split; [| exact Hrow].
    intros k sec Hin. destruct (Hsched k sec Hin) as [H1 H2].
    split; [assumption |]. split; [assumption |].
    apply filter_In in Hin as [Hin _].
    destruct (buildSectionsMap_first_row scheduleData k sec Hin) as (first & Hf & Hid).
    exists first. split; [exact Hf |]. unfold sameIdentity in Hid. split.
    + exact (f_equal sSection Hid).
    + exact (f_equal sType Hid).
  - intros a b mtA mtB Ha Hb Es Ec Hma Hmb.
    destruct (Hrow a mtA Ha Hma) as (secA & HinA & HmA).
    destruct (Hrow b mtB Hb Hmb) as (secB & HinB & HmB).
    assert (Ekey : key b = key a) by (unfold key; now rewrite Es, Ec).
    rewrite Ekey in HinB.
    assert (Esec : secB = secA).
    { destruct (Hsched _ _ HinA) as [EA _]. destruct (Hsched _ _ HinB) as [EB _].
      apply filter_In in HinA as [HinA _]. apply filter_In in HinB as [HinB _].
      destruct (buildSectionsMap_first_row scheduleData _ _ HinA) as (fA & HfA & HiA).
      destruct (buildSectionsMap_first_row scheduleData _ _ HinB) as (fB & HfB & HiB).
      change (find (fun item => (sectionKey item =? key a)%string) scheduleData)
        with (find (fun item => (sectionKey item =? sectionKey a)%string) scheduleData)
        in HfA, HfB.
      rewrite HfA in HfB. injection HfB as <-.
      rewrite (section_from_parts secA (newSection fA) _ HiA EA).
      now rewrite (section_from_parts secB (newSection fA) _ HiB EB). }
    subst secB. exists secA. split; [| now split].
    rewrite Hout. apply in_map_iff. now exists (key a, secA).
  - intros a b Hna Hnb. unfold key. split.
    + now apply hyphen_split.
    + intros [-> ->]. reflexivity.
  - intros sec Hin. rewrite Hout in Hin. apply in_map_iff in Hin as ([k sec'] & E & Hin).
    cbn [snd] in E. subst sec'. destruct (Hsched k sec Hin) as [_ Hne].
    split; [assumption |]. intros mt Hmt.
    apply filter_In in Hin as [Hin _]. rewrite (Hs _ _ Hin) in Hmt.
    apply In_meetingsOfKey in Hmt as (item & Hi & _ & Hm).
    exists item. split; [assumption |]. now apply meetingOf_Some.
  - intros item st en Hi Hd Hst Hen.
    destruct (rowMeeting_built item st en Hd Hst Hen) as (mt & Hm & Hdays & Est & Een).
    destruct (Hrow item mt Hi Hm) as (sec & Hin & Hmt).
    exists sec, mt. split; [| repeat split; assumption].
    rewrite Hout. apply in_map_iff. now exists (key item, sec).
Qed.

End FeedClaims.
